(** * TopoModelX tutorials: the SCA-CMPS and the DHGCN training notebooks

    A shallow embedding of the code cells of the two notebooks held in
    [tutorials/simplicial/sca_cmps_train.ipynb].  The notebooks are
    scripts over external libraries (toponetx, scipy, numpy, torch,
    sklearn, topomodelx): every library function is a field of the
    class [Externals] and is left uninterpreted; a cell is a command of
    the monad [M], which threads the interpreter state (the global
    namespace and the mutable model and optimizer objects), may raise a
    Python exception, and records every library call it makes. *)

From stdpp Require Import gmap strings list.
From Stdlib Require Import ZArith QArith Qround Lia.

Local Open Scope string_scope.
Local Open Scope list_scope.
Local Open Scope Z_scope.

(** ** Values *)

(** The types of the objects handed around by the external libraries. *)
Class Carriers := {
  Device : Type;              (* torch.device *)
  NdArray : Type;             (* numpy.ndarray: the feature matrix of one sample *)
  Scalar : Type;              (* numpy scalar: the label of one sample *)
  SimplicialComplex : Type;   (* toponetx.SimplicialComplex *)
  Sparse : Type;              (* scipy.sparse matrix *)
  Dense : Type;               (* numpy.matrix, the result of todense() *)
  Tensor : Type;              (* torch.Tensor, strided or sparse *)
  Hypergraph : Type;          (* the result of to_hypergraph() *)
  Float : Type;               (* a Python float *)
  Params : Type;              (* the values of model.parameters() *)
  Grads : Type;               (* the .grad fields of the parameters *)
  Buffers : Type;             (* the non-parameter state of a torch module *)
  OptState : Type             (* the internal state of torch.optim.Adam *)
}.

#[local] Set Warnings "-register-all".

(** Python values.  A Python list, a tuple and a numpy array indexed by
    sample are all sequences [VSeq]; a dict keeps its insertion order.
    [VModel], [VParameters], [VOptimizer] and [VLossFn] are references
    to the mutable objects kept in the interpreter state. *)
Inductive Val `{Carriers} : Type :=
| VNone
| VBool (b : bool)
| VInt (n : Z)
| VReal (q : Q)               (* a float literal of the source, such as 0.2 *)
| VFloat (x : Float)
| VStr (s : string)
| VDevice (d : Device)
| VArr (a : NdArray)
| VScalar (y : Scalar)
| VComplex (c : SimplicialComplex)
| VSparse (m : Sparse)
| VDense (m : Dense)
| VTensor (t : Tensor)
| VHyper (h : Hypergraph)
| VSeq (l : list Val)
| VDict (d : list (string * Val))
| VModel
| VParameters               (* model.parameters(): the parameter tensors of [VModel] *)
| VOptimizer
| VLossFn.

(** One call into a library (or to the builtin [print]): the name of the
    callee, the arguments and the result. *)
Record Call `{Carriers} := mkCall { fn : string; args : list Val; result : Val }.
Arguments mkCall {_} fn args result.

(** ** The external libraries *)

(** The functions of torch, numpy, toponetx and topomodelx that the
    notebooks call.  Their code is not part of the repository: each one
    is taken as an unknown function of its arguments, which it reads and
    does not write; what a call writes (the parameters, the gradients,
    the buffers of the model and the state of the optimizer) is made
    explicit by the wrappers of the section [Library]. *)

Class Externals `{Carriers} := {
  (* torch: devices and tensors *)
  cuda_is_available : bool;
  torch_device : string → Device;
  torch_tensor : NdArray → Tensor;            (* torch.tensor(array): a copy *)
  torch_tensor_scalar : Scalar → Tensor;      (* torch.tensor(y, dtype=torch.float) *)
  tensor_float : Tensor → Tensor;
  tensor_to : Device → Tensor → Tensor;
  from_numpy : Dense → Tensor;
  to_sparse : Tensor → Tensor;
  tensor_shape : Tensor → list Z;
  tensor_item : Tensor → Float;
  (* numpy and scipy *)
  ndarray_shape : NdArray → list Z;
  np_mean : list Float → Float;
  todense : Sparse → Dense;
  transpose : Sparse → Sparse;
  rng_permutation : nat → list nat;           (* used by sklearn when shuffle=True *)
  (* toponetx *)
  shrec_16 : string → list (string * Val) * list (string * Val);
  down_laplacian_matrix : SimplicialComplex → Z → Sparse;
  incidence_matrix : SimplicialComplex → Z → bool → Sparse;
  to_hypergraph : SimplicialComplex → Hypergraph;
  (* topomodelx: model constructors and the forward pass *)
  SCACMPS_init : list Z → Z → Z → Z → bool → Params * Buffers;
  DHGCN_init : Z → Z → Params * Buffers;
  params_to : Device → Params → Params;
  buffers_to : Device → Buffers → Buffers;
  grad_unset : Grads;                         (* the .grad fields of fresh parameters *)
  module_forward : Params → Buffers → bool → bool → Tensor → Tensor * Buffers;
  (* torch: loss, autograd and Adam *)
  mse_loss : Tensor → Tensor → Tensor;
  tensor_backward : Tensor → Params → Grads → Grads;
  adam_init : Params → Q → OptState;
  adam_zero_grad : Grads → Grads;
  adam_step : OptState → Params → Grads → OptState * Params
}.

(** ** Interpreter state *)

(** The module object behind [VModel].  The optimizer is built from
    [model.parameters()] and so shares the parameter tensors with the
    module: [opt.step()] and [opt.zero_grad()] write these fields. *)
Record ModuleObj `{Carriers} := mkModule {
  parameters : Params;
  grad : Grads;
  buffers : Buffers;
  training : bool
}.
Arguments mkModule {_} parameters grad buffers training.

Record Kernel `{Carriers} := mkKernel {
  globals : gmap string Val;        (* the namespace of the notebook *)
  model_obj : option ModuleObj;     (* the object behind [VModel] *)
  adam_obj : option OptState;       (* the object behind [VOptimizer] *)
  grad_enabled : bool               (* torch.is_grad_enabled() *)
}.
Arguments mkKernel {_} globals model_obj adam_obj grad_enabled.

Inductive exn : Type :=
| NameError (x : string)
| KeyError (x : string)
| IndexError
| TypeError
| ValueError
| ZeroDivisionError.

(** A command ends normally with a value or raises; in both cases the
    interpreter is left in some state. *)
Inductive outcome `{Carriers} (A : Type) : Type :=
| Ok (a : A) (k : Kernel)
| Raise (e : exn) (k : Kernel).
Arguments Ok {_ _} a k.
Arguments Raise {_ _} e k.

Definition final `{Carriers} {A} (o : outcome A) : Kernel :=
  match o with Ok _ k => k | Raise _ k => k end.

(** A command maps a state to the calls it made and its outcome. *)
Definition M `{Carriers} (A : Type) : Type := Kernel → list Call * outcome A.

Section Monad.
Context `{Carriers}.

Definition ret {A} (a : A) : M A := λ k, ([], Ok a k).

Definition bind {A B} (m : M A) (f : A → M B) : M B := λ k,
  match m k with
  | (l, Ok a k') => match f a k' with (l', o) => (l ++ l', o) end
  | (l, Raise e k') => (l, Raise e k')
  end.

Definition raise {A} (e : exn) : M A := λ k, ([], Raise e k).

(** [try: m finally: fin] *)
Definition finally {A} (m : M A) (fin : M unit) : M A := λ k,
  match m k with
  | (l, Ok a k') =>
      match fin k' with
      | (l', Ok _ k'') => (l ++ l', Ok a k'')
      | (l', Raise e k'') => (l ++ l', Raise e k'')
      end
  | (l, Raise e k') =>
      match fin k' with
      | (l', Ok _ k'') => (l ++ l', Raise e k'')
      | (l', Raise e' k'') => (l ++ l', Raise e' k'')
      end
  end.

End Monad.

Declare Scope py_scope.
Delimit Scope py_scope with py.
Notation "x <- m ;; k" := (bind m (λ x, k))
  (at level 100, m at next level, right associativity) : py_scope.
Notation "m ;; k" := (bind m (λ _, k))
  (at level 100, right associativity) : py_scope.
Local Open Scope py_scope.

Section Primitives.
Context `{Externals}.

Definition with_globals (g : gmap string Val) (k : Kernel) : Kernel :=
  mkKernel g (model_obj k) (adam_obj k) (grad_enabled k).
Definition with_model (o : option ModuleObj) (k : Kernel) : Kernel :=
  mkKernel (globals k) o (adam_obj k) (grad_enabled k).
Definition with_adam (s : option OptState) (k : Kernel) : Kernel :=
  mkKernel (globals k) (model_obj k) s (grad_enabled k).
Definition with_grad_enabled (b : bool) (k : Kernel) : Kernel :=
  mkKernel (globals k) (model_obj k) (adam_obj k) b.

(** Reading and binding a global name. *)
Definition get_var (x : string) : M Val := λ k,
  match globals k !! x with
  | Some v => ([], Ok v k)
  | None => ([], Raise (NameError x) k)
  end.

Definition set_var (x : string) (v : Val) : M unit := λ k,
  ([], Ok () (with_globals (<[x:=v]> (globals k)) k)).

(** [x = e] *)
Definition assign (x : string) (e : M Val) : M unit := v <- e ;; set_var x v.

(** A call that does not touch the interpreter state. *)
Definition ext (f : string) (a : list Val) (r : Val) : M Val := λ k,
  ([mkCall f a r], Ok r k).

(** Dynamic type tests: a value of the wrong kind raises. *)
Definition as_seq (v : Val) : M (list Val) :=
  match v with VSeq l => ret l | _ => raise TypeError end.
Definition as_int (v : Val) : M Z :=
  match v with VInt n => ret n | _ => raise TypeError end.
Definition as_float (v : Val) : M Float :=
  match v with VFloat x => ret x | _ => raise TypeError end.

(** [for x in l: body] *)
Fixpoint for_each {A} (l : list A) (body : A → M unit) : M unit :=
  match l with
  | [] => ret ()
  | x :: l' => body x ;; for_each l' body
  end.

(** [range(a, b)] *)
Definition range (a b : Z) : list Z :=
  map (λ i, a + Z.of_nat i) (seq 0 (Z.to_nat (b - a))).

(** [l[i]], negative indices counting from the end. *)
Definition py_index (l : list Val) (i : Z) : option Val :=
  if 0 <=? i then l !! Z.to_nat i
  else if 0 <=? Z.of_nat (length l) + i then l !! Z.to_nat (Z.of_nat (length l) + i)
  else None.

Definition index (v : Val) (i : Z) : M Val :=
  l <- as_seq v ;;
  match py_index l i with Some x => ret x | None => raise IndexError end.

(** [d[key]] *)
Fixpoint dict_get (d : list (string * Val)) (key : string) : option Val :=
  match d with
  | [] => None
  | (k', v) :: d' => if String.eqb k' key then Some v else dict_get d' key
  end.

Definition subscript (v : Val) (key : string) : M Val :=
  match v with
  | VDict d => match dict_get d key with Some x => ret x | None => raise (KeyError key) end
  | _ => raise TypeError
  end.

(** [lst.append(x)]: the list bound to [lst] is extended in place; no
    other name is bound to the same list object in either notebook. *)
Definition append (lst : string) (e : M Val) : M unit :=
  l <- get_var lst ;; l <- as_seq l ;; v <- e ;; set_var lst (VSeq (l ++ [v])).

(** [print(...)]: the pieces of the printed line; [display] is the value
    a cell shows when its last statement is an expression. *)
Definition print (pieces : list Val) : M unit :=
  ext "print" pieces VNone ;; ret ().
Definition display (e : M Val) : M unit :=
  v <- e ;; ext "display" [v] VNone ;; ret ().

(** [a, b = e] *)
Definition unpack2 (a b : string) (e : M Val) : M unit :=
  v <- e ;; l <- as_seq v ;;
  match l with
  | [x; y] => set_var a x ;; set_var b y
  | _ => raise ValueError
  end.

(** [zip(a, b)] *)
Definition zip_ (a b : Val) : M (list (Val * Val)) :=
  la <- as_seq a ;; lb <- as_seq b ;; ret (zip la lb).

(** [a % b] on Python ints: the sign follows the divisor. *)
Definition py_mod (a b : Z) : M Z :=
  if b =? 0 then raise ZeroDivisionError else ret (a `mod` b).

End Primitives.

(** ** The library calls used by the notebooks

    Each wrapper checks the kinds of its arguments, applies the
    uninterpreted library function and records the call.  Keyword
    arguments are recorded as a trailing dict. *)

Section Library.
Context `{Externals}.

Definition kw (l : list (string * Val)) : Val := VDict l.

(** *** torch: devices and tensors *)

Definition cuda_is_available_ : M Val :=
  ext "torch.cuda.is_available" [] (VBool cuda_is_available).

Definition torch_device_ (v : Val) : M Val :=
  match v with
  | VStr s => ext "torch.device" [v] (VDevice (torch_device s))
  | _ => raise TypeError
  end.

Definition torch_tensor_ (v : Val) : M Val :=
  match v with
  | VArr a => ext "torch.tensor" [v] (VTensor (torch_tensor a))
  | _ => raise TypeError
  end.

(** [torch.tensor(y, dtype=torch.float)] *)
Definition torch_tensor_float_ (v : Val) : M Val :=
  match v with
  | VScalar y =>
      ext "torch.tensor" [v; kw [("dtype", VStr "torch.float")]]
        (VTensor (torch_tensor_scalar y))
  | _ => raise TypeError
  end.

Definition float_ (v : Val) : M Val :=
  match v with
  | VTensor t => ext "Tensor.float" [v] (VTensor (tensor_float t))
  | _ => raise TypeError
  end.

Definition to_ (v d : Val) : M Val :=
  match v, d with
  | VTensor t, VDevice dev => ext "Tensor.to" [v; d] (VTensor (tensor_to dev t))
  | _, _ => raise TypeError
  end.

Definition from_numpy_ (v : Val) : M Val :=
  match v with
  | VDense m => ext "torch.from_numpy" [v] (VTensor (from_numpy m))
  | _ => raise TypeError
  end.

Definition to_sparse_ (v : Val) : M Val :=
  match v with
  | VTensor t => ext "Tensor.to_sparse" [v] (VTensor (to_sparse t))
  | _ => raise TypeError
  end.

Definition item_ (v : Val) : M Val :=
  match v with
  | VTensor t => ext "Tensor.item" [v] (VFloat (tensor_item t))
  | _ => raise TypeError
  end.

(** *** numpy and scipy *)

(** [np.array(value)]: the items are kept, in order. *)
Definition np_array_ (v : Val) : M Val := ext "np.array" [v] v.

Definition item_shape (v : Val) : list Z :=
  match v with VArr a => ndarray_shape a | _ => [] end.

(** The shape of an array of samples: its length, followed by the shape
    of the samples when they all have the same one. *)
Definition seq_shape (l : list Val) : list Z :=
  Z.of_nat (length l) ::
  match map item_shape l with
  | [] => []
  | s :: ss => if forallb (λ s', bool_decide (s' = s)) ss then s else []
  end.

(** [v.shape] *)
Definition shape_ (v : Val) : M Val :=
  match v with
  | VArr a => ext "ndarray.shape" [v] (VSeq (map VInt (ndarray_shape a)))
  | VSeq l => ext "ndarray.shape" [v] (VSeq (map VInt (seq_shape l)))
  | VTensor t => ext "Tensor.shape" [v] (VSeq (map VInt (tensor_shape t)))
  | _ => raise TypeError
  end.

Fixpoint floats_of (l : list Val) : option (list Float) :=
  match l with
  | [] => Some []
  | VFloat x :: l' => match floats_of l' with Some r => Some (x :: r) | None => None end
  | _ :: _ => None
  end.

Definition np_mean_ (v : Val) : M Val :=
  l <- as_seq v ;;
  match floats_of l with
  | Some xs => ext "np.mean" [v] (VFloat (np_mean xs))
  | None => raise TypeError
  end.

Definition todense_ (v : Val) : M Val :=
  match v with
  | VSparse m => ext "spmatrix.todense" [v] (VDense (todense m))
  | _ => raise TypeError
  end.

(** [m.T] *)
Definition T_ (v : Val) : M Val :=
  match v with
  | VSparse m => ext "spmatrix.T" [v] (VSparse (transpose m))
  | _ => raise TypeError
  end.

(** *** toponetx *)

(** [datasets.mesh.shrec_16(size=...)]: a pair of dicts. *)
Definition shrec_16_ (size : string) : M Val :=
  ext "datasets.mesh.shrec_16" [kw [("size", VStr size)]]
    (VSeq [VDict (fst (shrec_16 size)); VDict (snd (shrec_16 size))]).

(** [sc.down_laplacian_matrix(rank=r)] *)
Definition down_laplacian_matrix_ (sc : Val) (r : Z) : M Val :=
  match sc with
  | VComplex c =>
      ext "SimplicialComplex.down_laplacian_matrix" [sc; kw [("rank", VInt r)]]
        (VSparse (down_laplacian_matrix c r))
  | _ => raise TypeError
  end.

(** [sc.incidence_matrix(rank=r)]; [signed] defaults to True. *)
Definition incidence_matrix_ (sc : Val) (r : Z) : M Val :=
  match sc with
  | VComplex c =>
      ext "SimplicialComplex.incidence_matrix" [sc; kw [("rank", VInt r)]]
        (VSparse (incidence_matrix c r true))
  | _ => raise TypeError
  end.

(** [sc.incidence_matrix(rank=r, signed=b)] *)
Definition incidence_matrix_signed_ (sc : Val) (r : Z) (b : bool) : M Val :=
  match sc with
  | VComplex c =>
      ext "SimplicialComplex.incidence_matrix"
        [sc; kw [("rank", VInt r); ("signed", VBool b)]]
        (VSparse (incidence_matrix c r b))
  | _ => raise TypeError
  end.

Definition to_hypergraph_ (sc : Val) : M Val :=
  match sc with
  | VComplex c => ext "SimplicialComplex.to_hypergraph" [sc] (VHyper (to_hypergraph c))
  | _ => raise TypeError
  end.

(** *** sklearn

    [train_test_split] is not part of the repository.  It is modelled
    after the documented behaviour of sklearn.model_selection: a float
    [test_size] (here the decimal literal of the source, as a rational)
    must lie strictly between 0 and 1, the test part has
    ceil(test_size * n) samples and the training part the others, and an
    empty training part is an error.  Without shuffling the training
    part is the leading block and the test part the block after it; with
    shuffling both are read off a random permutation of the indices. *)
Definition split_sizes (n : nat) (test_size : Q) : option (nat * nat) :=
  if Qle_bool test_size 0 || Qle_bool 1 test_size then None
  else
    let n_test := Qceiling (test_size * inject_Z (Z.of_nat n)) in
    let n_train := Z.of_nat n - n_test in
    if n_train <=? 0 then None else Some (Z.to_nat n_train, Z.to_nat n_test).

Definition pick (l : list Val) (idx : list nat) : list Val :=
  omap (λ i, l !! i) idx.

Definition train_test_split_ (arr : Val) (test_size : Q) (shuffle : bool) : M Val :=
  l <- as_seq arr ;;
  match split_sizes (length l) test_size with
  | None => raise ValueError
  | Some (n_train, n_test) =>
      let p := rng_permutation (length l) in
      let train :=
        if shuffle then pick l (take n_train (drop n_test p)) else take n_train l in
      let test :=
        if shuffle then pick l (take n_test p) else take n_test (drop n_train l) in
      ext "train_test_split"
        [arr; kw [("test_size", VReal test_size); ("shuffle", VBool shuffle)]]
        (VSeq [VSeq train; VSeq test])
  end.

(** *** topomodelx and torch.nn: the model object *)

Fixpoint ints_of (l : list Val) : option (list Z) :=
  match l with
  | [] => Some []
  | VInt n :: l' => match ints_of l' with Some r => Some (n :: r) | None => None end
  | _ :: _ => None
  end.

(** A freshly built module is in training mode and has no gradients. *)
Definition new_module (pb : Params * Buffers) : ModuleObj :=
  mkModule (fst pb) grad_unset (snd pb) true.

(** [SCACMPS(channels_list=..., complex_dim=..., n_classes=..., n_layers=..., att=...)] *)
Definition SCACMPS_ (channels_list complex_dim : Val) (n_classes n_layers : Z)
    (att : bool) : M Val := λ k,
  match channels_list, complex_dim with
  | VSeq cl, VInt cd =>
      match ints_of cl with
      | Some chans =>
          ([mkCall "SCACMPS"
              [kw [("channels_list", channels_list); ("complex_dim", complex_dim);
                   ("n_classes", VInt n_classes); ("n_layers", VInt n_layers);
                   ("att", VBool att)]] VModel],
           Ok VModel
             (with_model
                (Some (new_module (SCACMPS_init chans cd n_classes n_layers att))) k))
      | None => ([], Raise TypeError k)
      end
  | _, _ => ([], Raise TypeError k)
  end.

(** [DHGCN(channels_node, n_layers=...)] *)
Definition DHGCN_ (channels_node : Val) (n_layers : Z) : M Val := λ k,
  match channels_node with
  | VInt c =>
      ([mkCall "DHGCN" [channels_node; kw [("n_layers", VInt n_layers)]] VModel],
       Ok VModel (with_model (Some (new_module (DHGCN_init c n_layers))) k))
  | _ => ([], Raise TypeError k)
  end.

(** [model.to(device)]: moves the module in place and returns it. *)
Definition module_to_ (m d : Val) : M Val := λ k,
  match m, d, model_obj k with
  | VModel, VDevice dev, Some o =>
      ([mkCall "Module.to" [m; d] VModel],
       Ok VModel
         (with_model
            (Some (mkModule (params_to dev (parameters o)) (grad o)
                     (buffers_to dev (buffers o)) (training o))) k))
  | _, _, _ => ([], Raise TypeError k)
  end.

(** [model.parameters()] *)
Definition parameters_ (m : Val) : M Val := λ k,
  match m, model_obj k with
  | VModel, Some _ => ([mkCall "Module.parameters" [m] VParameters], Ok VParameters k)
  | _, _ => ([], Raise TypeError k)
  end.

(** [model.train()] *)
Definition train_ (m : Val) : M Val := λ k,
  match m, model_obj k with
  | VModel, Some o =>
      ([mkCall "Module.train" [m] VModel],
       Ok VModel
         (with_model (Some (mkModule (parameters o) (grad o) (buffers o) true)) k))
  | _, _ => ([], Raise TypeError k)
  end.

(** [model(x)]: the forward pass reads the parameters and may update
    the buffers of the module. *)
Definition model_call_ (m x : Val) : M Val := λ k,
  match m, x, model_obj k with
  | VModel, VTensor t, Some o =>
      let r := module_forward (parameters o) (buffers o) (training o) (grad_enabled k) t in
      ([mkCall "Module.__call__" [m; x] (VTensor (fst r))],
       Ok (VTensor (fst r))
         (with_model (Some (mkModule (parameters o) (grad o) (snd r) (training o))) k))
  | _, _, _ => ([], Raise TypeError k)
  end.

(** *** torch: loss, autograd and Adam *)

Definition MSELoss_ : M Val := ext "torch.nn.MSELoss" [] VLossFn.

(** [loss_fn(y_hat, y)] *)
Definition loss_call_ (f y_hat y : Val) : M Val :=
  match f, y_hat, y with
  | VLossFn, VTensor a, VTensor b =>
      ext "MSELoss.__call__" [f; y_hat; y] (VTensor (mse_loss a b))
  | _, _, _ => raise TypeError
  end.

(** [torch.optim.Adam(params, lr=...)] *)
Definition Adam_ (params : Val) (lr : Q) : M Val := λ k,
  match params, model_obj k with
  | VParameters, Some o =>
      ([mkCall "torch.optim.Adam" [params; kw [("lr", VReal lr)]] VOptimizer],
       Ok VOptimizer (with_adam (Some (adam_init (parameters o) lr)) k))
  | _, _ => ([], Raise TypeError k)
  end.

(** [opt.zero_grad()] *)
Definition zero_grad_ (opt : Val) : M Val := λ k,
  match opt, adam_obj k, model_obj k with
  | VOptimizer, Some _, Some o =>
      ([mkCall "Optimizer.zero_grad" [opt] VNone],
       Ok VNone
         (with_model
            (Some (mkModule (parameters o) (adam_zero_grad (grad o)) (buffers o)
                     (training o))) k))
  | _, _, _ => ([], Raise TypeError k)
  end.

(** [loss.backward()]: accumulates into the gradients of the parameters. *)
Definition backward_ (loss : Val) : M Val := λ k,
  match loss, model_obj k with
  | VTensor l, Some o =>
      ([mkCall "Tensor.backward" [loss] VNone],
       Ok VNone
         (with_model
            (Some (mkModule (parameters o) (tensor_backward l (parameters o) (grad o))
                     (buffers o) (training o))) k))
  | _, _ => ([], Raise TypeError k)
  end.

(** [opt.step()]: updates the parameters of the module in place. *)
Definition step_ (opt : Val) : M Val := λ k,
  match opt, adam_obj k, model_obj k with
  | VOptimizer, Some s, Some o =>
      let r := adam_step s (parameters o) (grad o) in
      ([mkCall "Optimizer.step" [opt] VNone],
       Ok VNone
         (with_adam (Some (fst r))
            (with_model (Some (mkModule (snd r) (grad o) (buffers o) (training o))) k)))
  | _, _, _ => ([], Raise TypeError k)
  end.

(** [with torch.no_grad(): body]: gradient recording is switched off for
    the body and put back to what it was when the body is left, normally
    or by an exception. *)
Definition no_grad_enter : M bool := λ k,
  ([mkCall "torch.no_grad.__enter__" [] VNone],
   Ok (grad_enabled k) (with_grad_enabled false k)).
Definition no_grad_exit (prev : bool) : M unit := λ k,
  ([mkCall "torch.no_grad.__exit__" [] VNone], Ok () (with_grad_enabled prev k)).
Definition with_no_grad (body : M unit) : M unit :=
  prev <- no_grad_enter ;; finally body (no_grad_exit prev).

End Library.

(** ** Statements shared by the two notebooks *)

Section Common.
Context `{Externals}.

Definition truthy (v : Val) : M bool :=
  match v with VBool b => ret b | _ => raise TypeError end.
Definition as_real (v : Val) : M Q :=
  match v with VReal q => ret q | _ => raise TypeError end.

(** [{key: f(value) for key, value in d.items()}] *)
Fixpoint dict_items_map (f : Val → M Val) (d : list (string * Val))
    : M (list (string * Val)) :=
  match d with
  | [] => ret []
  | (key, value) :: d' =>
      v <- f value ;; r <- dict_items_map f d' ;; ret ((key, v) :: r)
  end.
Definition dict_comprehension (f : Val → M Val) (v : Val) : M Val :=
  match v with
  | VDict d => r <- dict_items_map f d ;; ret (VDict r)
  | _ => raise TypeError
  end.

(** [a[i]] with the index held in a value *)
Definition index_v (a i : Val) : M Val := j <- as_int i ;; index a j.

(** [xs[i_complex].shape[j]] *)
Definition sample_dim (xs : string) (j : Z) : M Val :=
  a <- get_var xs ;; i <- get_var "i_complex" ;; s <- index_v a i ;;
  sh <- shape_ s ;; index sh j.

(** [print(f"The {i_complex}th simplicial complex has
    {xs[i_complex].shape[0]} <what> with features of dimension
    {xs[i_complex].shape[1]}.")] *)
Definition describe (xs what : string) : M unit :=
  i <- get_var "i_complex" ;;
  n <- sample_dim xs 0 ;;
  d <- sample_dim xs 1 ;;
  print [VStr "The "; i; VStr "th simplicial complex has "; n; VStr what;
         VStr " with features of dimension "; d; VStr "."].

(** [tr, te = train_test_split(src, test_size=test_size, shuffle=False)] *)
Definition split_into (tr te src : string) : M unit :=
  unpack2 tr te
    (a <- get_var src ;; t <- get_var "test_size" ;; t <- as_real t ;;
     train_test_split_ a t false).

(** The cell that selects the device and prints it. *)
Definition cell_device : M unit :=
  assign "device"
    (c <- cuda_is_available_ ;; c <- truthy c ;;
     torch_device_ (VStr (if c then "cuda" else "cpu"))) ;;
  d <- get_var "device" ;; print [d].

(** The cell that loads shrec16; [complexes] is the name the notebook
    gives to the list of complexes ([scs] or [simplexes]). *)
Definition cell_load (complexes : string) : M unit :=
  unpack2 "shrec" "_" (shrec_16_ "small") ;;
  assign "shrec" (d <- get_var "shrec" ;; dict_comprehension np_array_ d) ;;
  assign "x_0s" (d <- get_var "shrec" ;; subscript d "node_feat") ;;
  assign "x_1s" (d <- get_var "shrec" ;; subscript d "edge_feat") ;;
  assign "x_2s" (d <- get_var "shrec" ;; subscript d "face_feat") ;;
  assign "ys" (d <- get_var "shrec" ;; subscript d "label") ;;
  assign complexes (d <- get_var "shrec" ;; subscript d "complexes").

(** The cell that describes the complex number 6. *)
Definition cell_describe : M unit :=
  set_var "i_complex" (VInt 6) ;;
  describe "x_0s" " nodes" ;;
  describe "x_1s" " edges" ;;
  describe "x_2s" " faces".

(** Running the cells of a notebook from top to bottom; the first
    exception stops the run. *)
Definition run_all (cells : list (M unit)) : M unit := for_each cells id.

(** A kernel that has just been started. *)
Definition fresh : Kernel := mkKernel ∅ None None true.

End Common.

(** ** The SCA-CMPS notebook *)

Module ScaCmps.
Section Cells.
Context `{Externals}.

(** One pass of [for sc in scs:]. *)
Definition derive : M unit :=
  assign "laplacian_down_1" (sc <- get_var "sc" ;; down_laplacian_matrix_ sc 1) ;;
  assign "laplacian_down_2" (sc <- get_var "sc" ;; down_laplacian_matrix_ sc 2) ;;
  assign "incidence_1_t" (sc <- get_var "sc" ;; b <- incidence_matrix_ sc 1 ;; T_ b) ;;
  assign "incidence_2_t" (sc <- get_var "sc" ;; b <- incidence_matrix_ sc 2 ;; T_ b) ;;
  assign "laplacian_down_1"
    (m <- get_var "laplacian_down_1" ;; d <- todense_ m ;; t <- from_numpy_ d ;;
     to_sparse_ t) ;;
  assign "laplacian_down_2"
    (m <- get_var "laplacian_down_2" ;; d <- todense_ m ;; t <- from_numpy_ d ;;
     to_sparse_ t) ;;
  assign "incidence_1_t"
    (m <- get_var "incidence_1_t" ;; d <- todense_ m ;; t <- from_numpy_ d ;;
     to_sparse_ t) ;;
  assign "incidence_2_t"
    (m <- get_var "incidence_2_t" ;; d <- todense_ m ;; t <- from_numpy_ d ;;
     to_sparse_ t) ;;
  append "laplacian_down_1_list" (get_var "laplacian_down_1") ;;
  append "laplacian_down_2_list" (get_var "laplacian_down_2") ;;
  append "incidence1_t_list" (get_var "incidence_1_t") ;;
  append "incidence2_t_list" (get_var "incidence_2_t").

(** The cell that derives the neighborhood matrices. *)
Definition cell_neighborhoods : M unit :=
  set_var "laplacian_down_1_list" (VSeq []) ;;
  set_var "laplacian_down_2_list" (VSeq []) ;;
  set_var "incidence1_t_list" (VSeq []) ;;
  set_var "incidence2_t_list" (VSeq []) ;;
  scs <- get_var "scs" ;; scs <- as_seq scs ;;
  for_each scs (λ sc, set_var "sc" sc ;; derive).

(** [xs[0].shape[-1]] *)
Definition last_dim (xs : string) : M Val :=
  a <- get_var xs ;; s <- index a 0 ;; sh <- shape_ s ;; index sh (-1).

Definition cell_channels : M unit :=
  assign "channels_list"
    (c0 <- last_dim "x_0s" ;; c1 <- last_dim "x_1s" ;; c2 <- last_dim "x_2s" ;;
     ret (VSeq [c0; c1; c2])) ;;
  set_var "complex_dim" (VInt 3).

Definition cell_shape : M unit :=
  display (a <- get_var "x_0s" ;; shape_ a).

(** The train/test split cell. *)
Definition cell_split : M unit :=
  set_var "test_size" (VReal 0.2) ;;
  split_into "x_0_train" "x_0_test" "x_0s" ;;
  split_into "x_1_train" "x_1_test" "x_1s" ;;
  split_into "x_2_train" "x_2_test" "x_2s" ;;
  split_into "laplacian_down_1_train" "laplacian_down_1_test" "laplacian_down_1_list" ;;
  split_into "laplacian_down_2_train" "laplacian_down_2_test" "laplacian_down_2_list" ;;
  split_into "incidence1_t_train" "incidence1_t_test" "incidence1_t_list" ;;
  split_into "incidence2_t_train" "incidence2_t_test" "incidence2_t_list" ;;
  split_into "y_train" "y_test" "ys" ;;
  display (a <- get_var "y_train" ;; shape_ a).

(** The last cell: model, optimizer and loss. *)
Definition cell_model : M unit :=
  assign "model"
    (cl <- get_var "channels_list" ;; cd <- get_var "complex_dim" ;;
     SCACMPS_ cl cd 1 3 false) ;;
  assign "model" (m <- get_var "model" ;; d <- get_var "device" ;; module_to_ m d) ;;
  assign "opt" (m <- get_var "model" ;; p <- parameters_ m ;; Adam_ p 0.1) ;;
  assign "loss_fn" MSELoss_.

(** The code cells in the order of the notebook (the import cell binds
    module names only). *)
Definition cells : list (M unit) :=
  [cell_device; cell_load "scs"; cell_describe; cell_neighborhoods;
   cell_channels; cell_shape; cell_split; cell_model].

Definition notebook : M unit := run_all cells.

End Cells.
End ScaCmps.

(** ** The DHGCN notebook *)

Module Dhgcn.
Section Cells.
Context `{Externals}.

(** [x_0s.shape, x_1s.shape, x_2s.shape, ys.shape, simplexes.shape] *)
Definition cell_shapes : M unit :=
  display
    (s0 <- (a <- get_var "x_0s" ;; shape_ a) ;;
     s1 <- (a <- get_var "x_1s" ;; shape_ a) ;;
     s2 <- (a <- get_var "x_2s" ;; shape_ a) ;;
     s3 <- (a <- get_var "ys" ;; shape_ a) ;;
     s4 <- (a <- get_var "simplexes" ;; shape_ a) ;;
     ret (VSeq [s0; s1; s2; s3; s4])).

(** [x_0s[4].shape, x_1s[0].shape, x_2s[0].shape] *)
Definition cell_sample_shapes : M unit :=
  display
    (s0 <- (a <- get_var "x_0s" ;; s <- index a 4 ;; shape_ s) ;;
     s1 <- (a <- get_var "x_1s" ;; s <- index a 0 ;; shape_ s) ;;
     s2 <- (a <- get_var "x_2s" ;; s <- index a 0 ;; shape_ s) ;;
     ret (VSeq [s0; s1; s2])).

(** One pass of [for simplex in simplexes:]. *)
Definition lift : M unit :=
  assign "incidence_1" (s <- get_var "simplex" ;; incidence_matrix_signed_ s 1 false) ;;
  assign "incidence_1"
    (m <- get_var "incidence_1" ;; d <- todense_ m ;; t <- from_numpy_ d ;;
     to_sparse_ t) ;;
  append "incidence_1_list" (get_var "incidence_1") ;;
  assign "hg" (s <- get_var "simplex" ;; to_hypergraph_ s) ;;
  append "hg_list" (get_var "hg").

(** The cell that records the incidence matrices and lifts the
    complexes to hypergraphs. *)
Definition cell_lift : M unit :=
  set_var "hg_list" (VSeq []) ;;
  set_var "incidence_1_list" (VSeq []) ;;
  ss <- get_var "simplexes" ;; ss <- as_seq ss ;;
  for_each ss (λ s, set_var "simplex" s ;; lift).

(** [print(f"The {i_complex}th hypergraph has an incidence matrix of
    shape {incidence_1_list[i_complex].shape}.")] *)
Definition cell_incidence_shape : M unit :=
  set_var "i_complex" (VInt 6) ;;
  i <- get_var "i_complex" ;;
  sh <- (l <- get_var "incidence_1_list" ;; j <- get_var "i_complex" ;;
         m <- index_v l j ;; shape_ m) ;;
  print [VStr "The "; i; VStr "th hypergraph has an incidence matrix of shape ";
         sh; VStr "."].

(** [xs[0].shape[1]] *)
Definition channels (xs : string) : M Val :=
  a <- get_var xs ;; s <- index a 0 ;; sh <- shape_ s ;; index sh 1.

Definition cell_model : M unit :=
  assign "channels_edge" (channels "x_1s") ;;
  assign "channels_node" (channels "x_0s") ;;
  assign "model" (c <- get_var "channels_node" ;; DHGCN_ c 2) ;;
  assign "model" (m <- get_var "model" ;; d <- get_var "device" ;; module_to_ m d).

Definition cell_loss_opt : M unit :=
  assign "loss_fn" MSELoss_ ;;
  assign "opt" (m <- get_var "model" ;; p <- parameters_ m ;; Adam_ p 0.1).

Definition cell_split : M unit :=
  set_var "test_size" (VReal 0.2) ;;
  split_into "x_0_train" "x_0_test" "x_0s" ;;
  split_into "y_train" "y_test" "ys".

(** The three statements that open the body of both sample loops:
    [x_0 = torch.tensor(x_0)] and the pair assignment
    [x_0, y = (x_0.float().to(device),
               torch.tensor(y, dtype=torch.float).to(device))]. *)
Definition convert_sample : M unit :=
  assign "x_0" (x <- get_var "x_0" ;; torch_tensor_ x) ;;
  a <- (x <- get_var "x_0" ;; f <- float_ x ;; d <- get_var "device" ;; to_ f d) ;;
  b <- (y <- get_var "y" ;; t <- torch_tensor_float_ y ;; d <- get_var "device" ;;
        to_ t d) ;;
  set_var "x_0" a ;; set_var "y" b.

(** The body of the loop over the training samples, up to
    [loss.backward()]... *)
Definition forward_backward : M Val :=
  convert_sample ;;
  (o <- get_var "opt" ;; zero_grad_ o) ;;
  assign "y_hat" (m <- get_var "model" ;; x <- get_var "x_0" ;; model_call_ m x) ;;
  assign "loss"
    (f <- get_var "loss_fn" ;; a <- get_var "y_hat" ;; b <- get_var "y" ;;
     loss_call_ f a b) ;;
  (l <- get_var "loss" ;; backward_ l).

(** ... and the whole of it: [opt.step()] and
    [epoch_loss.append(loss.item())] follow. *)
Definition train_step : M unit :=
  forward_backward ;;
  (o <- get_var "opt" ;; step_ o) ;;
  append "epoch_loss" (l <- get_var "loss" ;; item_ l).

(** The body of the loop over the test samples. *)
Definition test_step : M unit :=
  convert_sample ;;
  assign "y_hat" (m <- get_var "model" ;; x <- get_var "x_0" ;; model_call_ m x) ;;
  assign "loss"
    (f <- get_var "loss_fn" ;; a <- get_var "y_hat" ;; b <- get_var "y" ;;
     loss_call_ f a b).

(** [for x_0, y in zip(xs, ys): body] *)
Definition for_zip (xs ys : string) (body : M unit) : M unit :=
  a <- get_var xs ;; b <- get_var ys ;; ps <- zip_ a b ;;
  for_each ps (λ p, set_var "x_0" p.1 ;; set_var "y" p.2 ;; body).

(** [print(..., flush=True)] *)
Definition print_flush (pieces : list Val) : M unit :=
  print (pieces ++ [kw [("flush", VBool true)]]).

(** The training part of one epoch, up to the print of its mean loss
    (the format [:.4f] of the printed number is not modelled). *)
Definition train_epoch : M unit :=
  set_var "epoch_loss" (VSeq []) ;;
  (m <- get_var "model" ;; train_ m) ;;
  for_zip "x_0_train" "y_train" train_step ;;
  e <- get_var "epoch_i" ;;
  mean <- (l <- get_var "epoch_loss" ;; np_mean_ l) ;;
  print_flush [VStr "Epoch: "; e; VStr " loss: "; mean].

(** The body of [if epoch_i % test_interval == 0:]. *)
Definition evaluate : M unit :=
  with_no_grad
    (for_zip "x_0_test" "y_test" test_step ;;
     l <- get_var "loss" ;; print_flush [VStr "Test_loss: "; l]).

(** The body of [for epoch_i in range(1, num_epochs + 1):]. *)
Definition epoch : M unit :=
  train_epoch ;;
  e <- get_var "epoch_i" ;; e <- as_int e ;;
  t <- get_var "test_interval" ;; t <- as_int t ;;
  r <- py_mod e t ;;
  if r =? 0 then evaluate else ret ().

(** The training cell. *)
Definition cell_train : M unit :=
  set_var "test_interval" (VInt 1) ;;
  set_var "num_epochs" (VInt 5) ;;
  n <- get_var "num_epochs" ;; n <- as_int n ;;
  for_each (range 1 (n + 1)) (λ i, set_var "epoch_i" (VInt i) ;; epoch).

(** The cells before the training cell, and the whole notebook. *)
Definition setup_cells : list (M unit) :=
  [cell_device; cell_load "simplexes"; cell_shapes; cell_sample_shapes;
   cell_describe; cell_lift; cell_incidence_shape; cell_model; cell_loss_opt;
   cell_split].

Definition cells : list (M unit) := setup_cells ++ [cell_train].

Definition notebook : M unit := run_all cells.

End Cells.
End Dhgcn.

(** ** A small concrete instance of the libraries

    Tensors, arrays, matrices and the states of the model and of the
    optimizer are integers; the data set has [n] samples.  It is used to
    run the notebooks on explicit inputs. *)

Module Toy.

#[export] Instance carriers : Carriers := {|
  Device := string; NdArray := Z; Scalar := Z; SimplicialComplex := Z;
  Sparse := Z; Dense := Z; Tensor := Z; Hypergraph := Z; Float := Z;
  Params := Z; Grads := Z; Buffers := Z; OptState := Z
|}.

Definition ids (n : nat) : list Z := map Z.of_nat (seq 0 n).

(** Sample [i] has node features [1000 + i], edge features [2000 + i],
    face features [3000 + i], label [i] and complex [i]. *)
Definition dataset (n : nat) : list (string * Val) :=
  [("node_feat", VSeq (map (λ i, VArr (1000 + i)) (ids n)));
   ("edge_feat", VSeq (map (λ i, VArr (2000 + i)) (ids n)));
   ("face_feat", VSeq (map (λ i, VArr (3000 + i)) (ids n)));
   ("label", VSeq (map VScalar (ids n)));
   ("complexes", VSeq (map VComplex (ids n)))].

Definition mean (l : list Z) : Z := foldr Z.add 0 l `div` Z.of_nat (length l).

Definition externals (n : nat) : Externals := {|
  cuda_is_available := false;
  torch_device := id;
  torch_tensor := id;
  torch_tensor_scalar := id;
  tensor_float := id;
  tensor_to := λ _ t, t;
  from_numpy := id;
  to_sparse := id;
  tensor_shape := λ _, [252; 750];
  tensor_item := id;
  ndarray_shape := λ a,
    if a <? 2000 then [252; 6] else if a <? 3000 then [750; 10] else [500; 7];
  np_mean := mean;
  todense := id;
  transpose := Z.opp;
  rng_permutation := λ m, reverse (seq 0 m);
  shrec_16 := λ _, (dataset n, dataset 0);
  down_laplacian_matrix := λ c r, 10 * c + r;
  incidence_matrix := λ c r signed, if signed then 10 * c + r + 5 else 10 * c + r + 7;
  to_hypergraph := λ c, 10 * c + 9;
  SCACMPS_init := λ _ _ _ _ _, (0, 0);
  DHGCN_init := λ _ _, (0, 0);
  params_to := λ _ p, p;
  buffers_to := λ _ b, b;
  grad_unset := 0;
  module_forward := λ p b _ _ x, (p + x, b + 1);
  mse_loss := λ a b, (a - b) * (a - b);
  tensor_backward := λ l _ g, g + l;
  adam_init := λ _ _, 0;
  adam_zero_grad := λ _, 0;
  adam_step := λ s p g, (s + 1, p - Z.sgn g)
|}.

End Toy.

(** ** What the cells are expected to do *)

Section Expected.
Context `{Externals}.

(** [x] is bound to [v] in the namespace. *)
Definition bound (k : Kernel) (x : string) (v : Val) : Prop := globals k !! x = Some v.

(** *** SCA-CMPS: the neighborhood matrices of one complex *)

Definition as_torch_sparse (m : Sparse) : Val :=
  VTensor (to_sparse (from_numpy (todense m))).

Definition densify_calls (m : Sparse) : list Call :=
  [mkCall "spmatrix.todense" [VSparse m] (VDense (todense m));
   mkCall "torch.from_numpy" [VDense (todense m)] (VTensor (from_numpy (todense m)));
   mkCall "Tensor.to_sparse" [VTensor (from_numpy (todense m))] (as_torch_sparse m)].

Definition derive_calls (c : SimplicialComplex) : list Call :=
  [mkCall "SimplicialComplex.down_laplacian_matrix" [VComplex c; kw [("rank", VInt 1)]]
     (VSparse (down_laplacian_matrix c 1));
   mkCall "SimplicialComplex.down_laplacian_matrix" [VComplex c; kw [("rank", VInt 2)]]
     (VSparse (down_laplacian_matrix c 2));
   mkCall "SimplicialComplex.incidence_matrix" [VComplex c; kw [("rank", VInt 1)]]
     (VSparse (incidence_matrix c 1 true));
   mkCall "spmatrix.T" [VSparse (incidence_matrix c 1 true)]
     (VSparse (transpose (incidence_matrix c 1 true)));
   mkCall "SimplicialComplex.incidence_matrix" [VComplex c; kw [("rank", VInt 2)]]
     (VSparse (incidence_matrix c 2 true));
   mkCall "spmatrix.T" [VSparse (incidence_matrix c 2 true)]
     (VSparse (transpose (incidence_matrix c 2 true)))]
  ++ densify_calls (down_laplacian_matrix c 1)
  ++ densify_calls (down_laplacian_matrix c 2)
  ++ densify_calls (transpose (incidence_matrix c 1 true))
  ++ densify_calls (transpose (incidence_matrix c 2 true)).

(** *** The train/test split of an array of 100 samples *)

Definition split_call (l : list Val) : Call :=
  mkCall "train_test_split"
    [VSeq l; kw [("test_size", VReal 0.2); ("shuffle", VBool false)]]
    (VSeq [VSeq (take 80 l); VSeq (drop 80 l)]).

(** [src] holds 100 samples. *)
Definition hundred (k : Kernel) (src : string) (l : list Val) : Prop :=
  bound k src (VSeq l) ∧ length l = 100%nat.

(** [tr] holds the first 80 items of [l], in order, and [te] the last
    20, in order. *)
Definition first_80_last_20 (k : Kernel) (tr te : string) (l : list Val) : Prop :=
  ∃ a b, bound k tr (VSeq a) ∧ bound k te (VSeq b) ∧
    length a = 80%nat ∧ length b = 20%nat ∧
    (∀ i, (i < 80)%nat → a !! i = l !! i) ∧
    (∀ i, (i < 20)%nat → b !! i = l !! (80 + i)%nat).

(** *** DHGCN: the calls of one sample, of one epoch, of the evaluation *)

Definition converted_x (d : Device) (x : NdArray) : Tensor :=
  tensor_to d (tensor_float (torch_tensor x)).
Definition converted_y (d : Device) (y : Scalar) : Tensor :=
  tensor_to d (torch_tensor_scalar y).

(** The loss of sample [s] when the model predicted [y_hat]. *)
Definition loss_of (d : Device) (s : NdArray * Scalar) (y_hat : Tensor) : Tensor :=
  mse_loss y_hat (converted_y d s.2).

Definition convert_calls (d : Device) (s : NdArray * Scalar) : list Call :=
  [mkCall "torch.tensor" [VArr s.1] (VTensor (torch_tensor s.1));
   mkCall "Tensor.float" [VTensor (torch_tensor s.1)]
     (VTensor (tensor_float (torch_tensor s.1)));
   mkCall "Tensor.to" [VTensor (tensor_float (torch_tensor s.1)); VDevice d]
     (VTensor (converted_x d s.1));
   mkCall "torch.tensor" [VScalar s.2; kw [("dtype", VStr "torch.float")]]
     (VTensor (torch_tensor_scalar s.2));
   mkCall "Tensor.to" [VTensor (torch_tensor_scalar s.2); VDevice d]
     (VTensor (converted_y d s.2))].

Definition forward_calls (d : Device) (s : NdArray * Scalar) (y_hat : Tensor) : list Call :=
  [mkCall "Module.__call__" [VModel; VTensor (converted_x d s.1)] (VTensor y_hat);
   mkCall "MSELoss.__call__" [VLossFn; VTensor y_hat; VTensor (converted_y d s.2)]
     (VTensor (loss_of d s y_hat))].

(** The calls of one training sample: conversion, then zero_grad,
    forward pass, loss, backward pass, optimizer step, and the read of
    the loss value. *)
Definition train_calls (d : Device) (s : NdArray * Scalar) (y_hat : Tensor) : list Call :=
  convert_calls d s ++
  [mkCall "Optimizer.zero_grad" [VOptimizer] VNone] ++
  forward_calls d s y_hat ++
  [mkCall "Tensor.backward" [VTensor (loss_of d s y_hat)] VNone;
   mkCall "Optimizer.step" [VOptimizer] VNone;
   mkCall "Tensor.item" [VTensor (loss_of d s y_hat)]
     (VFloat (tensor_item (loss_of d s y_hat)))].

Definition test_calls (d : Device) (s : NdArray * Scalar) (y_hat : Tensor) : list Call :=
  convert_calls d s ++ forward_calls d s y_hat.

(** The losses of the samples [ss] under the predictions [hats]. *)
Definition losses (d : Device) (ss : list (NdArray * Scalar)) (hats : list Tensor)
    : list Tensor := zip_with (loss_of d) ss hats.

Definition flush : Val := kw [("flush", VBool true)].

(** The training part of epoch [i], given the predictions [hats]. *)
Definition train_epoch_calls (d : Device) (i : Z) (train : list (NdArray * Scalar))
    (hats : list Tensor) : list Call :=
  mkCall "Module.train" [VModel] VModel ::
  concat (zip_with (train_calls d) train hats) ++
  [mkCall "np.mean" [VSeq (VFloat <$> (tensor_item <$> losses d train hats))]
     (VFloat (np_mean (tensor_item <$> losses d train hats)));
   mkCall "print"
     [VStr "Epoch: "; VInt i; VStr " loss: ";
      VFloat (np_mean (tensor_item <$> losses d train hats)); flush] VNone].

(** The evaluation branch, given the predictions [hats] and the value
    [shown] as Test_loss. *)
Definition evaluate_calls (d : Device) (test : list (NdArray * Scalar))
    (hats : list Tensor) (shown : Val) : list Call :=
  mkCall "torch.no_grad.__enter__" [] VNone ::
  concat (zip_with (test_calls d) test hats) ++
  [mkCall "print" [VStr "Test_loss: "; shown; flush] VNone;
   mkCall "torch.no_grad.__exit__" [] VNone].

(** The calls of one epoch: [e] holds the predictions on the training
    samples, the predictions on the test samples and the value shown as
    Test_loss. *)
Definition epoch_calls (d : Device) (train test : list (NdArray * Scalar)) (i : Z)
    (e : list Tensor * list Tensor * Val) : list Call :=
  train_epoch_calls d i train e.1.1 ++ evaluate_calls d test e.1.2 e.2.

Definition epoch_ok (d : Device) (train test : list (NdArray * Scalar))
    (e : list Tensor * list Tensor * Val) : Prop :=
  length e.1.1 = length train ∧ length e.1.2 = length test ∧
  ∀ l, last (losses d test e.1.2) = Some l → e.2 = VTensor l.

(** The value bound to [loss] after a loop over the samples [ss]. *)
Definition last_loss (d : Device) (ss : list (NdArray * Scalar)) (hats : list Tensor)
    (before : option Val) : option Val :=
  match last (losses d ss hats) with
  | Some l => Some (VTensor l)
  | None => before
  end.

(** The bindings the training cell relies on: the device, the model, the
    optimizer, the loss and the two halves of the split. *)
Definition fixed (g : gmap string Val) (d : Device) (xs : list NdArray)
    (ys : list Scalar) (xt : list NdArray) (yt : list Scalar) : Prop :=
  g !! "device" = Some (VDevice d) ∧ g !! "model" = Some VModel ∧
  g !! "opt" = Some VOptimizer ∧ g !! "loss_fn" = Some VLossFn ∧
  g !! "x_0_train" = Some (VSeq (VArr <$> xs)) ∧
  g !! "y_train" = Some (VSeq (VScalar <$> ys)) ∧
  g !! "x_0_test" = Some (VSeq (VArr <$> xt)) ∧
  g !! "y_test" = Some (VSeq (VScalar <$> yt)).

(** The state in which the training cell is run: the bindings above,
    and a model and an optimizer that have been built. *)
Definition ready (k : Kernel) (d : Device) (xs : list NdArray) (ys : list Scalar)
    (xt : list NdArray) (yt : list Scalar) : Prop :=
  fixed (globals k) d xs ys xt yt ∧ is_Some (model_obj k) ∧ is_Some (adam_obj k).

(** [loss] is bound when the evaluation branch prints it: some sample
    loop has run, or it was bound before the cell. *)
Definition loss_available (k : Kernel) (xs : list NdArray) (ys : list Scalar)
    (xt : list NdArray) (yt : list Scalar) : Prop :=
  zip xs ys ≠ [] ∨ zip xt yt ≠ [] ∨ is_Some (globals k !! "loss").

Definition inj (s : NdArray * Scalar) : Val * Val := (VArr s.1, VScalar s.2).

End Expected.

(** ** Properties of commands *)

(** What a command must leave as it was in the model and the optimizer:
    nothing, the parameters, or the parameters with their gradients and
    the state of the optimizer. *)
Inductive frame : Type := Free | KeepParameters | KeepHeap.

Section Properties.
Context `{Externals}.

(** The parameters of the model with their gradients, and the state of
    the optimizer. *)
Definition heap_view (k : Kernel) : option (Params * Grads) * option OptState :=
  ((λ o, (parameters o, grad o)) <$> model_obj k, adam_obj k).

(** The parameters of the model alone. *)
Definition parameters_view (k : Kernel) : option Params := parameters <$> model_obj k.

Definition frame_keeps (fr : frame) (k k' : Kernel) : Prop :=
  match fr with
  | Free => True
  | KeepParameters => parameters_view k' = parameters_view k
  | KeepHeap => heap_view k' = heap_view k
  end.

Definition keeps (names : list string) (fr : frame) (k k' : Kernel) : Prop :=
  (∀ x, x ∈ names → globals k' !! x = globals k !! x) ∧ frame_keeps fr k k'.

(** [sat allowed names fr m]: whatever the state [m] starts in, every
    call it makes has an allowed name, it leaves the bindings of [names]
    as they were and it leaves the part [fr] of the model and of the
    optimizer as it was; this holds whether [m] ends normally or
    raises. *)
Definition sat (allowed : string → bool) (names : list string) (fr : frame)
    {A} (m : M A) : Prop :=
  ∀ k, Forall (λ c, allowed (fn c) = true) (m k).1 ∧ keeps names fr k (final (m k).2).

(** Two states that differ at most in the bindings of the names [W]. *)
Definition agree (W : list string) (k1 k2 : Kernel) : Prop :=
  (∀ x, x ∉ W → globals k1 !! x = globals k2 !! x) ∧
  model_obj k1 = model_obj k2 ∧ adam_obj k1 = adam_obj k2 ∧
  grad_enabled k1 = grad_enabled k2.

Definition sim (W : list string) {A} (o1 o2 : outcome A) : Prop :=
  match o1, o2 with
  | Ok a1 k1, Ok a2 k2 => a1 = a2 ∧ agree W k1 k2
  | Raise e1 k1, Raise e2 k2 => e1 = e2 ∧ agree W k1 k2
  | _, _ => False
  end.

(** [blind W m]: [m] does not read the names [W]; started in two states
    that differ only there, it makes the same calls, with the same
    arguments and results, and ends the same way. *)
Definition blind (W : list string) {A} (m : M A) : Prop :=
  ∀ k1 k2, agree W k1 k2 → (m k1).1 = (m k2).1 ∧ sim W (m k1).2 (m k2).2.

(** The command ended without raising. *)
Definition ended_ok {A} (o : outcome A) : bool :=
  match o with Ok _ _ => true | Raise _ _ => false end.

(** [x = v] done from outside the notebook. *)
Definition rebind (x : string) (v : Val) (k : Kernel) : Kernel :=
  with_globals (<[x:=v]> (globals k)) k.

(** The bindings of [names] are the same after [m] as before. *)
Definition unchanged (names : list string) (m : M unit) (k : Kernel) : Prop :=
  Forall (λ x, globals (final (m k).2) !! x = globals k !! x) names.

(** [v] is [w] or an item of [w], at any depth. *)
Inductive occurs (v : Val) : Val → Prop :=
| occurs_here : occurs v v
| occurs_seq l w : w ∈ l → occurs v w → occurs v (VSeq l)
| occurs_dict d key w : (key, w) ∈ d → occurs v w → occurs v (VDict d).

(** [v] is handed to one of the calls [L]. *)
Definition passed_to (v : Val) (L : list Call) : Prop :=
  ∃ c a, c ∈ L ∧ a ∈ args c ∧ occurs v a.

Fixpoint mentions_hypergraph (w : Val) : bool :=
  match w with
  | VHyper _ => true
  | VSeq l => existsb mentions_hypergraph l
  | VDict d => existsb (λ p, mentions_hypergraph p.2) d
  | _ => false
  end.

(** *** The statements of the claims *)

(** The names of the calls of a training or test loop. *)
Definition training_calls : list string :=
  ["Optimizer.zero_grad"; "Module.__call__"; "MSELoss.__call__"; "Tensor.backward";
   "Optimizer.step"].
Definition no_training (f : string) : bool := negb (bool_decide (f ∈ training_calls)).

(** The names of the calls that convert one sample to tensors. *)
Definition conversion_calls : list string :=
  ["torch.tensor"; "Tensor.float"; "Tensor.to"; "torch.tensor"; "Tensor.to"].

(** The calls that change the model or the optimizer. *)
Definition updating_calls : list string :=
  ["Optimizer.zero_grad"; "Tensor.backward"; "Optimizer.step"].
Definition no_update (f : string) : bool := negb (bool_decide (f ∈ updating_calls)).

(** The calls that write the parameters of the model. *)
Definition parameter_writers : list string :=
  ["SCACMPS"; "DHGCN"; "Module.to"; "Optimizer.step"].
Definition no_writer (f : string) : bool := negb (bool_decide (f ∈ parameter_writers)).
Definition step_or_no_writer (f : string) : bool :=
  bool_decide (f = "Optimizer.step") || no_writer f.

(** Five epochs, numbered 1 to 5; each is the training part over all
    the training samples followed by the evaluation over all the test
    samples. *)
Definition five_epochs (d : Device) (train test : list (NdArray * Scalar))
    (r : list Call * outcome unit) : Prop :=
  ∃ es k',
    r = (concat (zip_with (epoch_calls d train test) [1; 2; 3; 4; 5] es), Ok () k') ∧
    length es = 5%nat ∧
    Forall (λ e, length e.1.1 = length train ∧ length e.1.2 = length test) es.

(** In each of the five epochs, the value shown as Test_loss is the loss
    of the last test sample, whose label is [y_last], under the
    prediction [h] the model made for it. *)
Definition shows_last_test_loss (d : Device) (train test : list (NdArray * Scalar))
    (y_last : Scalar) (r : list Call * outcome unit) : Prop :=
  ∃ es k',
    r = (concat (zip_with (epoch_calls d train test) [1; 2; 3; 4; 5] es), Ok () k') ∧
    length es = 5%nat ∧
    Forall (λ e, ∃ hats h,
                e.1.2 = hats ++ [h] ∧ length e.1.2 = length test ∧
                e.2 = VTensor (mse_loss h (converted_y d y_last))) es.

(** The training part of epoch [i] makes one prediction per training
    sample, prints the mean of exactly the losses of these predictions
    and leaves them in [epoch_loss]. *)
Definition mean_of_this_epoch (d : Device) (i : Z) (train : list (NdArray * Scalar))
    (r : list Call * outcome unit) : Prop :=
  ∃ hats k',
    length hats = length train ∧
    r = (train_epoch_calls d i train hats, Ok () k') ∧
    bound k' "epoch_loss" (VSeq (VFloat <$> (tensor_item <$> losses d train hats))).

(** The list bound to [name] has one entry per complex; entry [i] is the
    sparse tensor of the matrix [f] of complex [i]. *)
Definition derived_list (k : Kernel) (name : string)
    (f : SimplicialComplex → Sparse) (cs : list SimplicialComplex) : Prop :=
  ∃ l, bound k name (VSeq l) ∧ length l = length cs ∧
    ∀ i c, cs !! i = Some c → l !! i = Some (as_torch_sparse (f c)).

Definition four_lists (cs : list SimplicialComplex) (r : list Call * outcome unit)
    : Prop :=
  ∃ k',
    r = (concat (derive_calls <$> cs), Ok () k') ∧
    derived_list k' "laplacian_down_1_list" (λ c, down_laplacian_matrix c 1) cs ∧
    derived_list k' "laplacian_down_2_list" (λ c, down_laplacian_matrix c 2) cs ∧
    derived_list k' "incidence1_t_list" (λ c, transpose (incidence_matrix c 1 true)) cs ∧
    derived_list k' "incidence2_t_list" (λ c, transpose (incidence_matrix c 2 true)) cs.

(** The split cell of the SCA-CMPS notebook: eight calls of
    train_test_split, all with test_size=0.2 and shuffle=False, then the
    display of [y_train.shape]. *)
Definition sca_split (x0 x1 x2 l1 l2 i1 i2 y : list Val)
    (r : list Call * outcome unit) : Prop :=
  ∃ tail k',
    r = ((split_call <$> [x0; x1; x2; l1; l2; i1; i2; y]) ++ tail, Ok () k') ∧
    Forall (λ c, fn c ≠ "train_test_split") tail ∧
    first_80_last_20 k' "x_0_train" "x_0_test" x0 ∧
    first_80_last_20 k' "x_1_train" "x_1_test" x1 ∧
    first_80_last_20 k' "x_2_train" "x_2_test" x2 ∧
    first_80_last_20 k' "laplacian_down_1_train" "laplacian_down_1_test" l1 ∧
    first_80_last_20 k' "laplacian_down_2_train" "laplacian_down_2_test" l2 ∧
    first_80_last_20 k' "incidence1_t_train" "incidence1_t_test" i1 ∧
    first_80_last_20 k' "incidence2_t_train" "incidence2_t_test" i2 ∧
    first_80_last_20 k' "y_train" "y_test" y.

(** The split cell of the DHGCN notebook. *)
Definition dhgcn_split (x0 y : list Val) (r : list Call * outcome unit) : Prop :=
  ∃ k',
    r = (split_call <$> [x0; y], Ok () k') ∧
    first_80_last_20 k' "x_0_train" "x_0_test" x0 ∧
    first_80_last_20 k' "y_train" "y_test" y.

(** The names bound by the load cell and by the pre-processing loops. *)
Definition loaded_arrays : list string := ["x_0s"; "x_1s"; "x_2s"; "ys"].
Definition sca_lists : list string :=
  ["laplacian_down_1_list"; "laplacian_down_2_list"; "incidence1_t_list";
   "incidence2_t_list"].
Definition dhgcn_lists : list string := ["incidence_1_list"; "hg_list"].

(** Every matrix of [incidence_1_list] and every hypergraph of [hg_list]
    is handed to one of the calls [L]. *)
Definition lifted_data_consumed (k : Kernel) (L : list Call) : Prop :=
  ∀ name l v, name ∈ dhgcn_lists → bound k name (VSeq l) → v ∈ l → passed_to v L.

(** The cells of the DHGCN notebook from the construction of the model
    on, and from the shape print that follows the lifting loop on. *)
Definition dhgcn_from_model : M unit := run_all (drop 7 Dhgcn.cells).
Definition dhgcn_after_lift : M unit := run_all (drop 6 Dhgcn.cells).

End Properties.


(** ** Runs on the concrete instance *)

Module Runs.
Import Toy.

(** The state reached from a fresh kernel by the cells [cells]. *)
Definition after (cells : list (M unit)) : Kernel := final (run_all cells fresh).2.

(** The DHGCN notebook just before its training cell. *)
Definition dhgcn_setup (n : nat) : Kernel := after (@Dhgcn.setup_cells _ (externals n)).


Definition features (a b : nat) : list NdArray := (λ i, 1000 + Z.of_nat i) <$> seq a b.
Definition labels (a b : nat) : list Scalar := Z.of_nat <$> seq a b.

(** The SCA-CMPS notebook before its derivation loop and before its
    split cell; the DHGCN notebook before its split cell. *)
Definition sca_loaded (n : nat) : Kernel :=
  after (take 3 (@ScaCmps.cells _ (externals n))).
Definition sca_before_split (n : nat) : Kernel :=
  after (take 6 (@ScaCmps.cells _ (externals n))).
Definition dhgcn_before_split (n : nat) : Kernel :=
  after (take 9 (@Dhgcn.setup_cells _ (externals n))).

(** The complexes, the arrays of the data set and the lists derived
    from it. *)
Definition complexes (n : nat) : list SimplicialComplex := ids n.
Definition arrays (base : Z) (n : nat) : list Val := (λ i, VArr (base + i)) <$> ids n.
Definition label_items (n : nat) : list Val := (λ i : Z, VScalar i) <$> ids n.
Definition laplacians (r : Z) (n : nat) : list Val :=
  (λ i, VTensor (10 * i + r)) <$> ids n.
Definition incidences_t (r : Z) (n : nat) : list Val :=
  (λ i, VTensor (- (10 * i + r + 5))) <$> ids n.

(** The hypergraph of complex [i] is [10 * i + 9]. *)
Definition hypergraphs (n : nat) : list Val := (λ i, VHyper (10 * i + 9)) <$> ids n.
Definition first_hypergraph : Val := VHyper 9.

End Runs.

(** ** Further statements about the cells *)

Section Further.
Context `{Externals}.

(** *** DHGCN: the lifting loop *)

(** The calls of one pass of the lifting loop: the unsigned incidence
    matrix of rank 1, its conversion to a sparse tensor, and the lift to
    a hypergraph. *)
Definition lift_calls (c : SimplicialComplex) : list Call :=
  [mkCall "SimplicialComplex.incidence_matrix"
     [VComplex c; kw [("rank", VInt 1); ("signed", VBool false)]]
     (VSparse (incidence_matrix c 1 false))]
  ++ densify_calls (incidence_matrix c 1 false)
  ++ [mkCall "SimplicialComplex.to_hypergraph" [VComplex c] (VHyper (to_hypergraph c))].

(** After the lifting loop over the complexes [cs], both lists have one
    entry per complex, in the order of the complexes. *)
Definition lifted (cs : list SimplicialComplex) (r : list Call * outcome unit) : Prop :=
  ∃ k',
    r = (concat (lift_calls <$> cs), Ok () k') ∧
    bound k' "incidence_1_list"
      (VSeq ((λ c, as_torch_sparse (incidence_matrix c 1 false)) <$> cs)) ∧
    bound k' "hg_list" (VSeq ((λ c, VHyper (to_hypergraph c)) <$> cs)).

(** *** The cells that report on sample number 6 *)

(** The calls of one line of the description of the sample [a]: its
    shape is read once for each of the two numbers shown. *)
Definition describe_calls (a : NdArray) (what : string) (n d : Z) : list Call :=
  [mkCall "ndarray.shape" [VArr a] (VSeq (map VInt (ndarray_shape a)));
   mkCall "ndarray.shape" [VArr a] (VSeq (map VInt (ndarray_shape a)));
   mkCall "print"
     [VStr "The "; VInt 6; VStr "th simplicial complex has "; VInt n; VStr what;
      VStr " with features of dimension "; VInt d; VStr "."] VNone].

(** [name] holds a list whose entry number 6 is the array [a], of shape
    [(n, d, ...)]. *)
Definition sixth (k : Kernel) (name : string) (a : NdArray) (n d : Z) : Prop :=
  ∃ l rest, bound k name (VSeq l) ∧ l !! 6%nat = Some (VArr a) ∧
    ndarray_shape a = n :: d :: rest.

(** The calls of the shape print that follows the lifting loop. *)
Definition incidence_shape_calls (t : Tensor) : list Call :=
  [mkCall "Tensor.shape" [VTensor t] (VSeq (map VInt (tensor_shape t)));
   mkCall "print"
     [VStr "The "; VInt 6; VStr "th hypergraph has an incidence matrix of shape ";
      VSeq (map VInt (tensor_shape t)); VStr "."] VNone].

(** *** The load cell *)

(** The keys of the data set that the load cell reads, in the order in
    which it reads them. *)
Definition load_keys : list string :=
  ["node_feat"; "edge_feat"; "face_feat"; "label"; "complexes"].

(** The data set as [shrec_16(size="small")] returns it. *)
Definition shrec_small : list (string * Val) := (shrec_16 "small").1.

(** The calls of the load cell: the data set is fetched, then
    [np.array] is applied to each of its values, in order. *)
Definition load_calls : list Call :=
  mkCall "datasets.mesh.shrec_16" [kw [("size", VStr "small")]]
    (VSeq [VDict (shrec_16 "small").1; VDict (shrec_16 "small").2])
  :: ((λ p, mkCall "np.array" [p.2] p.2) <$> shrec_small).

(** The load cell ended normally and bound the five names to the values
    of the five keys. *)
Definition loaded (complexes : string) (v0 v1 v2 vy vc : Val)
    (r : list Call * outcome unit) : Prop :=
  ∃ k', r = (load_calls, Ok () k') ∧
    bound k' "x_0s" v0 ∧ bound k' "x_1s" v1 ∧ bound k' "x_2s" v2 ∧
    bound k' "ys" vy ∧ bound k' complexes vc.

(** *** The split of a data set of any size *)

(** The number of test samples that [test_size = 0.2] keeps of [n]
    samples: a fifth of them, rounded up. *)
Definition n_test (n : nat) : nat := ((n + 4) / 5)%nat.

Definition split_call_of (l : list Val) : Call :=
  mkCall "train_test_split"
    [VSeq l; kw [("test_size", VReal 0.2); ("shuffle", VBool false)]]
    (VSeq [VSeq (take (length l - n_test (length l)) l);
           VSeq (drop (length l - n_test (length l)) l)]).

(** [tr] and [te] hold the two parts of [l]: put end to end they give
    [l] back, and the test part has [n_test] items. *)
Definition halves (k : Kernel) (tr te : string) (l : list Val) : Prop :=
  ∃ a b, bound k tr (VSeq a) ∧ bound k te (VSeq b) ∧
    a ++ b = l ∧ length b = n_test (length l).

(** *** DHGCN: what the sample loops compute *)

(** The forward pass on the sample [s], made by the module [o] with
    gradient recording [ge]: the prediction and the new buffers. *)
Definition forward_of (d : Device) (ge : bool) (s : NdArray * Scalar) (o : ModuleObj)
    : Tensor * Buffers :=
  module_forward (parameters o) (buffers o) (training o) ge (converted_x d s.1).

(** One training step: the prediction, and the module and the optimizer
    after the step.  The gradients are zeroed, the loss of the
    prediction is back-propagated at the parameters the prediction was
    made with, and Adam steps from these parameters. *)
Definition train_step_result (d : Device) (ge : bool) (s : NdArray * Scalar)
    (oa : ModuleObj * OptState) : Tensor * (ModuleObj * OptState) :=
  let fw := forward_of d ge s oa.1 in
  let g := tensor_backward (loss_of d s fw.1) (parameters oa.1)
             (adam_zero_grad (grad oa.1)) in
  let r := adam_step oa.2 (parameters oa.1) g in
  (fw.1, (mkModule r.2 g fw.2 (training oa.1), r.1)).

Fixpoint train_results (d : Device) (ge : bool) (ss : list (NdArray * Scalar))
    (oa : ModuleObj * OptState) : list Tensor * (ModuleObj * OptState) :=
  match ss with
  | [] => ([], oa)
  | s :: ss' =>
      let r := train_step_result d ge s oa in
      let r' := train_results d ge ss' r.2 in
      (r.1 :: r'.1, r'.2)
  end.

(** One test step: the prediction is made without gradient recording and
    only the buffers of the module may change. *)
Definition test_step_result (d : Device) (s : NdArray * Scalar) (o : ModuleObj)
    : Tensor * ModuleObj :=
  let fw := forward_of d false s o in
  (fw.1, mkModule (parameters o) (grad o) fw.2 (training o)).

Fixpoint test_results (d : Device) (ss : list (NdArray * Scalar)) (o : ModuleObj)
    : list Tensor * ModuleObj :=
  match ss with
  | [] => ([], o)
  | s :: ss' =>
      let r := test_step_result d s o in
      let r' := test_results d ss' r.2 in
      (r.1 :: r'.1, r'.2)
  end.

(** [model.train()] *)
Definition in_training_mode (o : ModuleObj) : ModuleObj :=
  mkModule (parameters o) (grad o) (buffers o) true.

(** One epoch: the predictions on the training samples and on the test
    samples, and the module and the optimizer after the epoch. *)
Definition epoch_result (d : Device) (ge : bool) (train test : list (NdArray * Scalar))
    (oa : ModuleObj * OptState) : (list Tensor * list Tensor) * (ModuleObj * OptState) :=
  let tr := train_results d ge train (in_training_mode oa.1, oa.2) in
  let te := test_results d test tr.2.1 in
  ((tr.1, te.1), (te.2, tr.2.2)).

(** The module and the optimizer after [n] epochs. *)
Fixpoint epochs_result (d : Device) (ge : bool) (train test : list (NdArray * Scalar))
    (n : nat) (oa : ModuleObj * OptState) : ModuleObj * OptState :=
  match n with
  | O => oa
  | S n' => epochs_result d ge train test n' (epoch_result d ge train test oa).2
  end.

(** The bindings one pass of a sample loop relies on. *)
Definition step_ready (k : Kernel) (d : Device) : Prop :=
  bound k "device" (VDevice d) ∧ bound k "model" VModel ∧
  bound k "opt" VOptimizer ∧ bound k "loss_fn" VLossFn.

(** The value shown as Test_loss by an epoch whose predictions are
    [hats], when [loss] was bound to [before] at its start: the loss of
    the last test sample if there is one, else the loss of the last
    training sample if there is one, else [before]. *)
Definition shown_of (d : Device) (train test : list (NdArray * Scalar))
    (hats : list Tensor * list Tensor) (before : option Val) : option Val :=
  last_loss d test hats.2 (last_loss d train hats.1 before).

(** *** What the training of the DHGCN notebook reads and writes *)

(** The cells of the DHGCN notebook that follow the construction of the
    model: loss and optimizer, split, training and testing. *)
Definition dhgcn_after_model : M unit := run_all (drop 8 Dhgcn.cells).

(** Names bound before these cells that they never read. *)
Definition unused_by_training : list string :=
  ["x_1s"; "x_2s"; "channels_edge"; "channels_node"; "simplexes"; "shrec"; "i_complex"].

(** The names that the training cell binds. *)
Definition training_names : list string :=
  ["test_interval"; "num_epochs"; "epoch_i"; "epoch_loss"; "x_0"; "y"; "y_hat"; "loss"].

(** [k'] differs from [k] at most in the bindings of the names [W], in
    the model and in the optimizer: the other names are bound as before
    and gradient recording is on or off as before. *)
Definition touches (W : list string) (k k' : Kernel) : Prop :=
  (∀ x, x ∉ W → globals k' !! x = globals k !! x) ∧ grad_enabled k' = grad_enabled k.

(** However [m] ends, it has rebound no name outside [W] and has left
    gradient recording as it found it. *)
Definition only_touches (W : list string) {A} (m : M A) : Prop :=
  ∀ k, touches W k (final (m k).2).

(** The names of the calls of one training sample and of one test
    sample. *)
Definition train_names : list string :=
  conversion_calls ++ training_calls ++ ["Tensor.item"].
Definition test_names : list string :=
  conversion_calls ++ ["Module.__call__"; "MSELoss.__call__"].

(** The names of the calls of one epoch over [n] training samples and
    [m] test samples. *)
Definition epoch_names (n m : nat) : list string :=
  ["Module.train"] ++ concat (replicate n train_names) ++ ["np.mean"; "print"]
  ++ ["torch.no_grad.__enter__"] ++ concat (replicate m test_names)
  ++ ["print"; "torch.no_grad.__exit__"].

(** The number of calls of [f] among the calls [L]. *)
Definition count_name (f : string) (names : list string) : nat :=
  length (filter (λ x, x = f) names).
Definition calls_of (f : string) (L : list Call) : nat := count_name f (fn <$> L).

(** *** The construction of the model and of the optimizer *)

(** [name] holds a list whose first entry is an array whose shape ends
    with [c]; [first_sample_2]: whose shape is [(n, c, ...)]. *)
Definition first_sample (k : Kernel) (name : string) (c : Z) : Prop :=
  ∃ a l, bound k name (VSeq (VArr a :: l)) ∧ last (ndarray_shape a) = Some c.
Definition first_sample_2 (k : Kernel) (name : string) (c : Z) : Prop :=
  ∃ a l n rest, bound k name (VSeq (VArr a :: l)) ∧ ndarray_shape a = n :: c :: rest.

(** [name] holds a list of at least two items. *)
Definition splittable (k : Kernel) (name : string) : Prop :=
  ∃ l, bound k name (VSeq l) ∧ (2 ≤ length l)%nat.

(** The cells of the SCA-CMPS notebook that follow the pre-processing
    loop, and the names of the calls they make. *)
Definition sca_after_loop : M unit := run_all (drop 4 ScaCmps.cells).
Definition sca_after_loop_names : list string :=
  ["ndarray.shape"; "ndarray.shape"; "ndarray.shape"; "ndarray.shape"; "display"]
  ++ replicate 8 "train_test_split" ++ ["ndarray.shape"; "display"]
  ++ ["SCACMPS"; "Module.to"; "Module.parameters"; "torch.optim.Adam";
      "torch.nn.MSELoss"].

(** The module built from the parameters and buffers [pb] and moved to
    the device [dev]: it is in training mode and has no gradients. *)
Definition built (pb : Params * Buffers) (dev : Device) : ModuleObj :=
  mkModule (params_to dev pb.1) grad_unset (buffers_to dev pb.2) true.

End Further.

(** ** Further runs on the concrete instance *)

Module Edge.
Import Toy.

(** The concrete libraries, with a data set that lacks its face
    features. *)
Definition no_faces (n : nat) : Externals :=
  let E := externals n in
  {| cuda_is_available := @cuda_is_available _ E;
     torch_device := @torch_device _ E;
     torch_tensor := @torch_tensor _ E;
     torch_tensor_scalar := @torch_tensor_scalar _ E;
     tensor_float := @tensor_float _ E;
     tensor_to := @tensor_to _ E;
     from_numpy := @from_numpy _ E;
     to_sparse := @to_sparse _ E;
     tensor_shape := @tensor_shape _ E;
     tensor_item := @tensor_item _ E;
     ndarray_shape := @ndarray_shape _ E;
     np_mean := @np_mean _ E;
     todense := @todense _ E;
     transpose := @transpose _ E;
     rng_permutation := @rng_permutation _ E;
     shrec_16 := λ _,
       (filter (λ p, p.1 ≠ "face_feat") (dataset n), dataset 0);
     down_laplacian_matrix := @down_laplacian_matrix _ E;
     incidence_matrix := @incidence_matrix _ E;
     to_hypergraph := @to_hypergraph _ E;
     SCACMPS_init := @SCACMPS_init _ E;
     DHGCN_init := @DHGCN_init _ E;
     params_to := @params_to _ E;
     buffers_to := @buffers_to _ E;
     grad_unset := @grad_unset _ E;
     module_forward := @module_forward _ E;
     mse_loss := @mse_loss _ E;
     tensor_backward := @tensor_backward _ E;
     adam_init := @adam_init _ E;
     adam_zero_grad := @adam_zero_grad _ E;
     adam_step := @adam_step _ E |}.

(** Two lists that are too short for the cells that report on sample
    number 6, and a data set of one sample. *)
Definition one_array : list Val := [VArr 1000].
Definition one_sample : Kernel := rebind "x_0s" (VSeq one_array) fresh.

(** The DHGCN notebook inside its loop over the training samples, and
    at the start of its third epoch. *)
Definition in_loop (n : nat) : Kernel :=
  rebind "epoch_loss" (VSeq [VFloat 7])
    (rebind "y" (VScalar 0) (rebind "x_0" (VArr 1000) (Runs.dhgcn_setup n))).
Definition in_loop_after : list Val := [VFloat 7; VFloat 1000000].
Definition in_epoch (n : nat) : Kernel :=
  rebind "test_interval" (VInt 1) (rebind "epoch_i" (VInt 3) (Runs.dhgcn_setup n)).

(** The same with an empty test set, and the notebook before its
    training cell with an empty data set. *)
Definition no_test (n : nat) : Kernel :=
  rebind "y_test" (VSeq []) (rebind "x_0_test" (VSeq []) (in_epoch n)).
Definition no_data (n : nat) : Kernel :=
  rebind "y_train" (VSeq []) (rebind "x_0_train" (VSeq [])
    (rebind "y_test" (VSeq []) (rebind "x_0_test" (VSeq []) (Runs.dhgcn_setup n)))).

(** The module and the optimizer that the setup cells build, the first
    sample of the data set, and the module after one training step on
    it: the prediction is 1000, the loss 1000000. *)
Definition setup_module : ModuleObj := mkModule 0 0 0 true.
Definition setup_adam : OptState := 0.
Definition cpu : Val := VDevice "cpu".
Definition x0 : NdArray := 1000.
Definition y0 : Scalar := 0.
Definition seven : list Val := [VFloat 7].
Definition stepped_module : ModuleObj := mkModule (-1) 1000000 1 true.

(** The training and the test samples of the data set of 10 samples. *)
Definition train8 : list (NdArray * Scalar) := zip (Runs.features 0 8) (Runs.labels 0 8).
Definition test2 : list (NdArray * Scalar) := zip (Runs.features 8 2) (Runs.labels 8 2).

End Edge.

(** ** Rules for [sat] *)

Section Sat.
Context `{Externals}.
Variable allowed : string → bool.
Variable names : list string.

Local Abbreviation holds fr := (sat allowed names fr).

Lemma keeps_refl fr k : keeps names fr k k.
Proof. split; [done|]. by destruct fr. Qed.

Lemma keeps_trans fr k1 k2 k3 :
  keeps names fr k1 k2 → keeps names fr k2 k3 → keeps names fr k1 k3.
Proof.
  intros [G1 H1] [G2 H2]. split.
  - intros x Hx. by rewrite G2, G1.
  - destruct fr; simpl in *; [done | by rewrite H2, H1 | by rewrite H2, H1].
Qed.

Lemma sat_ret fr {A} (a : A) : holds fr (ret a).
Proof. intros k. split; [constructor | apply keeps_refl]. Qed.

Lemma sat_raise fr {A} (e : exn) : holds fr (raise (A := A) e).
Proof. intros k. split; [constructor | apply keeps_refl]. Qed.

Lemma sat_bind fr {A B} (m : M A) (f : A → M B) :
  holds fr m → (∀ a, holds fr (f a)) → holds fr (bind m f).
Proof.
  intros Hm Hf k. unfold bind. destruct (Hm k) as [Lm Km].
  destruct (m k) as [l [a k'|e k']]; simpl in *; [|done].
  destruct (Hf a k') as [Lf Kf]. destruct (f a k') as [l' o]; simpl in *.
  split; [by apply Forall_app | by eapply keeps_trans].
Qed.

Lemma sat_finally fr {A} (m : M A) (fin : M unit) :
  holds fr m → holds fr fin → holds fr (finally m fin).
Proof.
  intros Hm Hf k. unfold finally. destruct (Hm k) as [Lm Km].
  destruct (m k) as [l [a k'|e k']]; simpl in *;
    (destruct (Hf k') as [Lf Kf]; destruct (fin k') as [l' [[] k''|e' k'']]; simpl in *;
     (split; [by apply Forall_app | by eapply keeps_trans])).
Qed.

Lemma sat_for_each fr {A} (l : list A) (body : A → M unit) :
  (∀ x, holds fr (body x)) → holds fr (for_each l body).
Proof.
  intros Hb. induction l as [|x l IH]; simpl; [apply sat_ret|].
  apply sat_bind; [apply Hb | intros _; apply IH].
Qed.

Lemma sat_dict_items_map fr (f : Val → M Val) d :
  (∀ v, holds fr (f v)) → holds fr (dict_items_map f d).
Proof.
  intros Hf. induction d as [|[key value] d IH]; simpl; [apply sat_ret|].
  apply sat_bind; [apply Hf | intros v].
  apply sat_bind; [apply IH | intros r; apply sat_ret].
Qed.

Lemma sat_get_var fr x : holds fr (get_var x).
Proof.
  intros k. unfold get_var. destruct (globals k !! x); simpl;
    (split; [constructor | apply keeps_refl]).
Qed.

Lemma sat_set_var fr x v : bool_decide (x ∈ names) = false → holds fr (set_var x v).
Proof.
  intros Hx k. apply bool_decide_eq_false in Hx. split; [constructor|].
  split; [|by destruct fr]. intros y Hy. simpl. apply lookup_insert_ne. by intros ->.
Qed.

Lemma sat_ext fr f a r : allowed f = true → holds fr (ext f a r).
Proof.
  intros Hf k. split; [by repeat constructor | apply keeps_refl].
Qed.

Ltac leaf :=
  intros [g mo ao ge]; unfold keeps, frame_keeps, heap_view, parameters_view; simpl;
  repeat match goal with
         | |- context [match ?v with _ => _ end] => destruct v
         end;
  simpl;
  (split;
   [repeat (apply Forall_cons_2; [done|]); apply Forall_nil_2
   | split; [done | first [done | congruence]]]).

(** The calls that leave the parameters, the gradients and the optimizer
    as they are. *)

Lemma sat_parameters_ fr m : allowed "Module.parameters" = true → holds fr (parameters_ m).
Proof. intros Hf. unfold parameters_. destruct fr; leaf. Qed.

Lemma sat_train_ fr m : allowed "Module.train" = true → holds fr (train_ m).
Proof. intros Hf. unfold train_. destruct fr; leaf. Qed.

Lemma sat_model_call_ fr m x :
  allowed "Module.__call__" = true → holds fr (model_call_ m x).
Proof. intros Hf. unfold model_call_. destruct fr; leaf. Qed.

Lemma sat_no_grad_enter fr :
  allowed "torch.no_grad.__enter__" = true → holds fr no_grad_enter.
Proof. intros Hf. unfold no_grad_enter. destruct fr; leaf. Qed.

Lemma sat_no_grad_exit fr b :
  allowed "torch.no_grad.__exit__" = true → holds fr (no_grad_exit b).
Proof. intros Hf. unfold no_grad_exit. destruct fr; leaf. Qed.

(** The calls that write the gradients or the optimizer, but not the
    parameters. *)

Lemma sat_Adam_ fr p lr :
  fr ≠ KeepHeap → allowed "torch.optim.Adam" = true → holds fr (Adam_ p lr).
Proof. intros Hh Hf. unfold Adam_. destruct fr; [| |done]; leaf. Qed.

Lemma sat_zero_grad_ fr o :
  fr ≠ KeepHeap → allowed "Optimizer.zero_grad" = true → holds fr (zero_grad_ o).
Proof. intros Hh Hf. unfold zero_grad_. destruct fr; [| |done]; leaf. Qed.

Lemma sat_backward_ fr l :
  fr ≠ KeepHeap → allowed "Tensor.backward" = true → holds fr (backward_ l).
Proof. intros Hh Hf. unfold backward_. destruct fr; [| |done]; leaf. Qed.

(** The calls that write the parameters. *)

Lemma sat_SCACMPS_ cl cd nc nl att :
  allowed "SCACMPS" = true → holds Free (SCACMPS_ cl cd nc nl att).
Proof. intros Hf. unfold SCACMPS_. leaf. Qed.

Lemma sat_DHGCN_ c nl : allowed "DHGCN" = true → holds Free (DHGCN_ c nl).
Proof. intros Hf. unfold DHGCN_. leaf. Qed.

Lemma sat_module_to_ m d : allowed "Module.to" = true → holds Free (module_to_ m d).
Proof. intros Hf. unfold module_to_. leaf. Qed.

Lemma sat_step_ o : allowed "Optimizer.step" = true → holds Free (step_ o).
Proof. intros Hf. unfold step_. leaf. Qed.

End Sat.

(** [sat_auto] walks through a command built from the statements above. *)
Ltac sat_head m :=
  lazymatch m with
  | ?f _ _ _ _ _ _ => unfold f
  | ?f _ _ _ _ _ => unfold f
  | ?f _ _ _ _ => unfold f
  | ?f _ _ _ => unfold f
  | ?f _ _ => unfold f
  | ?f _ => unfold f
  | ?f => unfold f
  end.

Ltac sat_step :=
  lazymatch goal with
  | |- sat _ _ _ (bind _ _) => apply sat_bind; [|intros ?]
  | |- sat _ _ _ (ret _) => apply sat_ret
  | |- sat _ _ _ (raise _) => apply sat_raise
  | |- sat _ _ _ (finally _ _) => apply sat_finally
  | |- sat _ _ _ (for_each _ _) => apply sat_for_each; intros ?
  | |- sat _ _ _ (dict_items_map _ _) => apply sat_dict_items_map; intros ?
  | |- sat _ _ _ (get_var _) => apply sat_get_var
  | |- sat _ _ _ (set_var _ _) => apply sat_set_var; reflexivity
  | |- sat _ _ _ (ext _ _ _) => apply sat_ext; reflexivity
  | |- sat _ _ _ (parameters_ _) => apply sat_parameters_; reflexivity
  | |- sat _ _ _ (train_ _) => apply sat_train_; reflexivity
  | |- sat _ _ _ (model_call_ _ _) => apply sat_model_call_; reflexivity
  | |- sat _ _ _ no_grad_enter => apply sat_no_grad_enter; reflexivity
  | |- sat _ _ _ (no_grad_exit _) => apply sat_no_grad_exit; reflexivity
  | |- sat _ _ _ (SCACMPS_ _ _ _ _ _) => apply sat_SCACMPS_; reflexivity
  | |- sat _ _ _ (DHGCN_ _ _) => apply sat_DHGCN_; reflexivity
  | |- sat _ _ _ (module_to_ _ _) => apply sat_module_to_; reflexivity
  | |- sat _ _ _ (Adam_ _ _) => apply sat_Adam_; [discriminate|reflexivity]
  | |- sat _ _ _ (zero_grad_ _) => apply sat_zero_grad_; [discriminate|reflexivity]
  | |- sat _ _ _ (backward_ _) => apply sat_backward_; [discriminate|reflexivity]
  | |- sat _ _ _ (step_ _) => apply sat_step_; reflexivity
  | |- sat _ _ _ (match ?v with _ => _ end) => destruct v
  | |- sat _ _ _ (let _ := _ in _) => cbv zeta
  | |- sat _ _ _ ?m => sat_head m
  end.

Ltac sat_auto := repeat sat_step.

(** ** Rules for [blind] *)

Section Blind.
Context `{Externals}.
Variable W : list string.

Lemma blind_ret {A} (a : A) : blind W (ret a).
Proof. intros k1 k2 Hk. by split. Qed.

Lemma blind_raise {A} (e : exn) : blind W (raise (A := A) e).
Proof. intros k1 k2 Hk. by split. Qed.

Lemma blind_bind {A B} (m : M A) (f : A → M B) :
  blind W m → (∀ a, blind W (f a)) → blind W (bind m f).
Proof.
  intros Hm Hf k1 k2 Hk. unfold bind. destruct (Hm k1 k2 Hk) as [Hl Hs].
  destruct (m k1) as [l1 [a1 k1'|e1 k1']], (m k2) as [l2 [a2 k2'|e2 k2']];
    simpl in *; subst; try done.
  destruct Hs as [-> Hk'].
  destruct (Hf a2 k1' k2' Hk') as [Hl' Hs'].
  destruct (f a2 k1') as [l1' o1], (f a2 k2') as [l2' o2]; simpl in *.
  by subst.
Qed.

Lemma blind_finally {A} (m : M A) (fin : M unit) :
  blind W m → blind W fin → blind W (finally m fin).
Proof.
  intros Hm Hf k1 k2 Hk. unfold finally. destruct (Hm k1 k2 Hk) as [Hl Hs].
  destruct (m k1) as [l1 [a1 k1'|e1 k1']], (m k2) as [l2 [a2 k2'|e2 k2']];
    simpl in *; subst; try done;
    destruct Hs as [-> Hk'];
    destruct (Hf k1' k2' Hk') as [Hl' Hs'];
    destruct (fin k1') as [l1' [[] k1''|e1' k1'']], (fin k2') as [l2' [[] k2''|e2' k2'']];
    simpl in *; subst; try done; destruct Hs' as [? ?]; by subst.
Qed.

Lemma blind_for_each {A} (l : list A) (body : A → M unit) :
  (∀ x, blind W (body x)) → blind W (for_each l body).
Proof.
  intros Hb. induction l as [|x l IH]; simpl; [apply blind_ret|].
  apply blind_bind; [apply Hb | intros _; apply IH].
Qed.

Lemma blind_dict_items_map (f : Val → M Val) d :
  (∀ v, blind W (f v)) → blind W (dict_items_map f d).
Proof.
  intros Hf. induction d as [|[key value] d IH]; simpl; [apply blind_ret|].
  apply blind_bind; [apply Hf | intros v].
  apply blind_bind; [apply IH | intros r; apply blind_ret].
Qed.

Lemma blind_get_var x : bool_decide (x ∈ W) = false → blind W (get_var x).
Proof.
  intros Hx k1 k2 Hk. apply bool_decide_eq_false in Hx.
  unfold get_var. pose proof Hk as (Hg & _). rewrite (Hg x Hx).
  by destruct (globals k2 !! x).
Qed.

Lemma blind_set_var x v : blind W (set_var x v).
Proof.
  intros k1 k2 (Hg & Hm & Ha & He). split; [done|]. simpl.
  repeat split; try done. intros y Hy. simpl.
  destruct (decide (x = y)) as [->|Hne].
  - by rewrite !lookup_insert_eq.
  - rewrite !lookup_insert_ne by done. by apply Hg.
Qed.

Lemma blind_ext f a r : blind W (ext f a r).
Proof. intros k1 k2 Hk. by split. Qed.

Ltac leaf2 :=
  intros [g1 mo1 ao1 ge1] [g2 mo2 ao2 ge2] (Hg & Hm & Ha & He);
  simpl in Hg, Hm, Ha, He; subst; unfold agree; simpl;
  repeat match goal with
         | |- context [match ?v with _ => _ end] => destruct v
         end;
  simpl; done.

Lemma blind_parameters_ m : blind W (parameters_ m).
Proof. unfold parameters_. leaf2. Qed.
Lemma blind_train_ m : blind W (train_ m).
Proof. unfold train_. leaf2. Qed.
Lemma blind_model_call_ m x : blind W (model_call_ m x).
Proof. unfold model_call_. leaf2. Qed.
Lemma blind_no_grad_enter : blind W no_grad_enter.
Proof. unfold no_grad_enter. leaf2. Qed.
Lemma blind_no_grad_exit b : blind W (no_grad_exit b).
Proof. unfold no_grad_exit. leaf2. Qed.
Lemma blind_SCACMPS_ cl cd nc nl att : blind W (SCACMPS_ cl cd nc nl att).
Proof. unfold SCACMPS_. leaf2. Qed.
Lemma blind_DHGCN_ c nl : blind W (DHGCN_ c nl).
Proof. unfold DHGCN_. leaf2. Qed.
Lemma blind_module_to_ m d : blind W (module_to_ m d).
Proof. unfold module_to_. leaf2. Qed.
Lemma blind_Adam_ p lr : blind W (Adam_ p lr).
Proof. unfold Adam_. leaf2. Qed.
Lemma blind_zero_grad_ o : blind W (zero_grad_ o).
Proof. unfold zero_grad_. leaf2. Qed.
Lemma blind_backward_ l : blind W (backward_ l).
Proof. unfold backward_. leaf2. Qed.
Lemma blind_step_ o : blind W (step_ o).
Proof. unfold step_. leaf2. Qed.

End Blind.

Ltac blind_head m :=
  lazymatch m with
  | ?f _ _ _ _ _ _ => unfold f
  | ?f _ _ _ _ _ => unfold f
  | ?f _ _ _ _ => unfold f
  | ?f _ _ _ => unfold f
  | ?f _ _ => unfold f
  | ?f _ => unfold f
  | ?f => unfold f
  end.

Ltac blind_step :=
  lazymatch goal with
  | |- blind _ (bind _ _) => apply blind_bind; [|intros ?]
  | |- blind _ (ret _) => apply blind_ret
  | |- blind _ (raise _) => apply blind_raise
  | |- blind _ (finally _ _) => apply blind_finally
  | |- blind _ (for_each _ _) => apply blind_for_each; intros ?
  | |- blind _ (dict_items_map _ _) => apply blind_dict_items_map; intros ?
  | |- blind _ (get_var _) => apply blind_get_var; reflexivity
  | |- blind _ (set_var _ _) => apply blind_set_var
  | |- blind _ (ext _ _ _) => apply blind_ext
  | |- blind _ (parameters_ _) => apply blind_parameters_
  | |- blind _ (train_ _) => apply blind_train_
  | |- blind _ (model_call_ _ _) => apply blind_model_call_
  | |- blind _ no_grad_enter => apply blind_no_grad_enter
  | |- blind _ (no_grad_exit _) => apply blind_no_grad_exit
  | |- blind _ (SCACMPS_ _ _ _ _ _) => apply blind_SCACMPS_
  | |- blind _ (DHGCN_ _ _) => apply blind_DHGCN_
  | |- blind _ (module_to_ _ _) => apply blind_module_to_
  | |- blind _ (Adam_ _ _) => apply blind_Adam_
  | |- blind _ (zero_grad_ _) => apply blind_zero_grad_
  | |- blind _ (backward_ _) => apply blind_backward_
  | |- blind _ (step_ _) => apply blind_step_
  | |- blind _ (match ?v with _ => _ end) => destruct v
  | |- blind _ (let _ := _ in _) => cbv zeta
  | |- blind _ ?m => blind_head m
  end.

Ltac blind_auto := repeat blind_step.

(** ** Running commands on a symbolic state *)

Section Run.
Context `{Externals}.

Lemma bind_Ok {A B} (m : M A) (f : A → M B) k l a k' l' o :
  m k = (l, Ok a k') → f a k' = (l', o) → bind m f k = (l ++ l', o).
Proof. intros Hm Hf. unfold bind. by rewrite Hm, Hf. Qed.

Lemma finally_Ok {A} (m : M A) (fin : M unit) k l a k' l' k'' :
  m k = (l, Ok a k') → fin k' = (l', Ok () k'') → finally m fin k = (l ++ l', Ok a k'').
Proof. intros Hm Hf. unfold finally. by rewrite Hm, Hf. Qed.

Lemma for_each_cons_Ok {A} (x : A) l (body : A → M unit) k L1 k1 L2 o :
  body x k = (L1, Ok () k1) → for_each l body k1 = (L2, o) →
  for_each (x :: l) body k = (L1 ++ L2, o).
Proof. intros Hb Hl. simpl. by eapply bind_Ok. Qed.

Lemma zip_inj (xs : list NdArray) (ys : list Scalar) :
  zip (VArr <$> xs) (VScalar <$> ys) = inj <$> zip xs ys.
Proof.
  revert ys. induction xs as [|x xs IH]; intros [|y ys]; simpl; [done..|].
  by rewrite IH.
Qed.

Lemma floats_of_fmap (fs : list Float) : floats_of (VFloat <$> fs) = Some fs.
Proof. induction fs as [|f fs IH]; csimpl; [done|]. by rewrite IH. Qed.

Lemma split_sizes_100 : split_sizes 100 0.2 = Some (80%nat, 20%nat).
Proof. reflexivity. Qed.

End Run.

(** [look] resolves the lookups in a namespace built by bindings; [sym]
    runs a command without loops as far as the lookups allow. *)
Ltac look :=
  repeat first
    [ rewrite lookup_insert_eq
    | rewrite lookup_insert_ne by done
    | match goal with Hg : ?g !! ?x = _ |- context [?g !! ?x] => rewrite Hg end ].
Ltac red1 :=
  cbv beta iota zeta delta
    [globals model_obj adam_obj grad_enabled parameters grad buffers training
     with_globals with_model with_adam with_grad_enabled
     bind ret raise finally get_var set_var assign ext append print display unpack2 zip_
     as_seq as_int as_float as_real truthy index index_v subscript py_mod kw
     torch_tensor_ torch_tensor_float_ float_ to_ from_numpy_ to_sparse_ item_
     np_array_ shape_ np_mean_ todense_ T_ down_laplacian_matrix_ incidence_matrix_
     incidence_matrix_signed_ to_hypergraph_ new_module
     parameters_ train_ model_call_ MSELoss_ loss_call_ zero_grad_ backward_ step_
     no_grad_enter no_grad_exit with_no_grad
     Dhgcn.convert_sample Dhgcn.forward_backward Dhgcn.train_step Dhgcn.test_step
     Dhgcn.print_flush inj];
  cbn [app fst snd].
Ltac sym := repeat (progress (red1; look)).
Ltac run1 := sym; reflexivity.

(** ** The SCA-CMPS notebook: the derivation loop and the split *)

Section ScaRuns.
Context `{Externals}.

Lemma derive_step c g mo ao ge l1 l2 l3 l4 :
  g !! "laplacian_down_1_list" = Some (VSeq l1) →
  g !! "laplacian_down_2_list" = Some (VSeq l2) →
  g !! "incidence1_t_list" = Some (VSeq l3) →
  g !! "incidence2_t_list" = Some (VSeq l4) →
  ∃ g',
    (set_var "sc" (VComplex c) ;; ScaCmps.derive) (mkKernel g mo ao ge)
    = (derive_calls c, Ok () (mkKernel g' mo ao ge))
    ∧ g' !! "laplacian_down_1_list"
      = Some (VSeq (l1 ++ [as_torch_sparse (down_laplacian_matrix c 1)]))
    ∧ g' !! "laplacian_down_2_list"
      = Some (VSeq (l2 ++ [as_torch_sparse (down_laplacian_matrix c 2)]))
    ∧ g' !! "incidence1_t_list"
      = Some (VSeq (l3 ++ [as_torch_sparse (transpose (incidence_matrix c 1 true))]))
    ∧ g' !! "incidence2_t_list"
      = Some (VSeq (l4 ++ [as_torch_sparse (transpose (incidence_matrix c 2 true))])).
Proof.
  intros H1 H2 H3 H4. eexists. split; [unfold ScaCmps.derive; run1|].
  look. done.
Qed.

Lemma derive_loop cs : ∀ g mo ao ge l1 l2 l3 l4,
  g !! "laplacian_down_1_list" = Some (VSeq l1) →
  g !! "laplacian_down_2_list" = Some (VSeq l2) →
  g !! "incidence1_t_list" = Some (VSeq l3) →
  g !! "incidence2_t_list" = Some (VSeq l4) →
  ∃ k',
    for_each (VComplex <$> cs) (λ sc, set_var "sc" sc ;; ScaCmps.derive)
      (mkKernel g mo ao ge)
    = (concat (derive_calls <$> cs), Ok () k')
    ∧ bound k' "laplacian_down_1_list"
        (VSeq (l1 ++ ((λ c, as_torch_sparse (down_laplacian_matrix c 1)) <$> cs)))
    ∧ bound k' "laplacian_down_2_list"
        (VSeq (l2 ++ ((λ c, as_torch_sparse (down_laplacian_matrix c 2)) <$> cs)))
    ∧ bound k' "incidence1_t_list"
        (VSeq (l3 ++ ((λ c, as_torch_sparse (transpose (incidence_matrix c 1 true)))
                        <$> cs)))
    ∧ bound k' "incidence2_t_list"
        (VSeq (l4 ++ ((λ c, as_torch_sparse (transpose (incidence_matrix c 2 true)))
                        <$> cs))).
Proof.
  induction cs as [|c cs IH]; intros g mo ao ge l1 l2 l3 l4 H1 H2 H3 H4.
  - eexists. split; [reflexivity|]. unfold bound; simpl. by rewrite !app_nil_r.
  - destruct (derive_step c g mo ao ge _ _ _ _ H1 H2 H3 H4)
      as (g' & Hs & G1 & G2 & G3 & G4).
    destruct (IH g' mo ao ge _ _ _ _ G1 G2 G3 G4) as (k' & Hrun & B1 & B2 & B3 & B4).
    exists k'. split.
    + cbn [fmap list_fmap concat]. eapply for_each_cons_Ok; [exact Hs | exact Hrun].
    + rewrite <- !app_assoc in B1, B2, B3, B4. done.
Qed.

Lemma derived_list_fmap k name (f : SimplicialComplex → Sparse) cs :
  bound k name (VSeq ((λ c, as_torch_sparse (f c)) <$> cs)) → derived_list k name f cs.
Proof.
  intros Hb. eexists. split; [exact Hb|]. split; [by rewrite length_fmap|].
  intros i c Hi. by rewrite list_lookup_fmap, Hi.
Qed.

Lemma neighborhoods_run cs k :
  bound k "scs" (VSeq (VComplex <$> cs)) → four_lists cs (ScaCmps.cell_neighborhoods k).
Proof.
  destruct k as [g mo ao ge]. unfold bound. simpl. intros Hs.
  pose (g4 := <["incidence2_t_list":=VSeq []]> (<["incidence1_t_list":=VSeq []]>
      (<["laplacian_down_2_list":=VSeq []]> (<["laplacian_down_1_list":=VSeq []]> g)))).
  destruct (derive_loop cs g4 mo ao ge [] [] [] []) as (k' & Hrun & B1 & B2 & B3 & B4);
    [subst g4; look; done ..|].
  exists k'. split; [|by repeat split; apply derived_list_fmap].
  unfold ScaCmps.cell_neighborhoods.
  repeat (eapply (bind_Ok _ _ _ []); [run1|]). exact Hrun.
Qed.

Lemma split_into_run tr te src l g mo ao ge :
  g !! src = Some (VSeq l) → length l = 100%nat →
  g !! "test_size" = Some (VReal 0.2) →
  split_into tr te src (mkKernel g mo ao ge)
  = ([split_call l],
     Ok () (mkKernel (<[te:=VSeq (drop 80 l)]> (<[tr:=VSeq (take 80 l)]> g)) mo ao ge)).
Proof.
  intros Hs Hlen Ht. unfold split_into, train_test_split_. sym.
  rewrite Hlen, split_sizes_100. sym.
  rewrite (take_ge (drop 80 l)) by (rewrite length_drop; lia). reflexivity.
Qed.

Lemma first_80_last_20_intro k tr te l :
  length l = 100%nat →
  bound k tr (VSeq (take 80 l)) → bound k te (VSeq (drop 80 l)) →
  first_80_last_20 k tr te l.
Proof.
  intros Hlen Ha Hb. exists (take 80 l), (drop 80 l). split; [done|]. split; [done|].
  split; [rewrite length_take; lia|]. split; [rewrite length_drop; lia|].
  split; intros i Hi; [by apply lookup_take_lt | by apply lookup_drop].
Qed.

End ScaRuns.

Section SplitRuns.
Context `{Externals}.

Ltac split_step :=
  eapply (bind_Ok _ _ _ [_]); [apply split_into_run; [look; done | done | look; done]|].

Lemma sca_split_run k x0 x1 x2 l1 l2 i1 i2 y :
  hundred k "x_0s" x0 → hundred k "x_1s" x1 → hundred k "x_2s" x2 →
  hundred k "laplacian_down_1_list" l1 → hundred k "laplacian_down_2_list" l2 →
  hundred k "incidence1_t_list" i1 → hundred k "incidence2_t_list" i2 →
  hundred k "ys" y →
  sca_split x0 x1 x2 l1 l2 i1 i2 y (ScaCmps.cell_split k).
Proof.
  destruct k as [g mo ao ge]. unfold hundred, bound. simpl.
  intros [B0 N0] [B1 N1] [B2 N2] [B3 N3] [B4 N4] [B5 N5] [B6 N6] [B7 N7].
  eexists _, _. split.
  - unfold ScaCmps.cell_split. cbn [fmap list_fmap app].
    eapply (bind_Ok _ _ _ []); [run1|].
    do 8 split_step. run1.
  - split; [repeat (apply Forall_cons_2; [done|]); apply Forall_nil_2|].
    repeat split; (apply first_80_last_20_intro; [done | unfold bound; cbn [globals]; look; done ..]).
Qed.

Lemma dhgcn_split_run k x0 y :
  hundred k "x_0s" x0 → hundred k "ys" y → dhgcn_split x0 y (Dhgcn.cell_split k).
Proof.
  destruct k as [g mo ao ge]. unfold hundred, bound. simpl.
  intros [B0 N0] [B1 N1].
  eexists. split.
  - unfold Dhgcn.cell_split. cbn [fmap list_fmap].
    eapply (bind_Ok _ _ _ []); [run1|].
    split_step. apply split_into_run; [look; done | done | look; done].
  - split; (apply first_80_last_20_intro; [done | unfold bound; cbn [globals]; look; done ..]).
Qed.

End SplitRuns.

(** ** The DHGCN notebook: the training cell *)

Section DhgcnRuns.
Context `{Externals}.

Lemma train_sample d xs ys xt yt s g o a ge fs :
  fixed g d xs ys xt yt →
  g !! "epoch_loss" = Some (VSeq (VFloat <$> fs)) →
  ∃ h g' o' a',
    (set_var "x_0" (inj s).1 ;; set_var "y" (inj s).2 ;; Dhgcn.train_step)
      (mkKernel g (Some o) (Some a) ge)
    = (train_calls d s h, Ok () (mkKernel g' (Some o') (Some a') ge))
    ∧ fixed g' d xs ys xt yt
    ∧ g' !! "epoch_loss" = Some (VSeq (VFloat <$> (fs ++ [tensor_item (loss_of d s h)])))
    ∧ g' !! "loss" = Some (VTensor (loss_of d s h))
    ∧ g' !! "epoch_i" = g !! "epoch_i"
    ∧ g' !! "test_interval" = g !! "test_interval".
Proof.
  intros (Hd & Hm & Ho & Hl & H1 & H2 & H3 & H4) He. destruct s as [x y].
  eexists _, _, _, _. split; [run1|].
  split; [repeat split; look; done|].
  look. rewrite fmap_app. done.
Qed.

Lemma test_sample d xs ys xt yt s g o a ge :
  fixed g d xs ys xt yt →
  ∃ h g' o',
    (set_var "x_0" (inj s).1 ;; set_var "y" (inj s).2 ;; Dhgcn.test_step)
      (mkKernel g (Some o) (Some a) ge)
    = (test_calls d s h, Ok () (mkKernel g' (Some o') (Some a) ge))
    ∧ fixed g' d xs ys xt yt
    ∧ g' !! "loss" = Some (VTensor (loss_of d s h))
    ∧ g' !! "epoch_i" = g !! "epoch_i"
    ∧ g' !! "test_interval" = g !! "test_interval"
    ∧ parameters o' = parameters o ∧ grad o' = grad o.
Proof.
  intros (Hd & Hm & Ho & Hl & H1 & H2 & H3 & H4). destruct s as [x y].
  eexists _, _, _. split; [run1|].
  split; [repeat split; look; done|].
  look. done.
Qed.

Lemma last_loss_snoc d ss s hats h before :
  length ss = length hats →
  last_loss d (ss ++ [s]) (hats ++ [h]) before = Some (VTensor (loss_of d s h)).
Proof.
  intros Hlen. unfold last_loss, losses.
  rewrite zip_with_app by done. simpl. by rewrite last_snoc.
Qed.

Lemma last_loss_cons d s ss h hats before :
  last_loss d (s :: ss) (h :: hats) before
  = last_loss d ss hats (Some (VTensor (loss_of d s h))).
Proof.
  unfold last_loss, losses. simpl.
  destruct (zip_with (loss_of d) ss hats) as [|l ls] eqn:E; [done|].
  change (last (loss_of d s h :: l :: ls)) with (last (l :: ls)).
  destruct (last (l :: ls)) eqn:E2; [done|]. by apply last_None in E2.
Qed.

Lemma train_loop d xs ys xt yt ss : ∀ g o a ge fs,
  fixed g d xs ys xt yt →
  g !! "epoch_loss" = Some (VSeq (VFloat <$> fs)) →
  ∃ hats g' o' a',
    length hats = length ss
    ∧ for_each (inj <$> ss)
        (λ p, set_var "x_0" p.1 ;; set_var "y" p.2 ;; Dhgcn.train_step)
        (mkKernel g (Some o) (Some a) ge)
      = (concat (zip_with (train_calls d) ss hats),
         Ok () (mkKernel g' (Some o') (Some a') ge))
    ∧ fixed g' d xs ys xt yt
    ∧ g' !! "epoch_loss"
      = Some (VSeq (VFloat <$> (fs ++ (tensor_item <$> losses d ss hats))))
    ∧ g' !! "loss" = last_loss d ss hats (g !! "loss")
    ∧ g' !! "epoch_i" = g !! "epoch_i"
    ∧ g' !! "test_interval" = g !! "test_interval".
Proof.
  induction ss as [|s ss IH]; intros g o a ge fs Hfix He.
  - exists [], g, o, a. rewrite app_nil_r. done.
  - destruct (train_sample d xs ys xt yt s g o a ge fs Hfix He)
      as (h & g1 & o1 & a1 & Hrun1 & Hfix1 & He1 & Hl1 & Hi1 & Ht1).
    destruct (IH g1 o1 a1 ge _ Hfix1 He1)
      as (hats & g' & o' & a' & Hlen & Hrun & Hfix' & He' & Hl' & Hi' & Ht').
    exists (h :: hats), g', o', a'. split; [simpl; by rewrite Hlen|].
    split; [cbn [fmap list_fmap zip_with concat]; eapply for_each_cons_Ok; [exact Hrun1|exact Hrun]|].
    split; [done|]. split; [|split; [|split; congruence]].
    + rewrite He'. by rewrite <- app_assoc.
    + rewrite Hl', Hl1. by rewrite last_loss_cons.
Qed.

Lemma test_loop d xs ys xt yt ss : ∀ g o a ge,
  fixed g d xs ys xt yt →
  ∃ hats g' o',
    length hats = length ss
    ∧ for_each (inj <$> ss)
        (λ p, set_var "x_0" p.1 ;; set_var "y" p.2 ;; Dhgcn.test_step)
        (mkKernel g (Some o) (Some a) ge)
      = (concat (zip_with (test_calls d) ss hats),
         Ok () (mkKernel g' (Some o') (Some a) ge))
    ∧ fixed g' d xs ys xt yt
    ∧ g' !! "loss" = last_loss d ss hats (g !! "loss")
    ∧ g' !! "epoch_i" = g !! "epoch_i"
    ∧ g' !! "test_interval" = g !! "test_interval"
    ∧ parameters o' = parameters o ∧ grad o' = grad o.
Proof.
  induction ss as [|s ss IH]; intros g o a ge Hfix.
  - exists [], g, o. done.
  - destruct (test_sample d xs ys xt yt s g o a ge Hfix)
      as (h & g1 & o1 & Hrun1 & Hfix1 & Hl1 & Hi1 & Ht1 & Hp1 & Hg1).
    destruct (IH g1 o1 a ge Hfix1)
      as (hats & g' & o' & Hlen & Hrun & Hfix' & Hl' & Hi' & Ht' & Hp' & Hg').
    exists (h :: hats), g', o'. split; [simpl; by rewrite Hlen|].
    split; [cbn [fmap list_fmap zip_with concat]; eapply for_each_cons_Ok; [exact Hrun1|exact Hrun]|].
    split; [done|]. split; [|repeat split; congruence].
    rewrite Hl', Hl1. by rewrite last_loss_cons.
Qed.

Lemma train_epoch_run d xs ys xt yt g o a ge i :
  fixed g d xs ys xt yt →
  g !! "epoch_i" = Some (VInt i) →
  ∃ hats g' o' a',
    length hats = length (zip xs ys)
    ∧ Dhgcn.train_epoch (mkKernel g (Some o) (Some a) ge)
      = (train_epoch_calls d i (zip xs ys) hats,
         Ok () (mkKernel g' (Some o') (Some a') ge))
    ∧ fixed g' d xs ys xt yt
    ∧ g' !! "epoch_loss"
      = Some (VSeq (VFloat <$> (tensor_item <$> losses d (zip xs ys) hats)))
    ∧ g' !! "loss" = last_loss d (zip xs ys) hats (g !! "loss")
    ∧ g' !! "epoch_i" = Some (VInt i)
    ∧ g' !! "test_interval" = g !! "test_interval".
Proof.
  intros Hfix Hi.
  pose proof Hfix as (Hd & Hm & Ho & Hl & H1 & H2 & H3 & H4).
  pose (g0 := <["epoch_loss":=VSeq []]> g).
  destruct (train_loop d xs ys xt yt (zip xs ys) g0 (mkModule (parameters o) (grad o) (buffers o) true) a ge [])
    as (hats & g' & o' & a' & Hlen & Hrun & Hfix' & He' & Hl' & Hi' & Ht');
    [subst g0; repeat split; look; done | subst g0; look; done |].
  subst g0. rewrite lookup_insert_ne in Hl', Hi', Ht' by done.
  pose proof Hfix' as (Hd' & Hm' & Ho' & Hlf' & H1' & H2' & H3' & H4').
  exists hats, g', o', a'. split; [done|]. split; [|by rewrite Hi', Hi, Ht'].
  unfold Dhgcn.train_epoch, train_epoch_calls, Dhgcn.for_zip.
  eapply (bind_Ok _ _ _ []); [run1|].
  eapply (bind_Ok _ _ _ [_]); [run1|].
  eapply bind_Ok.
  { eapply (bind_Ok _ _ _ []); [run1|].
    eapply (bind_Ok _ _ _ []); [run1|].
    eapply (bind_Ok _ _ _ []); [run1|].
    rewrite zip_inj. exact Hrun. }
  sym. rewrite floats_of_fmap. sym. reflexivity.
Qed.

Lemma last_loss_Some d ss hats before :
  length hats = length ss → ss ≠ [] ∨ is_Some before →
  is_Some (last_loss d ss hats before).
Proof.
  intros Hlen Hor. unfold last_loss.
  destruct (last (losses d ss hats)) eqn:E; [done|].
  apply last_None in E. destruct Hor as [Hne|Hs]; [|done].
  destruct ss as [|s ss]; [done|]. destruct hats as [|h hats]; done.
Qed.

Lemma evaluate_run d xs ys xt yt g o a ge :
  fixed g d xs ys xt yt →
  zip xt yt ≠ [] ∨ is_Some (g !! "loss") →
  ∃ hats shown g' o',
    length hats = length (zip xt yt)
    ∧ Dhgcn.evaluate (mkKernel g (Some o) (Some a) ge)
      = (evaluate_calls d (zip xt yt) hats shown,
         Ok () (mkKernel g' (Some o') (Some a) ge))
    ∧ fixed g' d xs ys xt yt
    ∧ last_loss d (zip xt yt) hats (g !! "loss") = Some shown
    ∧ g' !! "loss" = Some shown
    ∧ g' !! "epoch_i" = g !! "epoch_i"
    ∧ g' !! "test_interval" = g !! "test_interval"
    ∧ parameters o' = parameters o ∧ grad o' = grad o.
Proof.
  intros Hfix Hor.
  pose proof Hfix as (Hd & Hm & Ho & Hl & H1 & H2 & H3 & H4).
  destruct (test_loop d xs ys xt yt (zip xt yt) g o a false Hfix)
    as (hats & g' & o' & Hlen & Hrun & Hfix' & Hl' & Hi' & Ht' & Hp' & Hg').
  destruct (last_loss_Some d (zip xt yt) hats (g !! "loss") Hlen Hor) as [shown Hshown].
  rewrite Hshown in Hl'.
  exists hats, shown, g', o'. split; [done|]. split; [|done].
  unfold Dhgcn.evaluate, evaluate_calls, with_no_grad, Dhgcn.for_zip.
  eapply (bind_Ok _ _ _ [_]); [run1|].
  match goal with
  | |- _ = (?X ++ [?p; ?q], _) =>
      replace (X ++ [p; q]) with ((X ++ [p]) ++ [q]) by (by rewrite <- app_assoc)
  end.
  eapply finally_Ok.
  - eapply bind_Ok.
    + eapply (bind_Ok _ _ _ []); [run1|].
      eapply (bind_Ok _ _ _ []); [run1|].
      eapply (bind_Ok _ _ _ []); [run1|].
      rewrite zip_inj. exact Hrun.
    + run1.
  - run1.
Qed.

Lemma epoch_run d xs ys xt yt g o a ge i :
  fixed g d xs ys xt yt →
  g !! "epoch_i" = Some (VInt i) →
  g !! "test_interval" = Some (VInt 1) →
  zip xs ys ≠ [] ∨ zip xt yt ≠ [] ∨ is_Some (g !! "loss") →
  ∃ e g' o' a',
    Dhgcn.epoch (mkKernel g (Some o) (Some a) ge)
    = (epoch_calls d (zip xs ys) (zip xt yt) i e,
       Ok () (mkKernel g' (Some o') (Some a') ge))
    ∧ epoch_ok d (zip xs ys) (zip xt yt) e
    ∧ fixed g' d xs ys xt yt
    ∧ g' !! "test_interval" = Some (VInt 1)
    ∧ is_Some (g' !! "loss").
Proof.
  intros Hfix Hi Ht Hor.
  destruct (train_epoch_run d xs ys xt yt g o a ge i Hfix Hi)
    as (hats1 & g1 & o1 & a1 & Hlen1 & Hrun1 & Hfix1 & He1 & Hl1 & Hi1 & Ht1).
  destruct (evaluate_run d xs ys xt yt g1 o1 a1 ge Hfix1)
    as (hats2 & shown & g2 & o2 & Hlen2 & Hrun2 & Hfix2 & Hs2 & Hl2 & Hi2 & Ht2 & _).
  { destruct Hor as [Hne|[Hne|Hs]]; [right|by left|right]; rewrite Hl1;
      apply last_loss_Some; auto. }
  exists (hats1, hats2, shown), g2, o2, a1.
  split; [|split; [|split; [done|split; [congruence|by rewrite Hl2]]]].
  - unfold Dhgcn.epoch, epoch_calls. rewrite Ht in Ht1.
    eapply bind_Ok; [exact Hrun1|].
    eapply (bind_Ok _ _ _ []); [run1|].
    eapply (bind_Ok _ _ _ []); [run1|].
    eapply (bind_Ok _ _ _ []); [run1|].
    eapply (bind_Ok _ _ _ []); [run1|].
    eapply (bind_Ok _ _ _ []); [reflexivity|].
    rewrite Z.mod_1_r. exact Hrun2.
  - split; [done|]. split; [done|]. simpl. intros l Hlast.
    unfold last_loss in Hs2. rewrite Hlast in Hs2. congruence.
Qed.

Lemma epochs_run d xs ys xt yt (js : list Z) : ∀ g o a ge,
  fixed g d xs ys xt yt →
  g !! "test_interval" = Some (VInt 1) →
  zip xs ys ≠ [] ∨ zip xt yt ≠ [] ∨ is_Some (g !! "loss") →
  ∃ es k',
    for_each js (λ i, set_var "epoch_i" (VInt i) ;; Dhgcn.epoch)
      (mkKernel g (Some o) (Some a) ge)
    = (concat (zip_with (epoch_calls d (zip xs ys) (zip xt yt)) js es), Ok () k')
    ∧ length es = length js
    ∧ Forall (epoch_ok d (zip xs ys) (zip xt yt)) es.
Proof.
  induction js as [|j js IH]; intros g o a ge Hfix Ht Hor.
  - exists [], (mkKernel g (Some o) (Some a) ge). done.
  - pose proof Hfix as (Hd & Hm & Ho & Hl & H1 & H2 & H3 & H4).
    destruct (epoch_run d xs ys xt yt (<["epoch_i":=VInt j]> g) o a ge j)
      as (e & g1 & o1 & a1 & Hrun1 & Hok1 & Hfix1 & Ht1 & Hs1);
      [repeat split; look; done | look; done | look; done
      | rewrite lookup_insert_ne by done; done |].
    destruct (IH g1 o1 a1 ge Hfix1 Ht1) as (es & k' & Hrun & Hlen & Hall); [auto|].
    exists (e :: es), k'. split; [|split; [simpl; by rewrite Hlen | by constructor]].
    cbn [zip_with concat]. eapply for_each_cons_Ok; [|exact Hrun].
    eapply (bind_Ok _ _ _ []); [run1|]. exact Hrun1.
Qed.

Lemma cell_train_run d xs ys xt yt g o a ge :
  fixed g d xs ys xt yt →
  zip xs ys ≠ [] ∨ zip xt yt ≠ [] ∨ is_Some (g !! "loss") →
  ∃ es k',
    Dhgcn.cell_train (mkKernel g (Some o) (Some a) ge)
    = (concat (zip_with (epoch_calls d (zip xs ys) (zip xt yt)) [1; 2; 3; 4; 5] es),
       Ok () k')
    ∧ length es = 5%nat
    ∧ Forall (epoch_ok d (zip xs ys) (zip xt yt)) es.
Proof.
  intros Hfix Hor.
  pose proof Hfix as (Hd & Hm & Ho & Hl & H1 & H2 & H3 & H4).
  destruct (epochs_run d xs ys xt yt [1; 2; 3; 4; 5]
              (<["num_epochs":=VInt 5]> (<["test_interval":=VInt 1]> g)) o a ge)
    as (es & k' & Hrun & Hlen & Hall);
    [repeat split; look; done | look; done
    | rewrite !lookup_insert_ne by done; done |].
  exists es, k'. split; [|done].
  unfold Dhgcn.cell_train.
  eapply (bind_Ok _ _ _ []); [run1|].
  eapply (bind_Ok _ _ _ []); [run1|].
  eapply (bind_Ok _ _ _ []); [run1|].
  eapply (bind_Ok _ _ _ []); [run1|].
  exact Hrun.
Qed.

End DhgcnRuns.

(** ** The claims *)

Section Claims.
Context `{Externals}.

Lemma sca_notebook_sat : sat no_training [] Free ScaCmps.notebook.
Proof.
  unfold ScaCmps.notebook, run_all, ScaCmps.cells. simpl for_each. unfold id. sat_auto.
Qed.

Lemma evaluate_sat : sat no_update [] KeepHeap Dhgcn.evaluate.
Proof. sat_auto. Qed.

Lemma forward_backward_sat : sat no_writer [] KeepParameters Dhgcn.forward_backward.
Proof. sat_auto. Qed.

Lemma cell_train_sat : sat step_or_no_writer [] Free Dhgcn.cell_train.
Proof. sat_auto. Qed.

Lemma sat_unchanged names (m : M unit) k :
  sat (λ _, true) names Free m → unchanged names m k.
Proof.
  intros Hs. destruct (Hs k) as [_ [Hk _]]. apply Forall_forall. exact Hk.
Qed.

Lemma blind_rebind W x v k : x ∈ W → agree W (rebind x v k) k.
Proof.
  intros Hx. repeat split. intros y Hy. simpl.
  apply lookup_insert_ne. by intros ->.
Qed.

Lemma agree_trans W k1 k2 k3 : agree W k1 k2 → agree W k2 k3 → agree W k1 k3.
Proof.
  intros (G1 & M1 & A1 & E1) (G2 & M2 & A2 & E2). repeat split; try congruence.
  intros x Hx. by rewrite G1, G2.
Qed.

Lemma sim_heap_view W (o1 o2 : outcome unit) :
  sim W o1 o2 → heap_view (final o1) = heap_view (final o2).
Proof.
  destruct o1 as [[] k1|e1 k1], o2 as [[] k2|e2 k2]; simpl; try done;
    intros (_ & _ & Hm & Ha & _); unfold heap_view; by rewrite Hm, Ha.
Qed.

Lemma dhgcn_from_model_blind :
  blind ["incidence_1_list"; "hg_list"] dhgcn_from_model.
Proof.
  unfold dhgcn_from_model, run_all, Dhgcn.cells, Dhgcn.setup_cells.
  simpl for_each. unfold id. blind_auto.
Qed.

Lemma dhgcn_after_lift_blind : blind ["hg_list"] dhgcn_after_lift.
Proof.
  unfold dhgcn_after_lift, run_all, Dhgcn.cells, Dhgcn.setup_cells.
  simpl for_each. unfold id. blind_auto.
Qed.

Lemma occurs_mentions_hypergraph h w :
  occurs (VHyper h) w → mentions_hypergraph w = true.
Proof.
  induction 1 as [|l w Hw _ IH|d key w Hw _ IH]; simpl; [done| |].
  - apply existsb_exists. exists w. split; [by apply list_elem_of_In | done].
  - apply existsb_exists. exists (key, w). split; [by apply list_elem_of_In | done].
Qed.



End Claims.

(** C1.  The SCA-CMPS notebook stops after it has built the model, the
    optimizer and the loss: whatever the libraries return and whatever
    state it is started in, it never makes a forward, loss, backward,
    zero_grad or optimizer-step call.  On the data set of 10 samples it
    runs to its end, binds [opt] and [loss_fn], and its last call is
    [torch.nn.MSELoss()]; the DHGCN notebook, on the same data, makes 40
    optimizer steps. *)
Theorem C1_sca_cmps_stops_before_training :
  (∀ (C : Carriers) (E : Externals) (k : Kernel),
     Forall (λ c, fn c ∉ training_calls) (ScaCmps.notebook k).1) ∧
  ended_ok (@ScaCmps.notebook _ (Toy.externals 10) fresh).2 = true ∧
  bound (final (@ScaCmps.notebook _ (Toy.externals 10) fresh).2) "opt" VOptimizer ∧
  bound (final (@ScaCmps.notebook _ (Toy.externals 10) fresh).2) "loss_fn" VLossFn ∧
  last (@ScaCmps.notebook _ (Toy.externals 10) fresh).1
    = Some (mkCall "torch.nn.MSELoss" [] VLossFn) ∧
  length (filter (λ c, fn c = "Optimizer.step")
            (@Dhgcn.notebook _ (Toy.externals 10) fresh).1) = 40%nat.
Proof.
  split; [|repeat split; vm_compute; reflexivity].
  intros C E k. destruct (sca_notebook_sat k) as [Hall _].
  eapply Forall_impl; [exact Hall|]. intros c Hc. simpl in Hc.
  apply negb_true_iff, bool_decide_eq_false in Hc. exact Hc.
Qed.

(** C2.  Started in a state where the device, the model, the optimizer,
    the loss and the split are in place, the training cell runs to its
    end and makes exactly the calls of five epochs, numbered 1 to 5:
    each epoch is [model.train()], then for every training sample, in
    order, the conversion of the sample followed by zero_grad, forward
    pass, loss, backward pass, optimizer step and [loss.item()]
    ([train_calls]), then the print of the mean, then the evaluation;
    nothing follows the fifth epoch.  No other operation updates the
    parameters: of the calls that write them, the training cell makes
    only [opt.step()], and a training step leaves them as they were up
    to that call. *)
Theorem C2_five_epochs_of_training_steps `{Externals} k d xs ys xt yt :
  ready k d xs ys xt yt →
  loss_available k xs ys xt yt →
  five_epochs d (zip xs ys) (zip xt yt) (Dhgcn.cell_train k) ∧
  (∀ s h, fn <$> train_calls d s h = conversion_calls ++ training_calls ++ ["Tensor.item"]) ∧
  Forall (λ c, fn c ∈ parameter_writers → fn c = "Optimizer.step") (Dhgcn.cell_train k).1 ∧
  ∀ k0, parameters_view (final (Dhgcn.forward_backward k0).2) = parameters_view k0.
Proof.
  intros Hready Hor. split; [|split; [done|split]].
  - destruct k as [g [o|] [a|] ge]; destruct Hready as (Hfix & Hm & Ha);
      try (by destruct Hm); try (by destruct Ha).
    destruct (cell_train_run d xs ys xt yt g o a ge Hfix Hor)
      as (es & k' & Hrun & Hlen & Hall).
    exists es, k'. split; [exact Hrun|]. split; [exact Hlen|].
    eapply Forall_impl; [exact Hall|]. intros e (H1 & H2 & _). done.
  - eapply Forall_impl; [exact (proj1 (cell_train_sat k))|].
    intros c Hc Hw. unfold step_or_no_writer, no_writer in Hc.
    apply orb_true_iff in Hc as [Hc|Hc].
    + by apply bool_decide_eq_true in Hc.
    + apply negb_true_iff, bool_decide_eq_false in Hc. by destruct Hc.
  - intros k0. exact (proj2 (proj2 (forward_backward_sat k0))).
Qed.

Lemma C2_witness :
  ready (Runs.dhgcn_setup 10) "cpu" (Runs.features 0 8) (Runs.labels 0 8)
    (Runs.features 8 2) (Runs.labels 8 2) ∧
  loss_available (Runs.dhgcn_setup 10) (Runs.features 0 8) (Runs.labels 0 8)
    (Runs.features 8 2) (Runs.labels 8 2) ∧
  five_epochs (H0 := Toy.externals 10) "cpu"
    (zip (Runs.features 0 8) (Runs.labels 0 8))
    (zip (Runs.features 8 2) (Runs.labels 8 2))
    (@Dhgcn.cell_train _ (Toy.externals 10) (Runs.dhgcn_setup 10)).
Proof.
  assert (Hr : ready (Runs.dhgcn_setup 10) "cpu"
                 (Runs.features 0 8) (Runs.labels 0 8)
                 (Runs.features 8 2) (Runs.labels 8 2)).
  { repeat split; try (vm_compute; reflexivity); vm_compute; eexists; reflexivity. }
  assert (Hl : loss_available (Runs.dhgcn_setup 10) (Runs.features 0 8)
                 (Runs.labels 0 8) (Runs.features 8 2) (Runs.labels 8 2)).
  { left. vm_compute. discriminate. }
  split; [exact Hr|]. split; [exact Hl|].
  exact (proj1 (C2_five_epochs_of_training_steps (H0 := Toy.externals 10)
                  _ _ _ _ _ _ Hr Hl)).
Defined.

(** C3, as stated, fails.  On the data set of 10 samples the DHGCN
    notebook binds [hg_list] to ten hypergraphs, and the hypergraph of
    the first complex is handed to none of the calls of the training
    cell (which does the training and the testing). *)
Lemma C3_lifted_data_is_not_consumed :
  ¬ lifted_data_consumed (Runs.dhgcn_setup 10)
      (@Dhgcn.cell_train _ (Toy.externals 10) (Runs.dhgcn_setup 10)).1.
Proof.
  intros Hc.
  destruct (Hc "hg_list" (Runs.hypergraphs 10) Runs.first_hypergraph)
    as (c & a & Hin & Ha & Hocc).
  - unfold dhgcn_lists. apply list_elem_of_further, list_elem_of_here.
  - vm_compute. reflexivity.
  - apply list_elem_of_here.
  - apply occurs_mentions_hypergraph in Hocc.
    assert (Hall : forallb (λ c, forallb (λ a, negb (mentions_hypergraph a)) (args c))
                     (@Dhgcn.cell_train _ (Toy.externals 10) (Runs.dhgcn_setup 10)).1
                   = true) by (vm_compute; reflexivity).
    rewrite forallb_forall in Hall.
    apply list_elem_of_In in Hin. specialize (Hall c Hin).
    rewrite forallb_forall in Hall.
    apply list_elem_of_In in Ha. specialize (Hall a Ha).
    rewrite Hocc in Hall. discriminate.
Qed.

(** C3, amended.  In the SCA-CMPS notebook every derived sparse matrix
    is handed to [train_test_split] (when the arrays hold 100 samples).
    In the DHGCN notebook the incidence matrices and the hypergraphs are
    built but not consumed: whatever [incidence_1_list] and [hg_list]
    are bound to, the cells from the construction of the model on (model,
    loss and optimizer, split, training and testing) make the same calls
    with the same arguments and results and leave the same parameters,
    gradients and optimizer state; [hg_list] is not even read by the
    shape print that follows the lifting loop. *)
Theorem C3_training_ignores_lifted_data `{Externals} k v w k1 x0 x1 x2 l1 l2 i1 i2 y :
  hundred k1 "x_0s" x0 → hundred k1 "x_1s" x1 → hundred k1 "x_2s" x2 →
  hundred k1 "laplacian_down_1_list" l1 → hundred k1 "laplacian_down_2_list" l2 →
  hundred k1 "incidence1_t_list" i1 → hundred k1 "incidence2_t_list" i2 →
  hundred k1 "ys" y →
  (∀ u, u ∈ l1 ++ l2 ++ i1 ++ i2 → passed_to u (ScaCmps.cell_split k1).1) ∧
  (dhgcn_from_model (rebind "incidence_1_list" v (rebind "hg_list" w k))).1
    = (dhgcn_from_model k).1 ∧
  heap_view (final (dhgcn_from_model (rebind "incidence_1_list" v (rebind "hg_list" w k))).2)
    = heap_view (final (dhgcn_from_model k).2) ∧
  (dhgcn_after_lift (rebind "hg_list" w k)).1 = (dhgcn_after_lift k).1.
Proof.
  intros B0 B1 B2 B3 B4 B5 B6 B7. split; [|split; [|split]].
  - destruct (sca_split_run k1 _ _ _ _ _ _ _ _ B0 B1 B2 B3 B4 B5 B6 B7)
      as (tail & k' & Hrun & _).
    rewrite Hrun. cbn [fst fmap list_fmap app]. intros u Hu.
    rewrite !elem_of_app in Hu.
    destruct Hu as [Hu|[Hu|[Hu|Hu]]];
      [exists (split_call l1), (VSeq l1) | exists (split_call l2), (VSeq l2)
      | exists (split_call i1), (VSeq i1) | exists (split_call i2), (VSeq i2)];
      (split; [repeat first [apply list_elem_of_here | apply list_elem_of_further]|]);
      (split; [apply list_elem_of_here|]);
      (eapply occurs_seq; [exact Hu | constructor]).
  - apply dhgcn_from_model_blind.
    eapply agree_trans; apply blind_rebind;
      repeat first [apply list_elem_of_here | apply list_elem_of_further].
  - eapply sim_heap_view, dhgcn_from_model_blind.
    eapply agree_trans; apply blind_rebind;
      repeat first [apply list_elem_of_here | apply list_elem_of_further].
  - apply dhgcn_after_lift_blind, blind_rebind. apply list_elem_of_here.
Qed.

Lemma C3_witness :
  hundred (Runs.sca_before_split 100) "x_0s" (Runs.arrays 1000 100) ∧
  hundred (Runs.sca_before_split 100) "x_1s" (Runs.arrays 2000 100) ∧
  hundred (Runs.sca_before_split 100) "x_2s" (Runs.arrays 3000 100) ∧
  hundred (Runs.sca_before_split 100) "laplacian_down_1_list" (Runs.laplacians 1 100) ∧
  hundred (Runs.sca_before_split 100) "laplacian_down_2_list" (Runs.laplacians 2 100) ∧
  hundred (Runs.sca_before_split 100) "incidence1_t_list" (Runs.incidences_t 1 100) ∧
  hundred (Runs.sca_before_split 100) "incidence2_t_list" (Runs.incidences_t 2 100) ∧
  hundred (Runs.sca_before_split 100) "ys" (Runs.label_items 100) ∧
  (∀ u, u ∈ Runs.laplacians 1 100 ++ Runs.laplacians 2 100 ++
            Runs.incidences_t 1 100 ++ Runs.incidences_t 2 100 →
        passed_to u (@ScaCmps.cell_split _ (Toy.externals 100)
                       (Runs.sca_before_split 100)).1) ∧
  (@dhgcn_from_model _ (Toy.externals 100)
     (rebind "incidence_1_list" VNone (rebind "hg_list" VNone (Runs.dhgcn_setup 100)))).1
    = (@dhgcn_from_model _ (Toy.externals 100) (Runs.dhgcn_setup 100)).1.
Proof.
  assert (B0 : hundred (Runs.sca_before_split 100) "x_0s" (Runs.arrays 1000 100))
    by (split; vm_compute; reflexivity).
  assert (B1 : hundred (Runs.sca_before_split 100) "x_1s" (Runs.arrays 2000 100))
    by (split; vm_compute; reflexivity).
  assert (B2 : hundred (Runs.sca_before_split 100) "x_2s" (Runs.arrays 3000 100))
    by (split; vm_compute; reflexivity).
  assert (B3 : hundred (Runs.sca_before_split 100) "laplacian_down_1_list"
                 (Runs.laplacians 1 100)) by (split; vm_compute; reflexivity).
  assert (B4 : hundred (Runs.sca_before_split 100) "laplacian_down_2_list"
                 (Runs.laplacians 2 100)) by (split; vm_compute; reflexivity).
  assert (B5 : hundred (Runs.sca_before_split 100) "incidence1_t_list"
                 (Runs.incidences_t 1 100)) by (split; vm_compute; reflexivity).
  assert (B6 : hundred (Runs.sca_before_split 100) "incidence2_t_list"
                 (Runs.incidences_t 2 100)) by (split; vm_compute; reflexivity).
  assert (B7 : hundred (Runs.sca_before_split 100) "ys" (Runs.label_items 100))
    by (split; vm_compute; reflexivity).
  repeat (split; [assumption|]).
  destruct (C3_training_ignores_lifted_data (H0 := Toy.externals 100)
              (Runs.dhgcn_setup 100) VNone VNone _ _ _ _ _ _ _ _ _
              B0 B1 B2 B3 B4 B5 B6 B7) as (P1 & P2 & _).
  split; [exact P1 | exact P2].
Defined.

(** C4.  Every call of [train_test_split], in both notebooks, is made
    with test_size=0.2 and shuffle=False ([split_call]); on arrays of
    100 samples each split binds the training name to the first 80 items
    in their order and the test name to the last 20 in their order
    ([first_80_last_20]), so that item [i] of every training array comes
    from sample [i] of its source. *)
Theorem C4_split_is_first_80_last_20 `{Externals}
    k1 x0 x1 x2 l1 l2 i1 i2 y k2 x0' y' :
  hundred k1 "x_0s" x0 → hundred k1 "x_1s" x1 → hundred k1 "x_2s" x2 →
  hundred k1 "laplacian_down_1_list" l1 → hundred k1 "laplacian_down_2_list" l2 →
  hundred k1 "incidence1_t_list" i1 → hundred k1 "incidence2_t_list" i2 →
  hundred k1 "ys" y →
  hundred k2 "x_0s" x0' → hundred k2 "ys" y' →
  sca_split x0 x1 x2 l1 l2 i1 i2 y (ScaCmps.cell_split k1) ∧
  dhgcn_split x0' y' (Dhgcn.cell_split k2).
Proof.
  intros B0 B1 B2 B3 B4 B5 B6 B7 D0 D1. split.
  - by apply sca_split_run.
  - by apply dhgcn_split_run.
Qed.

Lemma C4_witness :
  hundred (Runs.sca_before_split 100) "x_0s" (Runs.arrays 1000 100) ∧
  hundred (Runs.sca_before_split 100) "x_1s" (Runs.arrays 2000 100) ∧
  hundred (Runs.sca_before_split 100) "x_2s" (Runs.arrays 3000 100) ∧
  hundred (Runs.sca_before_split 100) "laplacian_down_1_list" (Runs.laplacians 1 100) ∧
  hundred (Runs.sca_before_split 100) "laplacian_down_2_list" (Runs.laplacians 2 100) ∧
  hundred (Runs.sca_before_split 100) "incidence1_t_list" (Runs.incidences_t 1 100) ∧
  hundred (Runs.sca_before_split 100) "incidence2_t_list" (Runs.incidences_t 2 100) ∧
  hundred (Runs.sca_before_split 100) "ys" (Runs.label_items 100) ∧
  hundred (Runs.dhgcn_before_split 100) "x_0s" (Runs.arrays 1000 100) ∧
  hundred (Runs.dhgcn_before_split 100) "ys" (Runs.label_items 100) ∧
  sca_split (Runs.arrays 1000 100) (Runs.arrays 2000 100) (Runs.arrays 3000 100)
    (Runs.laplacians 1 100) (Runs.laplacians 2 100)
    (Runs.incidences_t 1 100) (Runs.incidences_t 2 100) (Runs.label_items 100)
    (@ScaCmps.cell_split _ (Toy.externals 100) (Runs.sca_before_split 100)) ∧
  dhgcn_split (Runs.arrays 1000 100) (Runs.label_items 100)
    (@Dhgcn.cell_split _ (Toy.externals 100) (Runs.dhgcn_before_split 100)).
Proof.
  assert (B0 : hundred (Runs.sca_before_split 100) "x_0s" (Runs.arrays 1000 100))
    by (split; vm_compute; reflexivity).
  assert (B1 : hundred (Runs.sca_before_split 100) "x_1s" (Runs.arrays 2000 100))
    by (split; vm_compute; reflexivity).
  assert (B2 : hundred (Runs.sca_before_split 100) "x_2s" (Runs.arrays 3000 100))
    by (split; vm_compute; reflexivity).
  assert (B3 : hundred (Runs.sca_before_split 100) "laplacian_down_1_list"
                 (Runs.laplacians 1 100)) by (split; vm_compute; reflexivity).
  assert (B4 : hundred (Runs.sca_before_split 100) "laplacian_down_2_list"
                 (Runs.laplacians 2 100)) by (split; vm_compute; reflexivity).
  assert (B5 : hundred (Runs.sca_before_split 100) "incidence1_t_list"
                 (Runs.incidences_t 1 100)) by (split; vm_compute; reflexivity).
  assert (B6 : hundred (Runs.sca_before_split 100) "incidence2_t_list"
                 (Runs.incidences_t 2 100)) by (split; vm_compute; reflexivity).
  assert (B7 : hundred (Runs.sca_before_split 100) "ys" (Runs.label_items 100))
    by (split; vm_compute; reflexivity).
  assert (D0 : hundred (Runs.dhgcn_before_split 100) "x_0s" (Runs.arrays 1000 100))
    by (split; vm_compute; reflexivity).
  assert (D1 : hundred (Runs.dhgcn_before_split 100) "ys" (Runs.label_items 100))
    by (split; vm_compute; reflexivity).
  repeat (split; [assumption|]).
  exact (C4_split_is_first_80_last_20 (H0 := Toy.externals 100)
           _ _ _ _ _ _ _ _ _ _ _ _ B0 B1 B2 B3 B4 B5 B6 B7 D0 D1).
Defined.

(** C5.  When [scs] holds the complexes [cs], the pre-processing cell of
    the SCA-CMPS notebook runs to its end; for every complex, in order,
    it makes the calls [derive_calls] (the two down-Laplacians, the two
    transposed incidence matrices, and the conversion of each of the
    four to a sparse tensor) and nothing else; afterwards each of the
    four lists has one entry per complex, and entry [i] is the sparse
    tensor of the matrix of complex [i]. *)
Theorem C5_four_neighborhood_lists `{Externals} cs k :
  bound k "scs" (VSeq (VComplex <$> cs)) →
  four_lists cs (ScaCmps.cell_neighborhoods k).
Proof. apply neighborhoods_run. Qed.

Lemma C5_witness :
  bound (Runs.sca_loaded 10) "scs" (VSeq (VComplex <$> Runs.complexes 10)) ∧
  four_lists (H0 := Toy.externals 10) (Runs.complexes 10)
    (@ScaCmps.cell_neighborhoods _ (Toy.externals 10) (Runs.sca_loaded 10)).
Proof.
  assert (B : bound (Runs.sca_loaded 10) "scs" (VSeq (VComplex <$> Runs.complexes 10)))
    by (vm_compute; reflexivity).
  split; [exact B|].
  exact (C5_four_neighborhood_lists (H0 := Toy.externals 10) (Runs.complexes 10) _ B).
Defined.

(** C6.  The arrays bound by the load cell ([x_0s], [x_1s], [x_2s],
    [ys]) and the lists built by the pre-processing loops keep their
    value through every later cell of their notebook, in whatever state
    these cells are started and whether they run to their end or stop
    on an exception: the later cells only read them. *)
Theorem C6_loaded_data_never_mutated `{Externals} k :
  unchanged loaded_arrays (run_all (drop 2 ScaCmps.cells)) k ∧
  unchanged sca_lists (run_all (drop 4 ScaCmps.cells)) k ∧
  unchanged loaded_arrays (run_all (drop 2 Dhgcn.cells)) k ∧
  unchanged dhgcn_lists (run_all (drop 6 Dhgcn.cells)) k.
Proof.
  repeat split; apply sat_unchanged;
    unfold run_all, ScaCmps.cells, Dhgcn.cells, Dhgcn.setup_cells;
    simpl for_each; unfold id; sat_auto.
Qed.




(** C8.  When the last test sample is [(x_last, y_last)], the training
    cell runs its five epochs and, in every one of them, the value
    printed as Test_loss is the loss of that last sample alone,
    [mse_loss h (converted_y d y_last)], where [h] is the prediction
    the model made for it in that epoch: the loop over the test samples
    overwrites [loss] and the print comes after the loop. *)
Theorem C8_test_loss_is_last_sample `{Externals} k d xs ys xt yt test0 x_last y_last :
  ready k d xs ys xt yt →
  zip xt yt = test0 ++ [(x_last, y_last)] →
  shows_last_test_loss d (zip xs ys) (zip xt yt) y_last (Dhgcn.cell_train k).
Proof.
  destruct k as [g [o|] [a|] ge]; intros (Hfix & Hm & Ha) Hlast;
    try (by destruct Hm); try (by destruct Ha).
  destruct (cell_train_run d xs ys xt yt g o a ge Hfix)
    as (es & k' & Hrun & Hlen & Hall).
  { right; left. rewrite Hlast. by destruct test0. }
  exists es, k'. split; [exact Hrun|]. split; [exact Hlen|].
  eapply Forall_impl; [exact Hall|]. intros [[ht he] shown] (H1 & H2 & H3).
  simpl in *. rewrite Hlast in H2, H3. rewrite Hlast.
  destruct he as [|h he _] using rev_ind.
  { rewrite length_app in H2. simpl in H2. lia. }
  rewrite !length_app in H2. simpl in H2.
  exists he, h. split; [done|]. split; [rewrite !length_app; simpl; lia|].
  apply H3. unfold losses. rewrite zip_with_app by lia. simpl.
  by rewrite last_snoc.
Qed.

Lemma C8_witness :
  ready (Runs.dhgcn_setup 10) "cpu" (Runs.features 0 8) (Runs.labels 0 8)
    (Runs.features 8 2) (Runs.labels 8 2) ∧
  zip (Runs.features 8 2) (Runs.labels 8 2) = [(1008, 8)] ++ [(1009, 9)] ∧
  shows_last_test_loss (H0 := Toy.externals 10) "cpu"
    (zip (Runs.features 0 8) (Runs.labels 0 8))
    (zip (Runs.features 8 2) (Runs.labels 8 2)) 9
    (@Dhgcn.cell_train _ (Toy.externals 10) (Runs.dhgcn_setup 10)).
Proof.
  assert (Hr : ready (Runs.dhgcn_setup 10) "cpu"
                 (Runs.features 0 8) (Runs.labels 0 8)
                 (Runs.features 8 2) (Runs.labels 8 2)).
  { repeat split; try (vm_compute; reflexivity); vm_compute; eexists; reflexivity. }
  assert (Hz : zip (Runs.features 8 2) (Runs.labels 8 2) = [(1008, 8)] ++ [(1009, 9)])
    by reflexivity.
  split; [exact Hr|]. split; [exact Hz|].
  exact (C8_test_loss_is_last_sample (H0 := Toy.externals 10)
           _ _ _ _ _ _ _ _ _ Hr Hz).
Defined.

Lemma with_no_grad_bracket `{Externals} (body : M unit) k :
  ∃ mid, (with_no_grad body k).1
         = mkCall "torch.no_grad.__enter__" [] VNone :: mid
           ++ [mkCall "torch.no_grad.__exit__" [] VNone].
Proof.
  unfold with_no_grad, bind, no_grad_enter, finally, no_grad_exit.
  destruct (body _) as [l [u k'|e k']]; by eexists.
Qed.

(** C9.  The evaluation branch never touches the model or the
    optimizer: in whatever state it is started, and whether it runs to
    its end or stops on an exception, it makes no zero_grad, backward
    or optimizer-step call, and the parameters of the model, their
    gradients and the state of the optimizer are the same after it as
    before it.  All its calls are made between the entry and the exit
    of [torch.no_grad()]. *)
Theorem C9_evaluation_leaves_model_unchanged `{Externals} k :
  heap_view (final (Dhgcn.evaluate k).2) = heap_view k ∧
  Forall (λ c, fn c ∉ updating_calls) (Dhgcn.evaluate k).1 ∧
  ∃ body, (Dhgcn.evaluate k).1
          = mkCall "torch.no_grad.__enter__" [] VNone :: body
            ++ [mkCall "torch.no_grad.__exit__" [] VNone].
Proof.
  destruct (evaluate_sat k) as [Hall [_ Hheap]]. split; [exact Hheap|]. split.
  - eapply Forall_impl; [exact Hall|]. intros c Hc. simpl in Hc.
    apply negb_true_iff, bool_decide_eq_false in Hc. exact Hc.
  - apply with_no_grad_bracket.
Qed.

(** C10.  The training part of epoch [i] starts from an empty
    [epoch_loss], whatever this name was bound to before; it makes one
    prediction per training sample, appends the loss of each, and the
    value it prints is [np.mean] of exactly these losses, one per
    training sample of this epoch, which are also what [epoch_loss]
    holds afterwards. *)
Theorem C10_epoch_loss_is_mean_of_this_epoch `{Externals} k d xs ys xt yt i :
  ready k d xs ys xt yt →
  bound k "epoch_i" (VInt i) →
  mean_of_this_epoch d i (zip xs ys) (Dhgcn.train_epoch k).
Proof.
  destruct k as [g [o|] [a|] ge]; intros (Hfix & Hm & Ha) Hi;
    try (by destruct Hm); try (by destruct Ha).
  destruct (train_epoch_run d xs ys xt yt g o a ge i Hfix Hi)
    as (hats & g' & o' & a' & Hlen & Hrun & _ & He & _).
  exists hats, (mkKernel g' (Some o') (Some a') ge). done.
Qed.

Lemma C10_witness :
  ready (rebind "epoch_i" (VInt 3)
           (rebind "epoch_loss" (VSeq [VInt 777]) (Runs.dhgcn_setup 10)))
    "cpu" (Runs.features 0 8) (Runs.labels 0 8) (Runs.features 8 2) (Runs.labels 8 2) ∧
  bound (rebind "epoch_i" (VInt 3)
           (rebind "epoch_loss" (VSeq [VInt 777]) (Runs.dhgcn_setup 10)))
    "epoch_i" (VInt 3) ∧
  mean_of_this_epoch (H0 := Toy.externals 10) "cpu" 3
    (zip (Runs.features 0 8) (Runs.labels 0 8))
    (@Dhgcn.train_epoch _ (Toy.externals 10)
       (rebind "epoch_i" (VInt 3)
          (rebind "epoch_loss" (VSeq [VInt 777]) (Runs.dhgcn_setup 10)))).
Proof.
  assert (Hr : ready (rebind "epoch_i" (VInt 3)
                        (rebind "epoch_loss" (VSeq [VInt 777]) (Runs.dhgcn_setup 10)))
                 "cpu" (Runs.features 0 8) (Runs.labels 0 8)
                 (Runs.features 8 2) (Runs.labels 8 2)).
  { repeat split; try (vm_compute; reflexivity); vm_compute; eexists; reflexivity. }
  assert (Hi : bound (rebind "epoch_i" (VInt 3)
                        (rebind "epoch_loss" (VSeq [VInt 777]) (Runs.dhgcn_setup 10)))
                 "epoch_i" (VInt 3)) by (vm_compute; reflexivity).
  split; [exact Hr|]. split; [exact Hi|].
  exact (C10_epoch_loss_is_mean_of_this_epoch (H0 := Toy.externals 10)
           _ _ _ _ _ _ _ Hr Hi).
Defined.

(** ** Further properties of the cells *)

Section LiftRuns.
Context `{Externals}.

Lemma lift_step c g mo ao ge l1 l2 :
  g !! "incidence_1_list" = Some (VSeq l1) →
  g !! "hg_list" = Some (VSeq l2) →
  ∃ g',
    (set_var "simplex" (VComplex c) ;; Dhgcn.lift) (mkKernel g mo ao ge)
    = (lift_calls c, Ok () (mkKernel g' mo ao ge))
    ∧ g' !! "incidence_1_list"
      = Some (VSeq (l1 ++ [as_torch_sparse (incidence_matrix c 1 false)]))
    ∧ g' !! "hg_list" = Some (VSeq (l2 ++ [VHyper (to_hypergraph c)])).
Proof.
  intros H1 H2. eexists. split; [unfold Dhgcn.lift; run1|]. look. done.
Qed.

Lemma lift_loop cs : ∀ g mo ao ge l1 l2,
  g !! "incidence_1_list" = Some (VSeq l1) →
  g !! "hg_list" = Some (VSeq l2) →
  ∃ k',
    for_each (VComplex <$> cs) (λ s, set_var "simplex" s ;; Dhgcn.lift)
      (mkKernel g mo ao ge)
    = (concat (lift_calls <$> cs), Ok () k')
    ∧ bound k' "incidence_1_list"
        (VSeq (l1 ++ ((λ c, as_torch_sparse (incidence_matrix c 1 false)) <$> cs)))
    ∧ bound k' "hg_list" (VSeq (l2 ++ ((λ c, VHyper (to_hypergraph c)) <$> cs))).
Proof.
  induction cs as [|c cs IH]; intros g mo ao ge l1 l2 H1 H2.
  - eexists. split; [reflexivity|]. unfold bound; simpl. by rewrite !app_nil_r.
  - destruct (lift_step c g mo ao ge _ _ H1 H2) as (g' & Hs & G1 & G2).
    destruct (IH g' mo ao ge _ _ G1 G2) as (k' & Hrun & B1 & B2).
    exists k'. split.
    + cbn [fmap list_fmap concat]. eapply for_each_cons_Ok; [exact Hs | exact Hrun].
    + rewrite <- !app_assoc in B1, B2. done.
Qed.

Lemma cell_lift_run cs k :
  bound k "simplexes" (VSeq (VComplex <$> cs)) → lifted cs (Dhgcn.cell_lift k).
Proof.
  destruct k as [g mo ao ge]. unfold bound. simpl. intros Hs.
  pose (g2 := <["incidence_1_list":=VSeq []]> (<["hg_list":=VSeq []]> g)).
  destruct (lift_loop cs g2 mo ao ge [] []) as (k' & Hrun & B1 & B2);
    [subst g2; look; done ..|].
  exists k'. split; [|done].
  unfold Dhgcn.cell_lift.
  repeat (eapply (bind_Ok _ _ _ []); [run1|]). exact Hrun.
Qed.

End LiftRuns.

(** X1.  When [simplexes] holds the complexes [cs], the lifting cell of
    the DHGCN notebook runs to its end, whatever the two lists held
    before; for every complex, in order, it asks for the unsigned
    incidence matrix of rank 1, converts it to a sparse tensor and lifts
    the complex to a hypergraph ([lift_calls]), and nothing else;
    afterwards [incidence_1_list] and [hg_list] have one entry per
    complex, in the order of the complexes. *)
Theorem X1_lift_loop_builds_both_lists `{Externals} cs k :
  bound k "simplexes" (VSeq (VComplex <$> cs)) → lifted cs (Dhgcn.cell_lift k).
Proof. apply cell_lift_run. Qed.

Lemma X1_witness :
  bound (Runs.dhgcn_setup 10) "simplexes" (VSeq (VComplex <$> Runs.complexes 10)) ∧
  lifted (H0 := Toy.externals 10) (Runs.complexes 10)
    (@Dhgcn.cell_lift _ (Toy.externals 10) (Runs.dhgcn_setup 10)).
Proof.
  assert (B : bound (Runs.dhgcn_setup 10) "simplexes"
                (VSeq (VComplex <$> Runs.complexes 10))) by (vm_compute; reflexivity).
  split; [exact B|].
  exact (X1_lift_loop_builds_both_lists (H0 := Toy.externals 10) (Runs.complexes 10) _ B).
Defined.

Section DescribeRuns.
Context `{Externals}.

Lemma bind_silent {A B} (m : M A) (f : A → M B) k a k' r :
  m k = ([], Ok a k') → f a k' = r → bind m f k = r.
Proof. intros Hm Hf. unfold bind. rewrite Hm, Hf. by destruct r. Qed.

Lemma py_index_nat (l : list Val) (i : nat) : py_index l (Z.of_nat i) = l !! i.
Proof.
  unfold py_index. destruct (Z.leb_spec 0 (Z.of_nat i)); [|lia]. by rewrite Nat2Z.id.
Qed.


Lemma py_index_0 (x : Val) l : py_index (x :: l) 0 = Some x.
Proof. reflexivity. Qed.

Lemma py_index_1 (x y : Val) l : py_index (x :: y :: l) 1 = Some y.
Proof. reflexivity. Qed.

Lemma describe_run xs what a n d g mo ao ge l rest :
  g !! "i_complex" = Some (VInt 6) →
  g !! xs = Some (VSeq l) → l !! 6%nat = Some (VArr a) →
  ndarray_shape a = n :: d :: rest →
  describe xs what (mkKernel g mo ao ge)
  = (describe_calls a what n d, Ok () (mkKernel g mo ao ge)).
Proof.
  intros Hi Hx Hl Hs.
  assert (Hp : py_index l 6 = Some (VArr a)) by (by rewrite <- Hl, <- py_index_nat).
  unfold describe, sample_dim.
  repeat (progress (sym; rewrite ?Hp, ?Hs; cbn [map]; rewrite ?py_index_0, ?py_index_1)).
  unfold describe_calls. rewrite Hs. reflexivity.
Qed.


End DescribeRuns.

(** X2.  When entry number 6 of each of [x_0s], [x_1s] and [x_2s] is an
    array with at least two dimensions, the description cell runs to
    its end and prints three lines, for the nodes, the edges and the
    faces, each showing the first two dimensions of that entry; the
    shape of the entry is read twice for each line. *)
Theorem X2_describe_prints_the_dimensions_of_sample_6 `{Externals} k a0 n0 d0 a1 n1 d1 a2 n2 d2 :
  sixth k "x_0s" a0 n0 d0 → sixth k "x_1s" a1 n1 d1 → sixth k "x_2s" a2 n2 d2 →
  ∃ k',
    cell_describe k
    = (describe_calls a0 " nodes" n0 d0 ++ describe_calls a1 " edges" n1 d1
       ++ describe_calls a2 " faces" n2 d2, Ok () k').
Proof.
  destruct k as [g mo ao ge].
  intros (l0 & r0 & B0 & L0 & S0) (l1 & r1 & B1 & L1 & S1) (l2 & r2 & B2 & L2 & S2).
  unfold bound in *. simpl in B0, B1, B2. eexists. unfold cell_describe.
  eapply bind_silent; [run1|].
  eapply bind_Ok; [eapply describe_run; [look; done | look; done | done | done]|].
  eapply bind_Ok; [eapply describe_run; [look; done | look; done | done | done]|].
  eapply describe_run; [look; done | look; done | done | done].
Qed.

Lemma X2_witness :
  sixth (H0 := Toy.externals 10) (Runs.sca_loaded 10) "x_0s" 1006 252 6 ∧
  sixth (H0 := Toy.externals 10) (Runs.sca_loaded 10) "x_1s" 2006 750 10 ∧
  sixth (H0 := Toy.externals 10) (Runs.sca_loaded 10) "x_2s" 3006 500 7 ∧
  ∃ k',
    @cell_describe _ (Toy.externals 10) (Runs.sca_loaded 10)
    = (describe_calls (H0 := Toy.externals 10) 1006 " nodes" 252 6
       ++ describe_calls (H0 := Toy.externals 10) 2006 " edges" 750 10
       ++ describe_calls (H0 := Toy.externals 10) 3006 " faces" 500 7, Ok () k').
Proof.
  assert (S0 : sixth (H0 := Toy.externals 10) (Runs.sca_loaded 10) "x_0s" 1006 252 6)
    by (eexists _, _; repeat split; vm_compute; reflexivity).
  assert (S1 : sixth (H0 := Toy.externals 10) (Runs.sca_loaded 10) "x_1s" 2006 750 10)
    by (eexists _, _; repeat split; vm_compute; reflexivity).
  assert (S2 : sixth (H0 := Toy.externals 10) (Runs.sca_loaded 10) "x_2s" 3006 500 7)
    by (eexists _, _; repeat split; vm_compute; reflexivity).
  repeat (split; [assumption|]).
  exact (X2_describe_prints_the_dimensions_of_sample_6 (H0 := Toy.externals 10)
           _ _ _ _ _ _ _ _ _ _ S0 S1 S2).
Defined.



(** X4.  After the lifting cell has run over the complexes [cs], the
    shape print that follows it shows the shape of the sparse tensor of
    the unsigned incidence matrix of rank 1 of complex number 6. *)
Theorem X4_shape_print_reads_the_matrix_of_complex_6 `{Externals} cs c k :
  bound k "simplexes" (VSeq (VComplex <$> cs)) → cs !! 6%nat = Some c →
  ∃ k1 k2,
    (Dhgcn.cell_lift k).2 = Ok () k1 ∧
    Dhgcn.cell_incidence_shape k1
    = (incidence_shape_calls (to_sparse (from_numpy (todense (incidence_matrix c 1 false)))),
       Ok () k2).
Proof.
  intros Hs Hc. destruct (cell_lift_run cs k Hs) as (k1 & Hrun & B1 & _).
  destruct k1 as [g mo ao ge]. unfold bound in B1. simpl in B1.
  eexists _, _. split; [by rewrite Hrun|].
  set (l := (λ c0 : SimplicialComplex, as_torch_sparse (incidence_matrix c0 1 false)) <$> cs) in *.
  assert (Hp : py_index l 6 = Some (as_torch_sparse (incidence_matrix c 1 false))).
  { change 6 with (Z.of_nat 6). rewrite py_index_nat. subst l.
    by rewrite list_lookup_fmap, Hc. }
  unfold Dhgcn.cell_incidence_shape. sym. rewrite Hp. unfold as_torch_sparse. sym.
  reflexivity.
Qed.

Lemma X4_witness :
  bound (Runs.dhgcn_setup 10) "simplexes" (VSeq (VComplex <$> Runs.complexes 10)) ∧
  Runs.complexes 10 !! 6%nat = Some 6 ∧
  ∃ k1 k2,
    (@Dhgcn.cell_lift _ (Toy.externals 10) (Runs.dhgcn_setup 10)).2 = Ok () k1 ∧
    @Dhgcn.cell_incidence_shape _ (Toy.externals 10) k1
    = (incidence_shape_calls (H0 := Toy.externals 10) 68, Ok () k2).
Proof.
  assert (B : bound (Runs.dhgcn_setup 10) "simplexes"
                (VSeq (VComplex <$> Runs.complexes 10))) by (vm_compute; reflexivity).
  assert (C : Runs.complexes 10 !! 6%nat = Some 6) by reflexivity.
  split; [exact B|]. split; [exact C|].
  exact (X4_shape_print_reads_the_matrix_of_complex_6 (H0 := Toy.externals 10) _ _ _ B C).
Defined.

Section LoadRuns.
Context `{Externals}.

Lemma bind_last {A B} (m : M A) (f : A → M B) k l a k' o :
  m k = (l, Ok a k') → f a k' = ([], o) → bind m f k = (l, o).
Proof. intros Hm Hf. unfold bind. by rewrite Hm, Hf, app_nil_r. Qed.

Lemma bind_Raise {A B} (m : M A) (f : A → M B) k l e k' :
  m k = (l, Raise e k') → bind m f k = (l, Raise e k').
Proof. intros Hm. unfold bind. by rewrite Hm. Qed.

Lemma np_array_items d k :
  dict_items_map np_array_ d k = ((λ p, mkCall "np.array" [p.2] p.2) <$> d, Ok d k).
Proof.
  induction d as [|[key v] d IH]; [reflexivity|].
  cbn [dict_items_map fmap list_fmap].
  eapply (bind_Ok _ _ _ [_]); [reflexivity|].
  eapply bind_last; [exact IH|]. reflexivity.
Qed.

Lemma load_arrays d g mo ao ge :
  g !! "shrec" = Some (VDict d) →
  assign "shrec" (d <- get_var "shrec" ;; dict_comprehension np_array_ d)
    (mkKernel g mo ao ge)
  = ((λ p, mkCall "np.array" [p.2] p.2) <$> d,
     Ok () (mkKernel (<["shrec":=VDict d]> g) mo ao ge)).
Proof.
  intros Hg. unfold assign. eapply bind_last.
  - eapply bind_silent; [run1|]. unfold dict_comprehension.
    eapply bind_last; [apply np_array_items|]. reflexivity.
  - run1.
Qed.

Lemma subscript_run x key d v g mo ao ge :
  g !! "shrec" = Some (VDict d) → dict_get d key = Some v →
  assign x (d <- get_var "shrec" ;; subscript d key) (mkKernel g mo ao ge)
  = ([], Ok () (mkKernel (<[x:=v]> g) mo ao ge)).
Proof. intros Hg Hd. sym. rewrite Hd. reflexivity. Qed.

Lemma subscript_missing x key d g mo ao ge :
  g !! "shrec" = Some (VDict d) → dict_get d key = None →
  assign x (d <- get_var "shrec" ;; subscript d key) (mkKernel g mo ao ge)
  = ([], Raise (KeyError key) (mkKernel g mo ao ge)).
Proof. intros Hg Hd. sym. rewrite Hd. reflexivity. Qed.

End LoadRuns.

Ltac load_open :=
  unfold cell_load, load_calls;
  eapply (bind_Ok _ _ _ [_]); [unfold shrec_16_; run1|];
  eapply bind_last; [apply load_arrays; look; done|].
Ltac load_step :=
  eapply bind_silent; [eapply subscript_run; [look; done | eassumption]|].

(** X5.  When the data set has the five keys, the load cell runs to its
    end in both notebooks: it fetches the data set, applies [np.array]
    to each of its values, in order, and binds [x_0s], [x_1s], [x_2s],
    [ys] and the list of complexes ([scs] or [simplexes]) to the values
    of [node_feat], [edge_feat], [face_feat], [label] and
    [complexes]. *)
Theorem X5_load_binds_the_five_names `{Externals} k v0 v1 v2 vy vc :
  dict_get shrec_small "node_feat" = Some v0 →
  dict_get shrec_small "edge_feat" = Some v1 →
  dict_get shrec_small "face_feat" = Some v2 →
  dict_get shrec_small "label" = Some vy →
  dict_get shrec_small "complexes" = Some vc →
  loaded "scs" v0 v1 v2 vy vc (cell_load "scs" k) ∧
  loaded "simplexes" v0 v1 v2 vy vc (cell_load "simplexes" k).
Proof.
  destruct k as [g mo ao ge]. intros H0' H1' H2' H3' H4'.
  split; (eexists; split;
    [load_open; do 4 load_step; eapply subscript_run; [look; done | eassumption]
    | unfold bound; cbn [globals]; repeat split; look; done]).
Qed.

Lemma X5_witness :
  dict_get (shrec_small (H0 := Toy.externals 3)) "node_feat"
    = Some (VSeq (Runs.arrays 1000 3)) ∧
  dict_get (shrec_small (H0 := Toy.externals 3)) "edge_feat"
    = Some (VSeq (Runs.arrays 2000 3)) ∧
  dict_get (shrec_small (H0 := Toy.externals 3)) "face_feat"
    = Some (VSeq (Runs.arrays 3000 3)) ∧
  dict_get (shrec_small (H0 := Toy.externals 3)) "label"
    = Some (VSeq (Runs.label_items 3)) ∧
  dict_get (shrec_small (H0 := Toy.externals 3)) "complexes"
    = Some (VSeq (VComplex <$> Runs.complexes 3)) ∧
  loaded (H0 := Toy.externals 3) "scs" (VSeq (Runs.arrays 1000 3))
    (VSeq (Runs.arrays 2000 3)) (VSeq (Runs.arrays 3000 3)) (VSeq (Runs.label_items 3))
    (VSeq (VComplex <$> Runs.complexes 3))
    (@cell_load _ (Toy.externals 3) "scs" fresh) ∧
  loaded (H0 := Toy.externals 3) "simplexes" (VSeq (Runs.arrays 1000 3))
    (VSeq (Runs.arrays 2000 3)) (VSeq (Runs.arrays 3000 3)) (VSeq (Runs.label_items 3))
    (VSeq (VComplex <$> Runs.complexes 3))
    (@cell_load _ (Toy.externals 3) "simplexes" fresh).
Proof.
  repeat (split; [reflexivity|]).
  apply (X5_load_binds_the_five_names (H0 := Toy.externals 3)); reflexivity.
Defined.

(** X6.  When the data set lacks one of the five keys, the load cell
    raises KeyError for the first missing key in the order in which it
    reads them, after it has fetched and converted the data set. *)
Theorem X6_load_raises_KeyError_at_the_first_missing_key `{Externals}
    complexes k pre key post :
  load_keys = pre ++ key :: post →
  Forall (λ x, is_Some (dict_get shrec_small x)) pre →
  dict_get shrec_small key = None →
  ∃ k', cell_load complexes k = (load_calls, Raise (KeyError key) k').
Proof.
  destruct k as [g mo ao ge]. intros Hk Hpre Hkey. unfold load_keys in Hk.
  repeat (destruct pre as [|? pre];
          [simplify_eq/=; repeat match goal with
             | Hf : Forall _ (_ :: _) |- _ => apply Forall_cons_1 in Hf as [[? ?] Hf]
             end;
           eexists; load_open; repeat load_step;
           first [ eapply bind_Raise; eapply subscript_missing; [look; done | eassumption]
                 | eapply subscript_missing; [look; done | eassumption] ]
          | simplify_eq/= ]).
Qed.

Lemma X6_witness :
  load_keys = ["node_feat"; "edge_feat"] ++ "face_feat" :: ["label"; "complexes"] ∧
  Forall (λ x, is_Some (dict_get (shrec_small (H0 := Edge.no_faces 3)) x))
    ["node_feat"; "edge_feat"] ∧
  dict_get (shrec_small (H0 := Edge.no_faces 3)) "face_feat" = None ∧
  ∃ k', @cell_load _ (Edge.no_faces 3) "scs" fresh
        = (load_calls (H0 := Edge.no_faces 3), Raise (KeyError "face_feat") k').
Proof.
  assert (Hk : load_keys
               = ["node_feat"; "edge_feat"] ++ "face_feat" :: ["label"; "complexes"])
    by reflexivity.
  assert (Hp : Forall (λ x, is_Some (dict_get (shrec_small (H0 := Edge.no_faces 3)) x))
                 ["node_feat"; "edge_feat"]).
  { apply Forall_cons_2; [by vm_compute; eexists|].
    apply Forall_cons_2; [by vm_compute; eexists|]. apply Forall_nil_2. }
  assert (Hn : dict_get (shrec_small (H0 := Edge.no_faces 3)) "face_feat" = None)
    by (vm_compute; reflexivity).
  split; [exact Hk|]. split; [exact Hp|]. split; [exact Hn|].
  exact (X6_load_raises_KeyError_at_the_first_missing_key (H0 := Edge.no_faces 3)
           "scs" fresh _ _ _ Hk Hp Hn).
Defined.

Section SplitAny.
Context `{Externals}.

Lemma ceil_fifth z : 0 <= z → Qceiling (0.2 * inject_Z z) = (z + 4) / 5.
Proof.
  intros Hz. unfold Qceiling, Qfloor, Qopp, Qmult, inject_Z.
  cbn [Qnum Qden]. change (Z.pos (10 * 1)) with 10.
  Z.div_mod_to_equations. lia.
Qed.

Lemma n_test_Z n : Z.of_nat (n_test n) = (Z.of_nat n + 4) / 5.
Proof. unfold n_test. rewrite Nat2Z.inj_div, Nat2Z.inj_add. done. Qed.

Lemma n_test_lt n : (2 ≤ n)%nat → (n_test n < n)%nat.
Proof.
  intros Hn. apply Nat2Z.inj_lt. rewrite n_test_Z.
  Z.div_mod_to_equations. lia.
Qed.

Lemma split_sizes_any n :
  (2 ≤ n)%nat → split_sizes n 0.2 = Some ((n - n_test n)%nat, n_test n).
Proof.
  intros Hn. pose proof (n_test_lt n Hn) as Hlt. unfold split_sizes.
  change (Qle_bool 0.2 0 || Qle_bool 1 0.2) with false. cbv iota zeta.
  rewrite ceil_fifth by lia. rewrite <- n_test_Z.
  destruct (Z.leb_spec (Z.of_nat n - Z.of_nat (n_test n)) 0); [lia|].
  f_equal. f_equal; lia.
Qed.

Lemma split_sizes_small n : (n ≤ 1)%nat → split_sizes n 0.2 = None.
Proof. intros Hn. destruct n as [|[|n]]; [reflexivity | reflexivity | lia]. Qed.

Lemma split_into_any tr te src l g mo ao ge :
  g !! src = Some (VSeq l) → (2 ≤ length l)%nat →
  g !! "test_size" = Some (VReal 0.2) →
  split_into tr te src (mkKernel g mo ao ge)
  = ([split_call_of l],
     Ok () (mkKernel (<[te:=VSeq (drop (length l - n_test (length l)) l)]>
                        (<[tr:=VSeq (take (length l - n_test (length l)) l)]> g))
              mo ao ge)).
Proof.
  intros Hs Hlen Ht. pose proof (n_test_lt _ Hlen) as Hlt.
  unfold split_into, train_test_split_. sym.
  rewrite split_sizes_any by done. sym.
  rewrite (take_ge (drop _ l)) by (rewrite length_drop; lia). reflexivity.
Qed.

Lemma split_into_small tr te src l g mo ao ge :
  g !! src = Some (VSeq l) → (length l ≤ 1)%nat →
  g !! "test_size" = Some (VReal 0.2) →
  split_into tr te src (mkKernel g mo ao ge) = ([], Raise ValueError (mkKernel g mo ao ge)).
Proof.
  intros Hs Hlen Ht. unfold split_into, train_test_split_. sym.
  rewrite split_sizes_small by done. reflexivity.
Qed.

Lemma halves_intro k tr te l :
  (2 ≤ length l)%nat →
  bound k tr (VSeq (take (length l - n_test (length l)) l)) →
  bound k te (VSeq (drop (length l - n_test (length l)) l)) →
  halves k tr te l.
Proof.
  intros Hlen Ha Hb. pose proof (n_test_lt _ Hlen) as Hlt.
  eexists _, _. split; [exact Ha|]. split; [exact Hb|].
  split; [apply take_drop|]. rewrite length_drop. lia.
Qed.

End SplitAny.

(** X7.  For a data set of any size of at least two samples, the split
    cell of the DHGCN notebook runs to its end with two calls of
    train_test_split; it keeps the order: the training part followed by
    the test part is the original array, for the features and for the
    labels, and the test part holds a fifth of the samples, rounded
    up. *)
Theorem X7_split_keeps_the_order_at_any_size `{Externals} k x0 y :
  bound k "x_0s" (VSeq x0) → bound k "ys" (VSeq y) →
  (2 ≤ length x0)%nat → length y = length x0 →
  ∃ k',
    Dhgcn.cell_split k = ([split_call_of x0; split_call_of y], Ok () k') ∧
    halves k' "x_0_train" "x_0_test" x0 ∧ halves k' "y_train" "y_test" y.
Proof.
  destruct k as [g mo ao ge]. unfold bound. simpl. intros B0 B1 N0 N1.
  eexists. split.
  - unfold Dhgcn.cell_split.
    eapply bind_silent; [run1|].
    eapply (bind_Ok _ _ _ [_]); [apply split_into_any; [look; done | done | look; done]|].
    apply split_into_any; [look; done | lia | look; done].
  - split; (apply halves_intro; [lia | unfold bound; cbn [globals]; look; done ..]).
Qed.

Lemma X7_witness :
  bound (Runs.dhgcn_before_split 7) "x_0s" (VSeq (Runs.arrays 1000 7)) ∧
  bound (Runs.dhgcn_before_split 7) "ys" (VSeq (Runs.label_items 7)) ∧
  (2 ≤ length (Runs.arrays 1000 7))%nat ∧
  length (Runs.label_items 7) = length (Runs.arrays 1000 7) ∧
  ∃ k',
    @Dhgcn.cell_split _ (Toy.externals 7) (Runs.dhgcn_before_split 7)
    = ([split_call_of (Runs.arrays 1000 7); split_call_of (Runs.label_items 7)],
       Ok () k') ∧
    halves k' "x_0_train" "x_0_test" (Runs.arrays 1000 7) ∧
    halves k' "y_train" "y_test" (Runs.label_items 7).
Proof.
  assert (B0 : bound (Runs.dhgcn_before_split 7) "x_0s" (VSeq (Runs.arrays 1000 7)))
    by (vm_compute; reflexivity).
  assert (B1 : bound (Runs.dhgcn_before_split 7) "ys" (VSeq (Runs.label_items 7)))
    by (vm_compute; reflexivity).
  assert (N0 : (2 ≤ length (Runs.arrays 1000 7))%nat) by (vm_compute; lia).
  assert (N1 : length (Runs.label_items 7) = length (Runs.arrays 1000 7)) by reflexivity.
  repeat (split; [assumption|]).
  exact (X7_split_keeps_the_order_at_any_size (H0 := Toy.externals 7) _ _ _ B0 B1 N0 N1).
Defined.

(** X8.  On a data set of fewer than two samples the training part would
    be empty: the split cell of either notebook raises ValueError at
    its first split and leaves [x_0_train] as it was. *)
Theorem X8_split_of_fewer_than_two_samples_raises_ValueError `{Externals} k l :
  bound k "x_0s" (VSeq l) → (length l ≤ 1)%nat →
  (∃ k', ScaCmps.cell_split k = ([], Raise ValueError k') ∧
         globals k' !! "x_0_train" = globals k !! "x_0_train") ∧
  (∃ k', Dhgcn.cell_split k = ([], Raise ValueError k') ∧
         globals k' !! "x_0_train" = globals k !! "x_0_train").
Proof.
  destruct k as [g mo ao ge]. unfold bound. simpl. intros B0 N0.
  split; (eexists; split;
    [ first [unfold ScaCmps.cell_split | unfold Dhgcn.cell_split];
      eapply bind_silent; [run1|];
      eapply bind_Raise; eapply split_into_small; [look; done | done | look; done]
    | cbn [globals]; look; done ]).
Qed.

Lemma X8_witness :
  bound Edge.one_sample "x_0s" (VSeq Edge.one_array) ∧
  (length Edge.one_array ≤ 1)%nat ∧
  (∃ k', @ScaCmps.cell_split _ (Toy.externals 1) Edge.one_sample
         = ([], Raise ValueError k') ∧
         globals k' !! "x_0_train" = globals Edge.one_sample !! "x_0_train") ∧
  (∃ k', @Dhgcn.cell_split _ (Toy.externals 1) Edge.one_sample
         = ([], Raise ValueError k') ∧
         globals k' !! "x_0_train" = globals Edge.one_sample !! "x_0_train").
Proof.
  assert (B0 : bound Edge.one_sample "x_0s" (VSeq Edge.one_array)) by reflexivity.
  assert (N0 : (length Edge.one_array ≤ 1)%nat) by (simpl; lia).
  split; [exact B0|]. split; [exact N0|].
  exact (X8_split_of_fewer_than_two_samples_raises_ValueError (H0 := Toy.externals 1)
           _ _ B0 N0).
Defined.

Section ExactRuns.
Context `{Externals}.

Lemma train_sample_exact d xs ys xt yt s g o a ge fs :
  fixed g d xs ys xt yt →
  g !! "epoch_loss" = Some (VSeq (VFloat <$> fs)) →
  ∃ g',
    (set_var "x_0" (inj s).1 ;; set_var "y" (inj s).2 ;; Dhgcn.train_step)
      (mkKernel g (Some o) (Some a) ge)
    = (train_calls d s (train_step_result d ge s (o, a)).1,
       Ok () (mkKernel g' (Some (train_step_result d ge s (o, a)).2.1)
                (Some (train_step_result d ge s (o, a)).2.2) ge))
    ∧ fixed g' d xs ys xt yt
    ∧ g' !! "epoch_loss"
      = Some (VSeq (VFloat <$> (fs ++ [tensor_item
                 (loss_of d s (train_step_result d ge s (o, a)).1)])))
    ∧ g' !! "loss" = Some (VTensor (loss_of d s (train_step_result d ge s (o, a)).1))
    ∧ g' !! "epoch_i" = g !! "epoch_i"
    ∧ g' !! "test_interval" = g !! "test_interval".
Proof.
  intros (Hd & Hm & Ho & Hl & H1 & H2 & H3 & H4) He. destruct s as [x y].
  eexists. split; [run1|].
  split; [repeat split; look; done|].
  look. rewrite fmap_app. done.
Qed.

Lemma test_sample_exact d xs ys xt yt s g o a :
  fixed g d xs ys xt yt →
  ∃ g',
    (set_var "x_0" (inj s).1 ;; set_var "y" (inj s).2 ;; Dhgcn.test_step)
      (mkKernel g (Some o) (Some a) false)
    = (test_calls d s (test_step_result d s o).1,
       Ok () (mkKernel g' (Some (test_step_result d s o).2) (Some a) false))
    ∧ fixed g' d xs ys xt yt
    ∧ g' !! "loss" = Some (VTensor (loss_of d s (test_step_result d s o).1))
    ∧ g' !! "epoch_i" = g !! "epoch_i"
    ∧ g' !! "test_interval" = g !! "test_interval".
Proof.
  intros (Hd & Hm & Ho & Hl & H1 & H2 & H3 & H4). destruct s as [x y].
  eexists. split; [run1|].
  split; [repeat split; look; done|].
  look. done.
Qed.

Lemma train_results_length d ge ss : ∀ oa,
  length (train_results d ge ss oa).1 = length ss.
Proof. induction ss as [|s ss IH]; intros oa; simpl; [done|]. by rewrite IH. Qed.

Lemma test_results_length d ss : ∀ o, length (test_results d ss o).1 = length ss.
Proof. induction ss as [|s ss IH]; intros o; simpl; [done|]. by rewrite IH. Qed.

Lemma train_loop_exact d xs ys xt yt ss : ∀ g o a ge fs,
  fixed g d xs ys xt yt →
  g !! "epoch_loss" = Some (VSeq (VFloat <$> fs)) →
  ∃ g',
    for_each (inj <$> ss)
      (λ p, set_var "x_0" p.1 ;; set_var "y" p.2 ;; Dhgcn.train_step)
      (mkKernel g (Some o) (Some a) ge)
    = (concat (zip_with (train_calls d) ss (train_results d ge ss (o, a)).1),
       Ok () (mkKernel g' (Some (train_results d ge ss (o, a)).2.1)
                (Some (train_results d ge ss (o, a)).2.2) ge))
    ∧ fixed g' d xs ys xt yt
    ∧ g' !! "epoch_loss"
      = Some (VSeq (VFloat <$> (fs ++ (tensor_item <$>
                 losses d ss (train_results d ge ss (o, a)).1))))
    ∧ g' !! "loss" = last_loss d ss (train_results d ge ss (o, a)).1 (g !! "loss")
    ∧ g' !! "epoch_i" = g !! "epoch_i"
    ∧ g' !! "test_interval" = g !! "test_interval".
Proof.
  induction ss as [|s ss IH]; intros g o a ge fs Hfix He.
  - exists g. rewrite app_nil_r. done.
  - destruct (train_sample_exact d xs ys xt yt s g o a ge fs Hfix He)
      as (g1 & Hrun1 & Hfix1 & He1 & Hl1 & Hi1 & Ht1).
    set (r := train_step_result d ge s (o, a)) in *.
    destruct (IH g1 r.2.1 r.2.2 ge _ Hfix1 He1)
      as (g' & Hrun & Hfix' & He' & Hl' & Hi' & Ht').
    replace (r.2.1, r.2.2) with r.2 in * by (by destruct r as [? [? ?]]).
    exists g'. cbn [train_results]. fold r. cbn [fst snd].
    split; [cbn [fmap list_fmap zip_with concat]; eapply for_each_cons_Ok; [exact Hrun1|exact Hrun]|].
    split; [done|]. split; [|split; [|split; congruence]].
    + rewrite He'. by rewrite <- app_assoc.
    + rewrite Hl', Hl1. by rewrite last_loss_cons.
Qed.

Lemma test_loop_exact d xs ys xt yt ss : ∀ g o a,
  fixed g d xs ys xt yt →
  ∃ g',
    for_each (inj <$> ss)
      (λ p, set_var "x_0" p.1 ;; set_var "y" p.2 ;; Dhgcn.test_step)
      (mkKernel g (Some o) (Some a) false)
    = (concat (zip_with (test_calls d) ss (test_results d ss o).1),
       Ok () (mkKernel g' (Some (test_results d ss o).2) (Some a) false))
    ∧ fixed g' d xs ys xt yt
    ∧ g' !! "loss" = last_loss d ss (test_results d ss o).1 (g !! "loss")
    ∧ g' !! "epoch_i" = g !! "epoch_i"
    ∧ g' !! "test_interval" = g !! "test_interval".
Proof.
  induction ss as [|s ss IH]; intros g o a Hfix.
  - exists g. done.
  - destruct (test_sample_exact d xs ys xt yt s g o a Hfix)
      as (g1 & Hrun1 & Hfix1 & Hl1 & Hi1 & Ht1).
    set (r := test_step_result d s o) in *.
    destruct (IH g1 r.2 a Hfix1) as (g' & Hrun & Hfix' & Hl' & Hi' & Ht').
    exists g'. cbn [test_results]. fold r. cbn [fst snd].
    split; [cbn [fmap list_fmap zip_with concat]; eapply for_each_cons_Ok; [exact Hrun1|exact Hrun]|].
    split; [done|]. split; [|split; congruence].
    rewrite Hl', Hl1. by rewrite last_loss_cons.
Qed.

Lemma train_epoch_exact d xs ys xt yt g o a ge i :
  fixed g d xs ys xt yt →
  g !! "epoch_i" = Some (VInt i) →
  ∃ g',
    Dhgcn.train_epoch (mkKernel g (Some o) (Some a) ge)
    = (train_epoch_calls d i (zip xs ys)
         (train_results d ge (zip xs ys) (in_training_mode o, a)).1,
       Ok () (mkKernel g'
                (Some (train_results d ge (zip xs ys) (in_training_mode o, a)).2.1)
                (Some (train_results d ge (zip xs ys) (in_training_mode o, a)).2.2) ge))
    ∧ fixed g' d xs ys xt yt
    ∧ g' !! "loss"
      = last_loss d (zip xs ys)
          (train_results d ge (zip xs ys) (in_training_mode o, a)).1 (g !! "loss")
    ∧ g' !! "epoch_i" = Some (VInt i)
    ∧ g' !! "test_interval" = g !! "test_interval".
Proof.
  intros Hfix Hi.
  pose proof Hfix as (Hd & Hm & Ho & Hl & H1 & H2 & H3 & H4).
  pose (g0 := <["epoch_loss":=VSeq []]> g).
  destruct (train_loop_exact d xs ys xt yt (zip xs ys) g0 (in_training_mode o) a ge [])
    as (g' & Hrun & Hfix' & He' & Hl' & Hi' & Ht');
    [subst g0; repeat split; look; done | subst g0; look; done |].
  subst g0. rewrite lookup_insert_ne in Hl', Hi', Ht' by done.
  pose proof Hfix' as (Hd' & Hm' & Ho' & Hlf' & H1' & H2' & H3' & H4').
  exists g'. split; [|by rewrite Hi', Hi, Ht'].
  unfold Dhgcn.train_epoch, train_epoch_calls, Dhgcn.for_zip.
  eapply (bind_Ok _ _ _ []); [run1|].
  eapply (bind_Ok _ _ _ [_]); [run1|].
  eapply bind_Ok.
  { eapply (bind_Ok _ _ _ []); [run1|].
    eapply (bind_Ok _ _ _ []); [run1|].
    eapply (bind_Ok _ _ _ []); [run1|].
    rewrite zip_inj. exact Hrun. }
  sym. rewrite floats_of_fmap. sym. reflexivity.
Qed.

Lemma evaluate_exact d xs ys xt yt g o a ge shown :
  fixed g d xs ys xt yt →
  last_loss d (zip xt yt) (test_results d (zip xt yt) o).1 (g !! "loss") = Some shown →
  ∃ g',
    Dhgcn.evaluate (mkKernel g (Some o) (Some a) ge)
    = (evaluate_calls d (zip xt yt) (test_results d (zip xt yt) o).1 shown,
       Ok () (mkKernel g' (Some (test_results d (zip xt yt) o).2) (Some a) ge))
    ∧ fixed g' d xs ys xt yt
    ∧ g' !! "loss" = Some shown
    ∧ g' !! "epoch_i" = g !! "epoch_i"
    ∧ g' !! "test_interval" = g !! "test_interval".
Proof.
  intros Hfix Hshown.
  pose proof Hfix as (Hd & Hm & Ho & Hl & H1 & H2 & H3 & H4).
  destruct (test_loop_exact d xs ys xt yt (zip xt yt) g o a Hfix)
    as (g' & Hrun & Hfix' & Hl' & Hi' & Ht').
  rewrite Hshown in Hl'.
  exists g'. split; [|done].
  unfold Dhgcn.evaluate, evaluate_calls, with_no_grad, Dhgcn.for_zip.
  eapply (bind_Ok _ _ _ [_]); [run1|].
  match goal with
  | |- _ = (?X ++ [?p; ?q], _) =>
      replace (X ++ [p; q]) with ((X ++ [p]) ++ [q]) by (by rewrite <- app_assoc)
  end.
  eapply finally_Ok.
  - eapply bind_Ok.
    + eapply (bind_Ok _ _ _ []); [run1|].
      eapply (bind_Ok _ _ _ []); [run1|].
      eapply (bind_Ok _ _ _ []); [run1|].
      rewrite zip_inj. exact Hrun.
    + run1.
  - run1.
Qed.

End ExactRuns.

Section ExactEpochs.
Context `{Externals}.

Lemma epoch_exact d xs ys xt yt g o a ge i shown :
  fixed g d xs ys xt yt →
  g !! "epoch_i" = Some (VInt i) →
  g !! "test_interval" = Some (VInt 1) →
  shown_of d (zip xs ys) (zip xt yt)
    (epoch_result d ge (zip xs ys) (zip xt yt) (o, a)).1 (g !! "loss") = Some shown →
  ∃ g',
    Dhgcn.epoch (mkKernel g (Some o) (Some a) ge)
    = (epoch_calls d (zip xs ys) (zip xt yt) i
         ((epoch_result d ge (zip xs ys) (zip xt yt) (o, a)).1, shown),
       Ok () (mkKernel g'
                (Some (epoch_result d ge (zip xs ys) (zip xt yt) (o, a)).2.1)
                (Some (epoch_result d ge (zip xs ys) (zip xt yt) (o, a)).2.2) ge))
    ∧ fixed g' d xs ys xt yt
    ∧ g' !! "test_interval" = Some (VInt 1)
    ∧ g' !! "loss" = Some shown.
Proof.
  intros Hfix Hi Ht Hshown.
  destruct (train_epoch_exact d xs ys xt yt g o a ge i Hfix Hi)
    as (g1 & Hrun1 & Hfix1 & Hl1 & Hi1 & Ht1).
  set (tr := train_results d ge (zip xs ys) (in_training_mode o, a)) in *.
  destruct (evaluate_exact d xs ys xt yt g1 tr.2.1 tr.2.2 ge shown Hfix1)
    as (g2 & Hrun2 & Hfix2 & Hl2 & Hi2 & Ht2).
  { rewrite Hl1. exact Hshown. }
  exists g2. split; [|split; [done|split; [congruence|done]]].
  unfold Dhgcn.epoch, epoch_calls. rewrite Ht in Ht1.
  eapply bind_Ok; [exact Hrun1|].
  eapply (bind_Ok _ _ _ []); [run1|].
  eapply (bind_Ok _ _ _ []); [run1|].
  eapply (bind_Ok _ _ _ []); [run1|].
  eapply (bind_Ok _ _ _ []); [run1|].
  eapply (bind_Ok _ _ _ []); [reflexivity|].
  rewrite Z.mod_1_r. exact Hrun2.
Qed.

Lemma shown_of_Some d train test ge oa before :
  train ≠ [] ∨ test ≠ [] ∨ is_Some before →
  is_Some (shown_of d train test (epoch_result d ge train test oa).1 before).
Proof.
  intros Hor. unfold shown_of, epoch_result. cbn [fst snd].
  apply last_loss_Some; [apply test_results_length|].
  destruct Hor as [Hne|[Hne|Hs]]; [right|by left|right];
    (apply last_loss_Some; [apply train_results_length | auto]).
Qed.

Lemma epochs_exact d xs ys xt yt (js : list Z) : ∀ g o a ge,
  fixed g d xs ys xt yt →
  g !! "test_interval" = Some (VInt 1) →
  zip xs ys ≠ [] ∨ zip xt yt ≠ [] ∨ is_Some (g !! "loss") →
  ∃ es g',
    for_each js (λ i, set_var "epoch_i" (VInt i) ;; Dhgcn.epoch)
      (mkKernel g (Some o) (Some a) ge)
    = (concat (zip_with (epoch_calls d (zip xs ys) (zip xt yt)) js es),
       Ok () (mkKernel g'
                (Some (epochs_result d ge (zip xs ys) (zip xt yt) (length js) (o, a)).1)
                (Some (epochs_result d ge (zip xs ys) (zip xt yt) (length js) (o, a)).2)
                ge))
    ∧ length es = length js.
Proof.
  induction js as [|j js IH]; intros g o a ge Hfix Ht Hor.
  - exists [], g. done.
  - pose proof Hfix as (Hd & Hm & Ho & Hl & H1 & H2 & H3 & H4).
    destruct (shown_of_Some d (zip xs ys) (zip xt yt) ge (o, a) (g !! "loss") Hor)
      as [shown Hshown].
    destruct (epoch_exact d xs ys xt yt (<["epoch_i":=VInt j]> g) o a ge j shown)
      as (g1 & Hrun1 & Hfix1 & Ht1 & Hs1);
      [repeat split; look; done | look; done | look; done
      | rewrite lookup_insert_ne by done; done |].
    set (r := epoch_result d ge (zip xs ys) (zip xt yt) (o, a)) in *.
    destruct (IH g1 r.2.1 r.2.2 ge Hfix1 Ht1) as (es & g' & Hrun & Hlen);
      [right; right; by rewrite Hs1|].
    replace (r.2.1, r.2.2) with r.2 in * by (by destruct r as [? [? ?]]).
    exists ((r.1, shown) :: es), g'. split; [|simpl; by rewrite Hlen].
    cbn [zip_with concat length epochs_result]. fold r.
    eapply for_each_cons_Ok; [|exact Hrun].
    eapply (bind_Ok _ _ _ []); [run1|]. exact Hrun1.
Qed.

Lemma cell_train_exact d xs ys xt yt g o a ge :
  fixed g d xs ys xt yt →
  zip xs ys ≠ [] ∨ zip xt yt ≠ [] ∨ is_Some (g !! "loss") →
  ∃ es g',
    Dhgcn.cell_train (mkKernel g (Some o) (Some a) ge)
    = (concat (zip_with (epoch_calls d (zip xs ys) (zip xt yt)) [1; 2; 3; 4; 5] es),
       Ok () (mkKernel g'
                (Some (epochs_result d ge (zip xs ys) (zip xt yt) 5 (o, a)).1)
                (Some (epochs_result d ge (zip xs ys) (zip xt yt) 5 (o, a)).2) ge))
    ∧ length es = 5%nat.
Proof.
  intros Hfix Hor.
  pose proof Hfix as (Hd & Hm & Ho & Hl & H1 & H2 & H3 & H4).
  destruct (epochs_exact d xs ys xt yt [1; 2; 3; 4; 5]
              (<["num_epochs":=VInt 5]> (<["test_interval":=VInt 1]> g)) o a ge)
    as (es & g' & Hrun & Hlen);
    [repeat split; look; done | look; done
    | rewrite !lookup_insert_ne by done; done |].
  exists es, g'. split; [|done].
  unfold Dhgcn.cell_train.
  eapply (bind_Ok _ _ _ []); [run1|].
  eapply (bind_Ok _ _ _ []); [run1|].
  eapply (bind_Ok _ _ _ []); [run1|].
  eapply (bind_Ok _ _ _ []); [run1|].
  exact Hrun.
Qed.

Lemma last_nonempty d (ss : list (NdArray * Scalar)) (hats : list Tensor) :
  length hats = length ss → ss ≠ [] → ∃ l, last (losses d ss hats) = Some l.
Proof.
  intros Hlen Hne. destruct (last (losses d ss hats)) as [l|] eqn:E; [by exists l|].
  apply last_None in E. destruct ss as [|s ss]; [done|].
  destruct hats as [|h hats]; done.
Qed.

Lemma train_results_frame d ge ss : ∀ oa,
  training (train_results d ge ss oa).2.1 = training oa.1.
Proof.
  induction ss as [|s ss IH]; intros oa; [done|].
  change (train_results d ge (s :: ss) oa).2
    with (train_results d ge ss (train_step_result d ge s oa).2).2.
  by rewrite IH.
Qed.

Lemma test_results_frame d ss : ∀ o,
  training (test_results d ss o).2 = training o ∧
  parameters (test_results d ss o).2 = parameters o ∧
  grad (test_results d ss o).2 = grad o.
Proof.
  induction ss as [|s ss IH]; intros o; [done|].
  change (test_results d (s :: ss) o).2
    with (test_results d ss (test_step_result d s o).2).2.
  destruct (IH (test_step_result d s o).2) as (-> & -> & ->). done.
Qed.

Lemma epoch_result_training d ge train test oa :
  training (epoch_result d ge train test oa).2.1 = true.
Proof.
  unfold epoch_result. cbn [fst snd].
  destruct (test_results_frame d test
              (train_results d ge train (in_training_mode oa.1, oa.2)).2.1) as (-> & _).
  by rewrite train_results_frame.
Qed.

End ExactEpochs.

Section ExactMore.
Context `{Externals}.

Lemma epochs_result_training d ge train test n : ∀ oa,
  training oa.1 = true → training (epochs_result d ge train test n oa).1 = true.
Proof.
  induction n as [|n IH]; intros oa Ht; [done|].
  cbn [epochs_result]. apply IH. apply epoch_result_training.
Qed.

End ExactMore.

(** X9.  One pass of the loop over the training samples, started with
    the sample in [x_0] and [y]: it makes the calls [train_calls]; the
    prediction is the forward pass of the current module on the
    converted features; the gradients it leaves are those of the loss
    of this prediction, back-propagated from zeroed gradients; Adam
    steps with them from the parameters the prediction was made with;
    and the value of the loss is appended to [epoch_loss]. *)
Theorem X9_training_step_updates_model_and_optimizer `{Externals} k d x y o a fs :
  step_ready k d → model_obj k = Some o → adam_obj k = Some a →
  bound k "x_0" (VArr x) → bound k "y" (VScalar y) →
  bound k "epoch_loss" (VSeq fs) →
  ∃ k',
    Dhgcn.train_step k
    = (train_calls d (x, y)
         (train_step_result d (grad_enabled k) (x, y) (o, a)).1, Ok () k') ∧
    model_obj k' = Some (train_step_result d (grad_enabled k) (x, y) (o, a)).2.1 ∧
    adam_obj k' = Some (train_step_result d (grad_enabled k) (x, y) (o, a)).2.2 ∧
    bound k' "epoch_loss"
      (VSeq (fs ++ [VFloat (tensor_item
         (loss_of d (x, y) (train_step_result d (grad_enabled k) (x, y) (o, a)).1))])).
Proof.
  destruct k as [g mo ao ge]. unfold step_ready, bound. simpl.
  intros (Hd & Hm & Ho & Hl) -> -> Hx Hy He.
  eexists. split; [run1|]. cbn [model_obj adam_obj globals].
  split; [done|]. split; [done|]. look. done.
Qed.

Lemma X9_witness :
  step_ready (Edge.in_loop 10) "cpu" ∧
  model_obj (Edge.in_loop 10) = Some Edge.setup_module ∧
  adam_obj (Edge.in_loop 10) = Some Edge.setup_adam ∧
  bound (Edge.in_loop 10) "x_0" (VArr Edge.x0) ∧
  bound (Edge.in_loop 10) "y" (VScalar Edge.y0) ∧
  bound (Edge.in_loop 10) "epoch_loss" (VSeq Edge.seven) ∧
  ∃ k',
    @Dhgcn.train_step _ (Toy.externals 10) (Edge.in_loop 10)
    = (train_calls (H0 := Toy.externals 10) "cpu" (Edge.x0, Edge.y0) Edge.x0, Ok () k') ∧
    model_obj k' = Some Edge.stepped_module ∧
    adam_obj k' = Some 1 ∧
    bound k' "epoch_loss" (VSeq Edge.in_loop_after).
Proof.
  assert (Hr : step_ready (Edge.in_loop 10) "cpu") by (repeat split).
  assert (Hm : model_obj (Edge.in_loop 10) = Some Edge.setup_module)
    by (vm_compute; reflexivity).
  assert (Ha : adam_obj (Edge.in_loop 10) = Some Edge.setup_adam)
    by (vm_compute; reflexivity).
  assert (Hx : bound (Edge.in_loop 10) "x_0" (VArr Edge.x0)) by reflexivity.
  assert (Hy : bound (Edge.in_loop 10) "y" (VScalar Edge.y0)) by reflexivity.
  assert (He : bound (Edge.in_loop 10) "epoch_loss" (VSeq Edge.seven)) by reflexivity.
  repeat (split; [assumption|]).
  exact (X9_training_step_updates_model_and_optimizer (H0 := Toy.externals 10)
           _ _ _ _ _ _ _ Hr Hm Ha Hx Hy He).
Defined.

(** X10.  On a test set that is not empty, the evaluation branch makes
    one forward pass per test sample, in order, each without gradient
    recording whether or not it was on before, with the parameters and
    the mode of the module it started with; only the buffers of the
    module change from one sample to the next.  It shows the loss of
    the last test sample and puts gradient recording back. *)
Theorem X10_evaluation_predicts_without_gradients `{Externals} k d xs ys xt yt o a :
  fixed (globals k) d xs ys xt yt → model_obj k = Some o → adam_obj k = Some a →
  zip xt yt ≠ [] →
  ∃ l k',
    Dhgcn.evaluate k
    = (evaluate_calls d (zip xt yt) (test_results d (zip xt yt) o).1 (VTensor l),
       Ok () k') ∧
    last (losses d (zip xt yt) (test_results d (zip xt yt) o).1) = Some l ∧
    model_obj k' = Some (test_results d (zip xt yt) o).2 ∧
    parameters (test_results d (zip xt yt) o).2 = parameters o ∧
    training (test_results d (zip xt yt) o).2 = training o ∧
    adam_obj k' = Some a ∧ grad_enabled k' = grad_enabled k.
Proof.
  destruct k as [g mo ao ge]. simpl. intros Hfix -> -> Hne.
  destruct (last_nonempty d (zip xt yt) (test_results d (zip xt yt) o).1) as [l Hl];
    [by rewrite test_results_length | done |].
  destruct (evaluate_exact d xs ys xt yt g o a ge (VTensor l) Hfix) as (g' & Hrun & _).
  { unfold last_loss. by rewrite Hl. }
  destruct (test_results_frame d (zip xt yt) o) as (Ht & Hp & _).
  eexists l, _. split; [exact Hrun|]. done.
Qed.

Lemma X10_witness :
  fixed (globals (Runs.dhgcn_setup 10)) "cpu" (Runs.features 0 8) (Runs.labels 0 8)
    (Runs.features 8 2) (Runs.labels 8 2) ∧
  model_obj (Runs.dhgcn_setup 10) = Some Edge.setup_module ∧
  adam_obj (Runs.dhgcn_setup 10) = Some Edge.setup_adam ∧
  zip (Runs.features 8 2) (Runs.labels 8 2) ≠ [] ∧
  ∃ l k',
    @Dhgcn.evaluate _ (Toy.externals 10) (Runs.dhgcn_setup 10)
    = (evaluate_calls (H0 := Toy.externals 10) "cpu" Edge.test2
         (test_results (H0 := Toy.externals 10) "cpu" Edge.test2 Edge.setup_module).1
         (VTensor l), Ok () k') ∧
    last (losses (H0 := Toy.externals 10) "cpu" Edge.test2
            (test_results (H0 := Toy.externals 10) "cpu" Edge.test2
               Edge.setup_module).1) = Some l ∧
    model_obj k'
    = Some (test_results (H0 := Toy.externals 10) "cpu" Edge.test2 Edge.setup_module).2 ∧
    parameters
      (test_results (H0 := Toy.externals 10) "cpu" Edge.test2 Edge.setup_module).2
    = parameters Edge.setup_module ∧
    training
      (test_results (H0 := Toy.externals 10) "cpu" Edge.test2 Edge.setup_module).2
    = training Edge.setup_module ∧
    adam_obj k' = Some Edge.setup_adam ∧
    grad_enabled k' = grad_enabled (Runs.dhgcn_setup 10).
Proof.
  assert (Hf : fixed (globals (Runs.dhgcn_setup 10)) "cpu" (Runs.features 0 8)
                 (Runs.labels 0 8) (Runs.features 8 2) (Runs.labels 8 2))
    by (repeat split; vm_compute; reflexivity).
  assert (Hm : model_obj (Runs.dhgcn_setup 10) = Some Edge.setup_module)
    by (vm_compute; reflexivity).
  assert (Ha : adam_obj (Runs.dhgcn_setup 10) = Some Edge.setup_adam)
    by (vm_compute; reflexivity).
  assert (Hn : zip (Runs.features 8 2) (Runs.labels 8 2) ≠ []) by (vm_compute; discriminate).
  repeat (split; [assumption|]).
  exact (X10_evaluation_predicts_without_gradients (H0 := Toy.externals 10)
           _ _ _ _ _ _ _ _ Hf Hm Ha Hn).
Defined.

(** X11.  One epoch computes [epoch_result]: the module is put into
    training mode, the training steps are made in order, each from the
    module and the optimizer the step before it left, and the
    evaluation is made with the module as the last training step left
    it, still in training mode.  The value shown as Test_loss is
    [shown_of]. *)
Theorem X11_epoch_computes_epoch_result `{Externals} k d xs ys xt yt o a i :
  fixed (globals k) d xs ys xt yt → model_obj k = Some o → adam_obj k = Some a →
  bound k "epoch_i" (VInt i) → bound k "test_interval" (VInt 1) →
  loss_available k xs ys xt yt →
  ∃ shown k',
    Dhgcn.epoch k
    = (epoch_calls d (zip xs ys) (zip xt yt) i
         ((epoch_result d (grad_enabled k) (zip xs ys) (zip xt yt) (o, a)).1, shown),
       Ok () k') ∧
    shown_of d (zip xs ys) (zip xt yt)
      (epoch_result d (grad_enabled k) (zip xs ys) (zip xt yt) (o, a)).1
      (globals k !! "loss") = Some shown ∧
    model_obj k'
    = Some (epoch_result d (grad_enabled k) (zip xs ys) (zip xt yt) (o, a)).2.1 ∧
    adam_obj k'
    = Some (epoch_result d (grad_enabled k) (zip xs ys) (zip xt yt) (o, a)).2.2 ∧
    grad_enabled k' = grad_enabled k.
Proof.
  destruct k as [g mo ao ge]. unfold bound, loss_available. simpl.
  intros Hfix -> -> Hi Ht Hor.
  destruct (shown_of_Some d (zip xs ys) (zip xt yt) ge (o, a) (g !! "loss") Hor)
    as [shown Hshown].
  destruct (epoch_exact d xs ys xt yt g o a ge i shown Hfix Hi Ht Hshown)
    as (g' & Hrun & _).
  eexists shown, _. split; [exact Hrun|]. done.
Qed.

Lemma X11_witness :
  fixed (globals (Edge.in_epoch 10)) "cpu" (Runs.features 0 8) (Runs.labels 0 8)
    (Runs.features 8 2) (Runs.labels 8 2) ∧
  model_obj (Edge.in_epoch 10) = Some Edge.setup_module ∧
  adam_obj (Edge.in_epoch 10) = Some Edge.setup_adam ∧
  bound (Edge.in_epoch 10) "epoch_i" (VInt 3) ∧
  bound (Edge.in_epoch 10) "test_interval" (VInt 1) ∧
  loss_available (Edge.in_epoch 10) (Runs.features 0 8) (Runs.labels 0 8)
    (Runs.features 8 2) (Runs.labels 8 2) ∧
  ∃ shown k',
    @Dhgcn.epoch _ (Toy.externals 10) (Edge.in_epoch 10)
    = (epoch_calls (H0 := Toy.externals 10) "cpu" Edge.train8 Edge.test2 3
         ((epoch_result (H0 := Toy.externals 10) "cpu" true Edge.train8 Edge.test2
             (Edge.setup_module, Edge.setup_adam)).1, shown), Ok () k') ∧
    shown_of (H0 := Toy.externals 10) "cpu" Edge.train8 Edge.test2
      (epoch_result (H0 := Toy.externals 10) "cpu" true Edge.train8 Edge.test2
         (Edge.setup_module, Edge.setup_adam)).1
      (globals (Edge.in_epoch 10) !! "loss") = Some shown ∧
    model_obj k'
    = Some (epoch_result (H0 := Toy.externals 10) "cpu" true Edge.train8 Edge.test2
              (Edge.setup_module, Edge.setup_adam)).2.1 ∧
    adam_obj k'
    = Some (epoch_result (H0 := Toy.externals 10) "cpu" true Edge.train8 Edge.test2
              (Edge.setup_module, Edge.setup_adam)).2.2 ∧
    grad_enabled k' = grad_enabled (Edge.in_epoch 10).
Proof.
  assert (Hf : fixed (globals (Edge.in_epoch 10)) "cpu" (Runs.features 0 8)
                 (Runs.labels 0 8) (Runs.features 8 2) (Runs.labels 8 2))
    by (repeat split; vm_compute; reflexivity).
  assert (Hm : model_obj (Edge.in_epoch 10) = Some Edge.setup_module)
    by (vm_compute; reflexivity).
  assert (Ha : adam_obj (Edge.in_epoch 10) = Some Edge.setup_adam)
    by (vm_compute; reflexivity).
  assert (Hi : bound (Edge.in_epoch 10) "epoch_i" (VInt 3)) by reflexivity.
  assert (Ht : bound (Edge.in_epoch 10) "test_interval" (VInt 1)) by reflexivity.
  assert (Hl : loss_available (Edge.in_epoch 10) (Runs.features 0 8) (Runs.labels 0 8)
                 (Runs.features 8 2) (Runs.labels 8 2))
    by (left; vm_compute; discriminate).
  repeat (split; [assumption|]).
  exact (X11_epoch_computes_epoch_result (H0 := Toy.externals 10)
           _ _ _ _ _ _ _ _ _ Hf Hm Ha Hi Ht Hl).
Defined.

(** X12.  The training cell runs to its end and leaves the module and
    the optimizer that five epochs, one after the other, compute from
    the ones it started with; the module is left in training mode and
    gradient recording as it was. *)
Theorem X12_training_cell_computes_five_epochs `{Externals} k d xs ys xt yt o a :
  fixed (globals k) d xs ys xt yt → model_obj k = Some o → adam_obj k = Some a →
  loss_available k xs ys xt yt →
  ∃ k',
    (Dhgcn.cell_train k).2 = Ok () k' ∧
    model_obj k'
    = Some (epochs_result d (grad_enabled k) (zip xs ys) (zip xt yt) 5 (o, a)).1 ∧
    adam_obj k'
    = Some (epochs_result d (grad_enabled k) (zip xs ys) (zip xt yt) 5 (o, a)).2 ∧
    training (epochs_result d (grad_enabled k) (zip xs ys) (zip xt yt) 5 (o, a)).1 = true ∧
    grad_enabled k' = grad_enabled k.
Proof.
  destruct k as [g mo ao ge]. unfold loss_available. simpl.
  intros Hfix -> -> Hor.
  destruct (cell_train_exact d xs ys xt yt g o a ge Hfix Hor) as (es & g' & Hrun & _).
  eexists. split; [by rewrite Hrun|]. split; [done|]. split; [done|]. split; [|done].
  exact (epochs_result_training d ge _ _ 4 _ (epoch_result_training d ge _ _ (o, a))).
Qed.

Lemma X12_witness :
  fixed (globals (Runs.dhgcn_setup 10)) "cpu" (Runs.features 0 8) (Runs.labels 0 8)
    (Runs.features 8 2) (Runs.labels 8 2) ∧
  model_obj (Runs.dhgcn_setup 10) = Some Edge.setup_module ∧
  adam_obj (Runs.dhgcn_setup 10) = Some Edge.setup_adam ∧
  loss_available (Runs.dhgcn_setup 10) (Runs.features 0 8) (Runs.labels 0 8)
    (Runs.features 8 2) (Runs.labels 8 2) ∧
  ∃ k',
    (@Dhgcn.cell_train _ (Toy.externals 10) (Runs.dhgcn_setup 10)).2 = Ok () k' ∧
    model_obj k'
    = Some (epochs_result (H0 := Toy.externals 10) "cpu" true Edge.train8 Edge.test2 5
              (Edge.setup_module, Edge.setup_adam)).1 ∧
    adam_obj k'
    = Some (epochs_result (H0 := Toy.externals 10) "cpu" true Edge.train8 Edge.test2 5
              (Edge.setup_module, Edge.setup_adam)).2 ∧
    training (epochs_result (H0 := Toy.externals 10) "cpu" true Edge.train8 Edge.test2 5
                (Edge.setup_module, Edge.setup_adam)).1 = true ∧
    grad_enabled k' = grad_enabled (Runs.dhgcn_setup 10).
Proof.
  assert (Hf : fixed (globals (Runs.dhgcn_setup 10)) "cpu" (Runs.features 0 8)
                 (Runs.labels 0 8) (Runs.features 8 2) (Runs.labels 8 2))
    by (repeat split; vm_compute; reflexivity).
  assert (Hm : model_obj (Runs.dhgcn_setup 10) = Some Edge.setup_module)
    by (vm_compute; reflexivity).
  assert (Ha : adam_obj (Runs.dhgcn_setup 10) = Some Edge.setup_adam)
    by (vm_compute; reflexivity).
  assert (Hl : loss_available (Runs.dhgcn_setup 10) (Runs.features 0 8)
                 (Runs.labels 0 8) (Runs.features 8 2) (Runs.labels 8 2))
    by (left; vm_compute; discriminate).
  repeat (split; [assumption|]).
  exact (X12_training_cell_computes_five_epochs (H0 := Toy.externals 10)
           _ _ _ _ _ _ _ _ Hf Hm Ha Hl).
Defined.

(** X13.  With an empty test set and a training set that is not empty,
    the value an epoch shows as Test_loss is the loss of its last
    training sample: the evaluation loop binds nothing and the print
    reads the [loss] that the training loop left. *)
Theorem X13_empty_test_set_shows_the_last_training_loss `{Externals}
    k d xs ys xt yt o a i :
  fixed (globals k) d xs ys xt yt → model_obj k = Some o → adam_obj k = Some a →
  bound k "epoch_i" (VInt i) → bound k "test_interval" (VInt 1) →
  zip xs ys ≠ [] → zip xt yt = [] →
  ∃ hats l k',
    Dhgcn.epoch k
    = (epoch_calls d (zip xs ys) [] i (hats, [], VTensor l), Ok () k') ∧
    length hats = length (zip xs ys) ∧
    last (losses d (zip xs ys) hats) = Some l.
Proof.
  destruct k as [g mo ao ge]. unfold bound. simpl.
  intros Hfix -> -> Hi Ht Hne Hnil.
  pose proof (train_results_length d ge (zip xs ys) (in_training_mode o, a)) as Hlen.
  destruct (last_nonempty d (zip xs ys) _ Hlen Hne) as [l Hl].
  destruct (epoch_exact d xs ys xt yt g o a ge i (VTensor l) Hfix Hi Ht) as (g' & Hrun & _).
  { unfold shown_of, epoch_result. cbn [fst snd]. rewrite Hnil.
    cbn [test_results fst snd]. unfold last_loss. cbn [losses zip_with last].
    by rewrite Hl. }
  unfold epoch_result in Hrun. cbn [fst snd] in Hrun. rewrite Hnil in Hrun.
  cbn [test_results fst snd] in Hrun.
  eexists _, l, _. split; [exact Hrun|]. split; [exact Hlen | exact Hl].
Qed.

Lemma X13_witness :
  fixed (globals (Edge.no_test 10)) "cpu" (Runs.features 0 8) (Runs.labels 0 8)
    (Runs.features 0 0) (Runs.labels 0 0) ∧
  model_obj (Edge.no_test 10) = Some Edge.setup_module ∧
  adam_obj (Edge.no_test 10) = Some Edge.setup_adam ∧
  bound (Edge.no_test 10) "epoch_i" (VInt 3) ∧
  bound (Edge.no_test 10) "test_interval" (VInt 1) ∧
  zip (Runs.features 0 8) (Runs.labels 0 8) ≠ [] ∧
  zip (Runs.features 0 0) (Runs.labels 0 0) = [] ∧
  ∃ hats l k',
    @Dhgcn.epoch _ (Toy.externals 10) (Edge.no_test 10)
    = (epoch_calls (H0 := Toy.externals 10) "cpu" Edge.train8 [] 3
         (hats, [], VTensor l), Ok () k') ∧
    length hats = length Edge.train8 ∧
    last (losses (H0 := Toy.externals 10) "cpu" Edge.train8 hats) = Some l.
Proof.
  assert (Hf : fixed (globals (Edge.no_test 10)) "cpu" (Runs.features 0 8)
                 (Runs.labels 0 8) (Runs.features 0 0) (Runs.labels 0 0))
    by (repeat split; vm_compute; reflexivity).
  assert (Hm : model_obj (Edge.no_test 10) = Some Edge.setup_module)
    by (vm_compute; reflexivity).
  assert (Ha : adam_obj (Edge.no_test 10) = Some Edge.setup_adam)
    by (vm_compute; reflexivity).
  assert (Hi : bound (Edge.no_test 10) "epoch_i" (VInt 3)) by reflexivity.
  assert (Ht : bound (Edge.no_test 10) "test_interval" (VInt 1)) by reflexivity.
  assert (Hn : zip (Runs.features 0 8) (Runs.labels 0 8) ≠ [])
    by (vm_compute; discriminate).
  assert (He : zip (Runs.features 0 0) (Runs.labels 0 0) = []) by reflexivity.
  repeat (split; [assumption|]).
  exact (X13_empty_test_set_shows_the_last_training_loss (H0 := Toy.externals 10)
           _ _ _ _ _ _ _ _ _ Hf Hm Ha Hi Ht Hn He).
Defined.

Section EdgeRuns.
Context `{Externals}.

Lemma finally_Raise {A} (m : M A) (fin : M unit) k l e k' l' k'' :
  m k = (l, Raise e k') → fin k' = (l', Ok () k'') →
  finally m fin k = (l ++ l', Raise e k'').
Proof. intros Hm Hf. unfold finally. by rewrite Hm, Hf. Qed.

Lemma for_each_cons_Raise {A} (x : A) l (body : A → M unit) k L e k' :
  body x k = (L, Raise e k') → for_each (x :: l) body k = (L, Raise e k').
Proof. intros Hb. simpl. by eapply bind_Raise. Qed.

End EdgeRuns.

(** X14.  With an empty training set, an empty test set and [loss] not
    bound, the training cell stops in its first epoch: it puts the
    model in training mode, takes [np.mean] of the empty list, prints
    it, enters [torch.no_grad()] and raises NameError for [loss] at the
    Test_loss print; the block is left all the same, so gradient
    recording is as before, and the parameters are untouched. *)
Theorem X14_empty_data_set_raises_NameError `{Externals} k d xs ys xt yt o a :
  fixed (globals k) d xs ys xt yt → model_obj k = Some o → adam_obj k = Some a →
  zip xs ys = [] → zip xt yt = [] → globals k !! "loss" = None →
  ∃ k',
    Dhgcn.cell_train k
    = (train_epoch_calls d 1 [] []
       ++ [mkCall "torch.no_grad.__enter__" [] VNone;
           mkCall "torch.no_grad.__exit__" [] VNone],
       Raise (NameError "loss") k') ∧
    model_obj k' = Some (in_training_mode o) ∧ adam_obj k' = Some a ∧
    grad_enabled k' = grad_enabled k.
Proof.
  destruct k as [g mo ao ge]. cbn [globals model_obj adam_obj grad_enabled].
  intros Hfix -> -> Hxs Hxt Hloss.
  pose proof Hfix as (Hd & Hm & Ho & Hl & H1 & H2 & H3 & H4).
  pose (g0 := <["epoch_i":=VInt 1]> (<["num_epochs":=VInt 5]> (<["test_interval":=VInt 1]> g))).
  assert (Hfix0 : fixed g0 d xs ys xt yt) by (subst g0; repeat split; look; done).
  destruct (train_epoch_exact d xs ys xt yt g0 o a ge 1 Hfix0) as
    (g1 & Hrun1 & Hfix1 & Hl1 & Hi1 & Ht1); [subst g0; look; done|].
  rewrite Hxs in Hrun1, Hl1. cbn [train_results fst snd] in Hrun1, Hl1.
  pose proof Hfix1 as (Hd1 & Hm1 & Ho1 & Hlf1 & H11 & H21 & H31 & H41).
  assert (Hloss1 : g1 !! "loss" = None).
  { rewrite Hl1. unfold last_loss. cbn [losses zip_with last]. subst g0.
    by rewrite !lookup_insert_ne. }
  assert (Ht1' : g1 !! "test_interval" = Some (VInt 1)).
  { rewrite Ht1. subst g0. look. done. }
  eexists. split; [|shelve].
  { unfold Dhgcn.cell_train.
    eapply bind_silent; [run1|]. eapply bind_silent; [run1|].
    eapply bind_silent; [run1|]. eapply bind_silent; [run1|].
    change (range 1 (5 + 1)) with [1; 2; 3; 4; 5].
    eapply for_each_cons_Raise. eapply bind_silent; [run1|].
    unfold Dhgcn.epoch. eapply bind_Ok; [exact Hrun1|].
    eapply bind_silent; [run1|]. eapply bind_silent; [run1|].
    eapply bind_silent; [run1|]. eapply bind_silent; [run1|].
    eapply bind_silent; [reflexivity|]. rewrite Z.mod_1_r. cbn [Z.eqb].
    unfold Dhgcn.evaluate, with_no_grad, Dhgcn.for_zip.
    eapply (bind_Ok _ _ _ [_]); [run1|].
    eapply (finally_Raise _ _ _ []).
    - eapply bind_silent.
      + eapply bind_silent; [run1|]. eapply bind_silent; [run1|].
        eapply bind_silent; [run1|]. rewrite zip_inj, Hxt. reflexivity.
      + eapply bind_Raise. run1.
    - run1. }
  Unshelve. done.
Qed.

Lemma X14_witness :
  fixed (globals (Edge.no_data 10)) "cpu" (Runs.features 0 0) (Runs.labels 0 0)
    (Runs.features 0 0) (Runs.labels 0 0) ∧
  model_obj (Edge.no_data 10) = Some Edge.setup_module ∧
  adam_obj (Edge.no_data 10) = Some Edge.setup_adam ∧
  zip (Runs.features 0 0) (Runs.labels 0 0) = [] ∧
  globals (Edge.no_data 10) !! "loss" = None ∧
  ∃ k',
    @Dhgcn.cell_train _ (Toy.externals 10) (Edge.no_data 10)
    = (train_epoch_calls (H0 := Toy.externals 10) "cpu" 1 [] []
       ++ [mkCall "torch.no_grad.__enter__" [] VNone;
           mkCall "torch.no_grad.__exit__" [] VNone],
       Raise (NameError "loss") k') ∧
    model_obj k' = Some (in_training_mode Edge.setup_module) ∧
    adam_obj k' = Some Edge.setup_adam ∧
    grad_enabled k' = grad_enabled (Edge.no_data 10).
Proof.
  assert (Hf : fixed (globals (Edge.no_data 10)) "cpu" (Runs.features 0 0)
                 (Runs.labels 0 0) (Runs.features 0 0) (Runs.labels 0 0))
    by (repeat split; vm_compute; reflexivity).
  assert (Hm : model_obj (Edge.no_data 10) = Some Edge.setup_module)
    by (vm_compute; reflexivity).
  assert (Ha : adam_obj (Edge.no_data 10) = Some Edge.setup_adam)
    by (vm_compute; reflexivity).
  assert (He : zip (Runs.features 0 0) (Runs.labels 0 0) = []) by reflexivity.
  assert (Hl : globals (Edge.no_data 10) !! "loss" = None) by (vm_compute; reflexivity).
  repeat (split; [assumption|]).
  exact (X14_empty_data_set_raises_NameError (H0 := Toy.externals 10)
           _ _ _ _ _ _ _ _ Hf Hm Ha He He Hl).
Defined.

(** X15.  Run in a kernel where [model] is not bound, the training cell
    raises NameError for [model] at [model.train()], before any call to
    a library. *)
Theorem X15_training_cell_needs_the_model `{Externals} k :
  globals k !! "model" = None →
  ∃ k', Dhgcn.cell_train k = ([], Raise (NameError "model") k') ∧
        model_obj k' = model_obj k ∧ adam_obj k' = adam_obj k.
Proof.
  destruct k as [g mo ao ge]. simpl. intros Hm.
  eexists. split; [|shelve].
  unfold Dhgcn.cell_train.
  eapply bind_silent; [run1|]. eapply bind_silent; [run1|].
  eapply bind_silent; [run1|]. eapply bind_silent; [run1|].
  change (range 1 (5 + 1)) with [1; 2; 3; 4; 5].
  eapply for_each_cons_Raise. eapply bind_silent; [run1|].
  unfold Dhgcn.epoch. eapply bind_Raise. unfold Dhgcn.train_epoch.
  eapply bind_silent; [run1|]. eapply bind_Raise. run1.
  Unshelve. done.
Qed.

Lemma X15_witness :
  globals (@fresh Toy.carriers) !! "model" = None ∧
  ∃ k', @Dhgcn.cell_train _ (Toy.externals 10) fresh
        = ([], Raise (NameError "model") k') ∧
        model_obj k' = model_obj (@fresh Toy.carriers) ∧
        adam_obj k' = adam_obj (@fresh Toy.carriers).
Proof.
  assert (Hm : globals (@fresh Toy.carriers) !! "model" = None) by reflexivity.
  split; [exact Hm|].
  exact (X15_training_cell_needs_the_model (H0 := Toy.externals 10) fresh Hm).
Defined.

(** X16.  The cells of the DHGCN notebook that follow the construction
    of the model (loss and optimizer, split, training and testing)
    read none of [x_1s], [x_2s], [channels_edge], [channels_node],
    [simplexes], [shrec] and [i_complex]: started in two states that
    differ only in these names, they make the same calls with the same
    arguments and results, end the same way and leave the same model
    and optimizer. *)
Theorem X16_dhgcn_training_reads_node_features_only `{Externals} :
  blind unused_by_training dhgcn_after_model.
Proof.
  unfold dhgcn_after_model, run_all, Dhgcn.cells, Dhgcn.setup_cells.
  simpl for_each. unfold id. blind_auto.
Qed.

(** ** Rules for [only_touches] *)

Section Touches.
Context `{Externals}.
Variable W : list string.

Lemma touches_refl k : touches W k k.
Proof. done. Qed.

Lemma touches_trans k1 k2 k3 : touches W k1 k2 → touches W k2 k3 → touches W k1 k3.
Proof.
  intros [G1 E1] [G2 E2]. split; [|congruence]. intros x Hx. by rewrite G2, G1.
Qed.

Lemma touch_ret {A} (a : A) : only_touches W (ret a).
Proof. intros k. apply touches_refl. Qed.

Lemma touch_raise {A} (e : exn) : only_touches W (raise (A := A) e).
Proof. intros k. apply touches_refl. Qed.

Lemma touch_bind {A B} (m : M A) (f : A → M B) :
  only_touches W m → (∀ a, only_touches W (f a)) → only_touches W (bind m f).
Proof.
  intros Hm Hf k. unfold bind. pose proof (Hm k) as Km.
  destruct (m k) as [l [a k'|e k']]; simpl in *; [|done].
  pose proof (Hf a k') as Kf. destruct (f a k') as [l' o]; simpl in *.
  by eapply touches_trans.
Qed.

Lemma touch_for_each {A} (l : list A) (body : A → M unit) :
  (∀ x, only_touches W (body x)) → only_touches W (for_each l body).
Proof.
  intros Hb. induction l as [|x l IH]; simpl; [apply touch_ret|].
  apply touch_bind; [apply Hb | intros _; apply IH].
Qed.

Lemma touch_get_var x : only_touches W (get_var x).
Proof. intros k. unfold get_var. destruct (globals k !! x); apply touches_refl. Qed.

Lemma touch_set_var x v : bool_decide (x ∈ W) = true → only_touches W (set_var x v).
Proof.
  intros Hx k. apply bool_decide_eq_true in Hx. split; [|done].
  intros y Hy. simpl. apply lookup_insert_ne. by intros ->.
Qed.

Lemma touch_ext f a r : only_touches W (ext f a r).
Proof. intros k. apply touches_refl. Qed.

(** [with torch.no_grad():] puts gradient recording back to what it was,
    however its body ends. *)
Lemma touch_with_no_grad (body : M unit) :
  only_touches W body → only_touches W (with_no_grad body).
Proof.
  intros Hb k. unfold with_no_grad, bind, no_grad_enter, finally, no_grad_exit.
  destruct (Hb (with_grad_enabled false k)) as [G _].
  destruct (body (with_grad_enabled false k)) as [l [u k'|e k']]; simpl in *;
    (split; [exact G | done]).
Qed.

Ltac leaf3 :=
  intros [g mo ao ge]; unfold touches; simpl;
  repeat match goal with
         | |- context [match ?v with _ => _ end] => destruct v
         end;
  done.

Lemma touch_train_ m : only_touches W (train_ m).
Proof. unfold train_. leaf3. Qed.

Lemma touch_model_call_ m x : only_touches W (model_call_ m x).
Proof. unfold model_call_. leaf3. Qed.

Lemma touch_zero_grad_ o : only_touches W (zero_grad_ o).
Proof. unfold zero_grad_. leaf3. Qed.

Lemma touch_backward_ l : only_touches W (backward_ l).
Proof. unfold backward_. leaf3. Qed.

Lemma touch_step_ o : only_touches W (step_ o).
Proof. unfold step_. leaf3. Qed.

End Touches.

Ltac touch_step :=
  lazymatch goal with
  | |- only_touches _ (bind _ _) => apply touch_bind; [|intros ?]
  | |- only_touches _ (ret _) => apply touch_ret
  | |- only_touches _ (raise _) => apply touch_raise
  | |- only_touches _ (with_no_grad _) => apply touch_with_no_grad
  | |- only_touches _ (for_each _ _) => apply touch_for_each; intros ?
  | |- only_touches _ (get_var _) => apply touch_get_var
  | |- only_touches _ (set_var _ _) => apply touch_set_var; reflexivity
  | |- only_touches _ (ext _ _ _) => apply touch_ext
  | |- only_touches _ (train_ _) => apply touch_train_
  | |- only_touches _ (model_call_ _ _) => apply touch_model_call_
  | |- only_touches _ (zero_grad_ _) => apply touch_zero_grad_
  | |- only_touches _ (backward_ _) => apply touch_backward_
  | |- only_touches _ (step_ _) => apply touch_step_
  | |- only_touches _ (match ?v with _ => _ end) => destruct v
  | |- only_touches _ (let _ := _ in _) => cbv zeta
  | |- only_touches _ ?m => sat_head m
  end.
Ltac touch_auto := repeat touch_step.

(** X17.  In whatever state it is started and however it ends, the
    training cell rebinds no name other than [test_interval],
    [num_epochs], [epoch_i], [epoch_loss], [x_0], [y], [y_hat] and
    [loss], and it leaves gradient recording on or off as it found it;
    the evaluation branch rebinds no name other than [x_0], [y],
    [y_hat] and [loss]. *)
Theorem X17_training_cell_binds_eight_names `{Externals} :
  only_touches training_names Dhgcn.cell_train ∧
  only_touches ["x_0"; "y"; "y_hat"; "loss"] Dhgcn.evaluate.
Proof. split; touch_auto. Qed.

Section Names.
Context `{Externals}.

Lemma names_concat_zip_with {A B} (g : A → B → list Call) names (ss : list A) :
  (∀ s h, fn <$> g s h = names) →
  ∀ hats, length hats = length ss →
  fn <$> concat (zip_with g ss hats) = concat (replicate (length ss) names).
Proof.
  intros Hg. induction ss as [|s ss IH]; intros [|h hats] Hlen; try done.
  cbn [zip_with concat length replicate]. rewrite fmap_app, Hg, IH; [done|].
  simpl in Hlen. lia.
Qed.

Lemma epoch_calls_names d train test i e :
  length e.1.1 = length train → length e.1.2 = length test →
  fn <$> epoch_calls d train test i e = epoch_names (length train) (length test).
Proof.
  intros H1 H2. unfold epoch_calls, train_epoch_calls, evaluate_calls, epoch_names.
  rewrite fmap_app, !fmap_cons, !fmap_app.
  rewrite (names_concat_zip_with (train_calls d) train_names) by done.
  rewrite (names_concat_zip_with (test_calls d) test_names) by done.
  cbn [fmap list_fmap fn app]. rewrite <- app_assoc. reflexivity.
Qed.

Lemma epochs_names d train test (js : list Z) : ∀ es,
  length es = length js →
  Forall (λ e, length e.1.1 = length train ∧ length e.1.2 = length test) es →
  fn <$> concat (zip_with (epoch_calls d train test) js es)
  = concat (replicate (length js) (epoch_names (length train) (length test))).
Proof.
  induction js as [|j js IH]; intros [|e es] Hlen Hall; try done.
  apply Forall_cons_1 in Hall as [[H1 H2] Hall].
  cbn [zip_with concat length replicate].
  rewrite fmap_app, epoch_calls_names by done. rewrite IH; [done| |done].
  simpl in Hlen. lia.
Qed.

Lemma count_name_app f a b : count_name f (a ++ b) = (count_name f a + count_name f b)%nat.
Proof. unfold count_name. by rewrite filter_app, length_app. Qed.

Lemma count_name_replicate f n l :
  count_name f (concat (replicate n l)) = (n * count_name f l)%nat.
Proof.
  induction n as [|n IH]; [done|].
  cbn [replicate concat]. rewrite count_name_app, IH. lia.
Qed.

Lemma count_epoch_names f n m :
  count_name f (epoch_names n m)
  = (count_name f ["Module.train"] + n * count_name f train_names
     + count_name f ["np.mean"; "print"; "torch.no_grad.__enter__"]
     + m * count_name f test_names
     + count_name f ["print"; "torch.no_grad.__exit__"])%nat.
Proof.
  unfold epoch_names. rewrite !count_name_app, !count_name_replicate.
  change (count_name f ["np.mean"; "print"; "torch.no_grad.__enter__"])
    with (count_name f (["np.mean"; "print"] ++ ["torch.no_grad.__enter__"])).
  rewrite count_name_app. lia.
Qed.

End Names.

(** X18.  The names of the calls of the training cell depend only on the
    numbers of training and test samples: they are five times
    [epoch_names].  In particular the cell makes five optimizer steps
    and five backward passes per training sample, and five forward
    passes per sample of either set. *)
Theorem X18_training_cell_call_names `{Externals} k d xs ys xt yt :
  ready k d xs ys xt yt →
  loss_available k xs ys xt yt →
  fn <$> (Dhgcn.cell_train k).1
  = concat (replicate 5 (epoch_names (length (zip xs ys)) (length (zip xt yt)))) ∧
  calls_of "Optimizer.step" (Dhgcn.cell_train k).1 = (5 * length (zip xs ys))%nat ∧
  calls_of "Tensor.backward" (Dhgcn.cell_train k).1 = (5 * length (zip xs ys))%nat ∧
  calls_of "Module.__call__" (Dhgcn.cell_train k).1
  = (5 * (length (zip xs ys) + length (zip xt yt)))%nat.
Proof.
  destruct k as [g [o|] [a|] ge]; intros (Hfix & Hm & Ha) Hor;
    try (by destruct Hm); try (by destruct Ha).
  destruct (cell_train_run d xs ys xt yt g o a ge Hfix Hor)
    as (es & k' & Hrun & Hlen & Hall).
  assert (Hn : fn <$> (Dhgcn.cell_train (mkKernel g (Some o) (Some a) ge)).1
               = concat (replicate 5 (epoch_names (length (zip xs ys))
                                        (length (zip xt yt))))).
  { rewrite Hrun. cbn [fst].
    apply (epochs_names d _ _ [1; 2; 3; 4; 5] es); [done|].
    eapply Forall_impl; [exact Hall|]. intros e (H1 & H2 & _). done. }
  split; [exact Hn|]. unfold calls_of. rewrite Hn.
  rewrite !count_name_replicate, !count_epoch_names.
  repeat split; vm_compute count_name; lia.
Qed.

Lemma X18_witness :
  ready (Runs.dhgcn_setup 10) "cpu" (Runs.features 0 8) (Runs.labels 0 8)
    (Runs.features 8 2) (Runs.labels 8 2) ∧
  loss_available (Runs.dhgcn_setup 10) (Runs.features 0 8) (Runs.labels 0 8)
    (Runs.features 8 2) (Runs.labels 8 2) ∧
  fn <$> (@Dhgcn.cell_train _ (Toy.externals 10) (Runs.dhgcn_setup 10)).1
  = concat (replicate 5 (epoch_names 8 2)) ∧
  calls_of "Optimizer.step" (@Dhgcn.cell_train _ (Toy.externals 10) (Runs.dhgcn_setup 10)).1
  = 40%nat ∧
  calls_of "Tensor.backward" (@Dhgcn.cell_train _ (Toy.externals 10) (Runs.dhgcn_setup 10)).1
  = 40%nat ∧
  calls_of "Module.__call__" (@Dhgcn.cell_train _ (Toy.externals 10) (Runs.dhgcn_setup 10)).1
  = 50%nat.
Proof.
  assert (Hr : ready (Runs.dhgcn_setup 10) "cpu"
                 (Runs.features 0 8) (Runs.labels 0 8)
                 (Runs.features 8 2) (Runs.labels 8 2)).
  { repeat split; try (vm_compute; reflexivity); vm_compute; eexists; reflexivity. }
  assert (Hl : loss_available (Runs.dhgcn_setup 10) (Runs.features 0 8)
                 (Runs.labels 0 8) (Runs.features 8 2) (Runs.labels 8 2))
    by (left; vm_compute; discriminate).
  split; [exact Hr|]. split; [exact Hl|].
  exact (X18_training_cell_call_names (H0 := Toy.externals 10) _ _ _ _ _ _ Hr Hl).
Defined.

Section BuildRuns.
Context `{Externals}.

Lemma py_index_last (l : list Val) : py_index l (-1) = last l.
Proof.
  unfold py_index. change (0 <=? -1) with false. cbv iota.
  destruct l as [|x l]; [reflexivity|].
  destruct (Z.leb_spec 0 (Z.of_nat (length (x :: l)) + -1)); [|simpl in *; lia].
  rewrite last_lookup. f_equal. simpl. lia.
Qed.

Lemma last_dim_run xs a l c g mo ao ge :
  g !! xs = Some (VSeq (VArr a :: l)) → last (ndarray_shape a) = Some c →
  ScaCmps.last_dim xs (mkKernel g mo ao ge)
  = ([mkCall "ndarray.shape" [VArr a] (VSeq (map VInt (ndarray_shape a)))],
     Ok (VInt c) (mkKernel g mo ao ge)).
Proof.
  intros Hx Hc. unfold ScaCmps.last_dim. sym. rewrite py_index_0. sym.
  rewrite py_index_last. change (map VInt) with (fmap (M := list) VInt).
  rewrite fmap_last, Hc. reflexivity.
Qed.

Lemma channels_run xs a l n c rest g mo ao ge :
  g !! xs = Some (VSeq (VArr a :: l)) → ndarray_shape a = n :: c :: rest →
  Dhgcn.channels xs (mkKernel g mo ao ge)
  = ([mkCall "ndarray.shape" [VArr a] (VSeq (map VInt (ndarray_shape a)))],
     Ok (VInt c) (mkKernel g mo ao ge)).
Proof.
  intros Hx Hc. unfold Dhgcn.channels. sym. rewrite py_index_0. sym.
  rewrite Hc. cbn [map]. rewrite py_index_1. reflexivity.
Qed.

End BuildRuns.

(** X19.  When the first samples of [x_0s], [x_1s] and [x_2s] are arrays
    and every array and list to split holds at least two items, the
    cells of the SCA-CMPS notebook that follow the pre-processing loop
    run to their end.  [channels_list] holds the last dimension of each
    of the three first samples; the model is SCACMPS of these channels
    with [complex_dim = 3], [n_classes = 1], [n_layers = 3] and no
    attention, moved to the device, in training mode and without
    gradients; and Adam is built, with [lr = 0.1], from the parameters
    as they are after the move. *)
Theorem X19_sca_model_is_built_from_the_last_dimensions `{Externals} k c0 c1 c2 dev :
  first_sample k "x_0s" c0 → first_sample k "x_1s" c1 → first_sample k "x_2s" c2 →
  bound k "device" (VDevice dev) →
  Forall (splittable k) (loaded_arrays ++ sca_lists) →
  ∃ L k',
    sca_after_loop k = (L, Ok () k') ∧
    fn <$> L = sca_after_loop_names ∧
    bound k' "channels_list" (VSeq [VInt c0; VInt c1; VInt c2]) ∧
    model_obj k' = Some (built (SCACMPS_init [c0; c1; c2] 3 1 3 false) dev) ∧
    adam_obj k'
    = Some (adam_init (params_to dev (SCACMPS_init [c0; c1; c2] 3 1 3 false).1) 0.1).
Proof.
  destruct k as [g mo ao ge]. unfold first_sample, bound.
  cbn [globals]. intros (a0 & l0 & B0 & S0) (a1 & l1 & B1 & S1) (a2 & l2 & B2 & S2) Bd Hall.
  unfold loaded_arrays, sca_lists in Hall. cbn [app] in Hall.
  repeat match goal with
         | Hf : Forall _ (_ :: _) |- _ =>
             apply Forall_cons_1 in Hf as [(? & ? & ?) Hf]
         end.
  unfold bound in *. cbn [globals] in *. simplify_eq.
  eexists _, _. split; [|shelve].
  { unfold sca_after_loop, run_all, ScaCmps.cells. cbn [drop for_each]. unfold id.
    eapply bind_Ok.
    { unfold ScaCmps.cell_channels.
      eapply bind_last; [|run1].
      unfold assign. eapply bind_last; [|run1].
      eapply (bind_Ok _ _ _ [_]); [by eapply last_dim_run|].
      eapply (bind_Ok _ _ _ [_]); [by eapply last_dim_run|].
      eapply bind_last; [by eapply last_dim_run|]. reflexivity. }
    eapply bind_Ok; [unfold ScaCmps.cell_shape; run1|].
    eapply bind_Ok.
    { unfold ScaCmps.cell_split.
      eapply bind_silent; [run1|].
      do 8 (eapply (bind_Ok _ _ _ [_]);
            [eapply split_into_any; [look; reflexivity | eassumption | look; done]|]).
      run1. }
    eapply bind_last; [|reflexivity].
    unfold ScaCmps.cell_model, SCACMPS_, module_to_, Adam_. sym.
    cbn [ints_of]. sym. reflexivity. }
  Unshelve. cbn [fst snd model_obj adam_obj globals]. split; [reflexivity|].
  split; [look; done|]. done.
Qed.

Lemma X19_witness :
  first_sample (H0 := Toy.externals 10) (Runs.sca_before_split 10) "x_0s" 6 ∧
  first_sample (H0 := Toy.externals 10) (Runs.sca_before_split 10) "x_1s" 10 ∧
  first_sample (H0 := Toy.externals 10) (Runs.sca_before_split 10) "x_2s" 7 ∧
  bound (Runs.sca_before_split 10) "device" Edge.cpu ∧
  Forall (splittable (Runs.sca_before_split 10)) (loaded_arrays ++ sca_lists) ∧
  ∃ L k',
    sca_after_loop (H0 := Toy.externals 10) (Runs.sca_before_split 10) = (L, Ok () k') ∧
    fn <$> L = sca_after_loop_names ∧
    bound k' "channels_list" (VSeq [VInt 6; VInt 10; VInt 7]) ∧
    model_obj k' = Some Edge.setup_module ∧
    adam_obj k' = Some Edge.setup_adam.
Proof.
  assert (S0 : first_sample (H0 := Toy.externals 10) (Runs.sca_before_split 10) "x_0s" 6)
    by (eexists _, _; split; vm_compute; reflexivity).
  assert (S1 : first_sample (H0 := Toy.externals 10) (Runs.sca_before_split 10) "x_1s" 10)
    by (eexists _, _; split; vm_compute; reflexivity).
  assert (S2 : first_sample (H0 := Toy.externals 10) (Runs.sca_before_split 10) "x_2s" 7)
    by (eexists _, _; split; vm_compute; reflexivity).
  assert (Bd : bound (Runs.sca_before_split 10) "device" Edge.cpu)
    by (vm_compute; reflexivity).
  assert (Hs : Forall (splittable (Runs.sca_before_split 10))
                 (loaded_arrays ++ sca_lists)).
  { repeat (apply Forall_cons_2;
            [eexists; split; [vm_compute; reflexivity | vm_compute; lia]|]).
    apply Forall_nil_2. }
  repeat (split; [assumption|]).
  exact (X19_sca_model_is_built_from_the_last_dimensions (H0 := Toy.externals 10)
           _ _ _ _ _ S0 S1 S2 Bd Hs).
Defined.

(** X20.  When the first samples of [x_0s] and [x_1s] are arrays with at
    least two dimensions, the model cell and the loss and optimizer
    cell of the DHGCN notebook run to their end: the model is DHGCN of
    the second dimension of the first node features, with two layers,
    moved to the device; Adam is built, with [lr = 0.1], from the
    parameters as they are after the move; [channels_edge] is bound to
    the second dimension of the first edge features. *)
Theorem X20_dhgcn_model_is_built_from_the_node_channels `{Externals} k c0 c1 dev :
  first_sample_2 k "x_0s" c0 → first_sample_2 k "x_1s" c1 →
  bound k "device" (VDevice dev) →
  ∃ L k',
    (Dhgcn.cell_model ;; Dhgcn.cell_loss_opt) k = (L, Ok () k') ∧
    fn <$> L = ["ndarray.shape"; "ndarray.shape"; "DHGCN"; "Module.to";
                "torch.nn.MSELoss"; "Module.parameters"; "torch.optim.Adam"] ∧
    bound k' "channels_edge" (VInt c1) ∧
    model_obj k' = Some (built (DHGCN_init c0 2) dev) ∧
    adam_obj k' = Some (adam_init (params_to dev (DHGCN_init c0 2).1) 0.1).
Proof.
  destruct k as [g mo ao ge]. unfold first_sample_2, bound.
  cbn [globals]. intros (a0 & l0 & n0 & r0 & B0 & S0) (a1 & l1 & n1 & r1 & B1 & S1) Bd.
  eexists _, _. split; [|shelve].
  { eapply bind_Ok.
    - unfold Dhgcn.cell_model.
      eapply (bind_Ok _ _ _ [_]).
      { unfold assign. eapply bind_last; [by eapply channels_run|run1]. }
      eapply (bind_Ok _ _ _ [_]).
      { unfold assign. eapply bind_last; [eapply channels_run; [look; done|done]|run1]. }
      unfold DHGCN_, module_to_. run1.
    - unfold Dhgcn.cell_loss_opt, Adam_. run1. }
  Unshelve. cbn [fst snd model_obj adam_obj globals]. split; [reflexivity|].
  split; [look; done|]. done.
Qed.

Lemma X20_witness :
  first_sample_2 (H0 := Toy.externals 10) (Runs.dhgcn_setup 10) "x_0s" 6 ∧
  first_sample_2 (H0 := Toy.externals 10) (Runs.dhgcn_setup 10) "x_1s" 10 ∧
  bound (Runs.dhgcn_setup 10) "device" Edge.cpu ∧
  ∃ L k',
    (Dhgcn.cell_model (H0 := Toy.externals 10) ;;
     Dhgcn.cell_loss_opt (H0 := Toy.externals 10)) (Runs.dhgcn_setup 10)
    = (L, Ok () k') ∧
    fn <$> L = ["ndarray.shape"; "ndarray.shape"; "DHGCN"; "Module.to";
                "torch.nn.MSELoss"; "Module.parameters"; "torch.optim.Adam"] ∧
    bound k' "channels_edge" (VInt 10) ∧
    model_obj k' = Some Edge.setup_module ∧
    adam_obj k' = Some Edge.setup_adam.
Proof.
  assert (S0 : first_sample_2 (H0 := Toy.externals 10) (Runs.dhgcn_setup 10) "x_0s" 6)
    by (eexists _, _, _, _; split; vm_compute; reflexivity).
  assert (S1 : first_sample_2 (H0 := Toy.externals 10) (Runs.dhgcn_setup 10) "x_1s" 10)
    by (eexists _, _, _, _; split; vm_compute; reflexivity).
  assert (Bd : bound (Runs.dhgcn_setup 10) "device" Edge.cpu)
    by (vm_compute; reflexivity).
  repeat (split; [assumption|]).
  exact (X20_dhgcn_model_is_built_from_the_node_channels (H0 := Toy.externals 10)
           _ _ _ _ S0 S1 Bd).
Defined.
